(** * brewst: the interactive session controller

  A shallow embedding of the dashboard controller of brewst
  (package [views], [DashboardView]), of the confirmation dialog
  (package [components], [Dialog]), of the shared state store
  (package [state], [State]) and of the message routing of the application
  shell (package [app], [Model.Update]), followed by the properties of the
  specification that concern them.

  Conventions.  A Go [int] is a 64-bit two's complement integer: it is
  modelled as a [Z] and every addition or subtraction of the source is
  written with its wrap-around ([GoInt.add], [GoInt.sub]).  A Go [string] is
  a [string] of bytes.  A [tea.Cmd] is a closure that the runtime runs off
  the event loop; it is modelled by the datum [Cmd] describing the work it
  performs, and a [nil] command by the empty list.  The bubbles widgets
  ([textinput], [list], [spinner]) and [strings.TrimSpace] are library code
  and enter through the interface [Bubbles]. *)

From Stdlib Require Import ZArith List String Bool Lia Ascii DecimalString.
Import ListNotations.

Local Open Scope string_scope.
Local Open Scope Z_scope.

(** ** Machine integers *)

Module GoInt.

Definition min_int : Z := - 2 ^ 63.
Definition max_int : Z := 2 ^ 63 - 1.
Definition modulus : Z := 2 ^ 64.

(** Two's complement wrap-around of a 64-bit [int]. *)
Definition wrap (z : Z) : Z := (z + 2 ^ 63) mod modulus - 2 ^ 63.

Definition add (a b : Z) : Z := wrap (a + b).
Definition sub (a b : Z) : Z := wrap (a - b).

(** [len(xs)] *)
Definition len {A : Type} (xs : list A) : Z := Z.of_nat (List.length xs).

Definition in_range (z : Z) : Prop := min_int <= z <= max_int.

(** [fmt.Sprintf("%d", z)] *)
Definition itoa (z : Z) : string := NilZero.string_of_int (Z.to_int z).

End GoInt.

(** ** Domain records (package brew) *)

Module Brew.

(** [type PackageType string] with its two constants. *)
Definition PackageType : Type := string.
Definition TypeFormula : PackageType := "formula".
Definition TypeCask : PackageType := "cask".

Record Package := {
  Name : string;
  FullName : string;
  Version : string;
  Description : string;
  Homepage : string;
  Type_ : PackageType;
  Installed : bool;
  Outdated : bool;
  Pinned : bool
}.

(** [PackageInfo] embeds [Package]; the install date is not modelled. *)
Record PackageInfo := {
  Package_ : Package;
  Dependencies : list string;
  BuildDeps : list string;
  Caveats : string
}.

Record OutdatedPackage := {
  oName : string;
  CurrentVersion : string;
  LatestVersion : string;
  oPinned : bool
}.

End Brew.

(** ** The shared state store (package state) *)

Module StateStore.

Import Brew.

(** The lock [mu] serialises the accesses; the event loop is the only
    caller, so each method is an atomic function of the record. *)
Record State := {
  InstalledPackages : list Package;
  SearchResults : list Package;
  OutdatedPackages : list OutdatedPackage;
  SelectedPackage : option Package;
  ErrorMsg : string;
  SuccessMsg : string;
  LastError : option string;
  ShowFormulae : bool;
  ShowCasks : bool;
  OnlyOutdated : bool;
  OnlyPinned : bool;
  Favorites : list string;
  TotalInstalled : Z;
  TotalOutdated : Z
}.

Definition NewState : State :=
  {| InstalledPackages := []; SearchResults := []; OutdatedPackages := [];
     SelectedPackage := None; ErrorMsg := ""; SuccessMsg := "";
     LastError := None; ShowFormulae := true; ShowCasks := true;
     OnlyOutdated := false; OnlyPinned := false; Favorites := [];
     TotalInstalled := 0; TotalOutdated := 0 |}.

Definition SetInstalled (packages : list Package) (s : State) : State :=
  {| InstalledPackages := packages; SearchResults := SearchResults s;
     OutdatedPackages := OutdatedPackages s;
     SelectedPackage := SelectedPackage s; ErrorMsg := ErrorMsg s;
     SuccessMsg := SuccessMsg s; LastError := LastError s;
     ShowFormulae := ShowFormulae s; ShowCasks := ShowCasks s;
     OnlyOutdated := OnlyOutdated s; OnlyPinned := OnlyPinned s;
     Favorites := Favorites s;
     TotalInstalled := GoInt.len packages;
     TotalOutdated := TotalOutdated s |}.

Definition SetOutdated (packages : list OutdatedPackage) (s : State) : State :=
  {| InstalledPackages := InstalledPackages s;
     SearchResults := SearchResults s;
     OutdatedPackages := packages;
     SelectedPackage := SelectedPackage s; ErrorMsg := ErrorMsg s;
     SuccessMsg := SuccessMsg s; LastError := LastError s;
     ShowFormulae := ShowFormulae s; ShowCasks := ShowCasks s;
     OnlyOutdated := OnlyOutdated s; OnlyPinned := OnlyPinned s;
     Favorites := Favorites s;
     TotalInstalled := TotalInstalled s;
     TotalOutdated := GoInt.len packages |}.

Definition set_messages (e sm : string) (le : option string) (s : State)
  : State :=
  {| InstalledPackages := InstalledPackages s;
     SearchResults := SearchResults s;
     OutdatedPackages := OutdatedPackages s;
     SelectedPackage := SelectedPackage s; ErrorMsg := e;
     SuccessMsg := sm; LastError := le;
     ShowFormulae := ShowFormulae s; ShowCasks := ShowCasks s;
     OnlyOutdated := OnlyOutdated s; OnlyPinned := OnlyPinned s;
     Favorites := Favorites s;
     TotalInstalled := TotalInstalled s;
     TotalOutdated := TotalOutdated s |}.

(** [SetError]: an [error] is its message, [None] is the nil error. *)
Definition SetError (err : option string) (s : State) : State :=
  match err with
  | Some e => set_messages e (SuccessMsg s) (Some e) s
  | None => set_messages "" (SuccessMsg s) None s
  end.

Definition SetSuccess (msg : string) (s : State) : State :=
  set_messages (ErrorMsg s) msg (LastError s) s.

Definition ClearMessages (s : State) : State :=
  set_messages "" "" (LastError s) s.

Definition set_Favorites (favs : list string) (s : State) : State :=
  {| InstalledPackages := InstalledPackages s;
     SearchResults := SearchResults s;
     OutdatedPackages := OutdatedPackages s;
     SelectedPackage := SelectedPackage s; ErrorMsg := ErrorMsg s;
     SuccessMsg := SuccessMsg s; LastError := LastError s;
     ShowFormulae := ShowFormulae s; ShowCasks := ShowCasks s;
     OnlyOutdated := OnlyOutdated s; OnlyPinned := OnlyPinned s;
     Favorites := favs;
     TotalInstalled := TotalInstalled s;
     TotalOutdated := TotalOutdated s |}.

(** The loop body of [GetFilteredPackages]: [true] when the package is
    kept. *)
Definition keeps (s : State) (pkg : Package) : bool :=
  if negb (ShowFormulae s) && String.eqb (Type_ pkg) TypeFormula
  then false
  else if negb (ShowCasks s) && String.eqb (Type_ pkg) TypeCask
  then false
  else if OnlyOutdated s && negb (Outdated pkg) then false
  else if OnlyPinned s && negb (Pinned pkg) then false
  else true.

Definition GetFilteredPackages (s : State) : list Package :=
  List.filter (keeps s) (InstalledPackages s).

(** The loop of [IsFavorite] over a slice. *)
Fixpoint contains (favs : list string) (name : string) : bool :=
  match favs with
  | [] => false
  | fav :: rest => if String.eqb fav name then true else contains rest name
  end.

Definition IsFavorite (s : State) (name : string) : bool :=
  contains (Favorites s) name.

(** The loop of [ToggleFavorite]: the first element equal to [name] is cut
    out ([append(favs[:i], favs[i+1:]...)]) and the loop returns; [None]
    when it runs to the end without a match. *)
Fixpoint remove_first (favs : list string) (name : string)
  : option (list string) :=
  match favs with
  | [] => None
  | fav :: rest =>
      if String.eqb fav name then Some rest
      else match remove_first rest name with
           | Some rest' => Some (fav :: rest')
           | None => None
           end
  end.

Definition toggle (favs : list string) (name : string) : list string :=
  match remove_first favs name with
  | Some favs' => favs'
  | None => favs ++ [name]
  end.

Definition ToggleFavorite (name : string) (s : State) : State :=
  set_Favorites (toggle (Favorites s) name) s.

Definition GetInstalledCount (s : State) : Z := TotalInstalled s.
Definition GetOutdatedCount (s : State) : Z := TotalOutdated s.

End StateStore.

(** ** Messages and commands (bubbletea) *)

Module Tea.

Import Brew.

(** [app.ViewType] *)
Inductive ViewType :=
| ViewHome | ViewInstalled | ViewSearch | ViewDetails
| ViewOutdated | ViewTaps | ViewDiagnostics.

(** The message types that reach [app.Model.Update] and the views.  A
    [tea.KeyMsg] is represented by its [String()], an [error] by its
    message.  The constructors prefixed by [app_] are the types declared in
    package app; [OtherMsg] stands for a message of any other type. *)
Inductive Msg :=
| KeyMsg (key : string)
| WindowSizeMsg (Width Height : Z)
| spinner_TickMsg
| DialogMsg (Confirmed : bool) (Action : string)
| DebouncedLoadMsg (pkg : option Package) (id : Z)
| PackageInfoLoadedMsg (Info : option PackageInfo)
| SearchResultsMsg (Results : list Package)
| PackagesLoadedMsg (Packages : list Package)
| OutdatedLoadedMsg (Packages : list OutdatedPackage)
| SuccessMsgView (Msg_ : string)
| ErrorMsgView (Err : string)
| DoctorOutputMsg (Lines : list string)
| RefreshPackagesMsg
| app_NavigateMsg (view : ViewType)
| app_BackMsg
| app_ErrorMsg (Err : string)
| app_SuccessMsg (Msg_ : string)
| app_PackagesLoadedMsg (Packages : list Package)
| app_OutdatedLoadedMsg (Packages : list OutdatedPackage)
| app_TapsLoadedMsg
| OtherMsg.

(** A [tea.Cmd], by the work its closure performs.  [Emit m] returns [m] at
    once, [Tick d m] is [tea.Tick] returning [m] after [d] milliseconds, a
    [client_] command is the call of that method of [brew.Client],
    [SaveFavorites favs] is the write of the favorites file, which the shell
    performs during the update itself, [WidgetCmd] is whatever command a
    bubbles widget returned (nil included) and [ViewCmd] the command of a
    view other than the dashboard. *)
Inductive Cmd :=
| Emit (m : Msg)
| Tick (ms : Z) (m : Msg)
| client_Info (name : string) (isCask : bool)
| client_Search (query : string)
| client_Install (name : string) (cask : bool)
| client_Uninstall (name : string) (cask : bool)
| client_Upgrade (names : list string)
| client_Doctor
| client_Cleanup
| client_Autoremove
| client_ListInstalled
| client_Outdated
| SaveFavorites (favorites : list string)
| Quit
| WidgetCmd
| ViewCmd.

(** [key.Matches(msg, key.NewBinding(key.WithKeys(keys...)))] *)
Definition Matches (key : string) (keys : list string) : bool :=
  existsb (String.eqb key) keys.

End Tea.

(** ** The confirmation dialog (package components) *)

Module Components.

Import Tea.

Inductive DialogType := DialogConfirm | DialogInfo | DialogError.

(** The callbacks [onConfirm] and [onCancel] are never set nor called. *)
Record Dialog := {
  title : string;
  message : string;
  dialogType : DialogType;
  selectedBtn : Z;
  buttons : list string;
  visible : bool
}.

Definition NewDialog (title message : string) (dialogType : DialogType)
  : Dialog :=
  {| title := title; message := message; dialogType := dialogType;
     selectedBtn := 0;
     buttons := match dialogType with
                | DialogConfirm => ["Confirm"; "Cancel"]
                | _ => ["OK"]
                end;
     visible := false |}.

Definition NewConfirmDialog (title message : string) : Dialog :=
  NewDialog title message DialogConfirm.

Definition with_selectedBtn (n : Z) (d : Dialog) : Dialog :=
  {| title := title d; message := message d; dialogType := dialogType d;
     selectedBtn := n; buttons := buttons d; visible := visible d |}.

Definition with_visible (b : bool) (d : Dialog) : Dialog :=
  {| title := title d; message := message d; dialogType := dialogType d;
     selectedBtn := selectedBtn d; buttons := buttons d; visible := b |}.

Definition Show (d : Dialog) : Dialog := with_selectedBtn 0 (with_visible true d).

Definition Hide (d : Dialog) : Dialog := with_visible false d.

Definition IsVisible (d : Dialog) : bool := visible d.

Definition SetMessage (message : string) (d : Dialog) : Dialog :=
  {| title := title d; message := message; dialogType := dialogType d;
     selectedBtn := selectedBtn d; buttons := buttons d;
     visible := visible d |}.

(** [Dialog.Update].  The remainder of the tab case is Go's [%]; the
    buttons are never empty ([NewDialog]). *)
Definition Update (d : Dialog) (msg : Msg) : Dialog * option Cmd :=
  if negb (visible d) then (d, None)
  else
    match msg with
    | KeyMsg key =>
        if Matches key ["left"; "h"] then
          ((if selectedBtn d >? 0
            then with_selectedBtn (GoInt.sub (selectedBtn d) 1) d else d),
           None)
        else if Matches key ["right"; "l"] then
          ((if selectedBtn d <? GoInt.sub (GoInt.len (buttons d)) 1
            then with_selectedBtn (GoInt.add (selectedBtn d) 1) d else d),
           None)
        else if Matches key ["tab"] then
          (with_selectedBtn
             (Z.rem (GoInt.add (selectedBtn d) 1) (GoInt.len (buttons d))) d,
           None)
        else if Matches key ["enter"] then
          let d' := with_visible false d in
          match dialogType d with
          | DialogConfirm =>
              (d', Some (Emit (DialogMsg (selectedBtn d =? 0) "")))
          | _ => (d', Some (Emit (DialogMsg true "")))
          end
        else if Matches key ["esc"] then
          (with_visible false d, Some (Emit (DialogMsg false "")))
        else (d, None)
    | _ => (d, None)
    end.

End Components.

(** ** The dashboard (package views) *)

Module Views.

Import Brew StateStore Tea Components.

(** Library code used by the dashboard: the bubbles widgets, by what the
    dashboard observes of them, [strings.TrimSpace], and the conversion
    [int(float64(x) * 0.35)] of the layout computation. *)
Class Library := {
  textinput_edit : string -> Msg -> string;
  list_Model : Type;
  list_New : list_Model;
  list_SetItems : list Package -> list_Model -> list_Model;
  list_Items : list_Model -> list Package;
  list_Index : list_Model -> Z;
  list_Update : list_Model -> Msg -> list_Model;
  TrimSpace : string -> string;
  scale35 : Z -> Z
}.

(** [textinput.Model], by its focus and its value. *)
Record TextInput := { focus : bool; value : string }.

Definition Focused (t : TextInput) : bool := focus t.
Definition Value (t : TextInput) : string := value t.
Definition Blur (t : TextInput) : TextInput := {| focus := false; value := value t |}.
Definition Focus (t : TextInput) : TextInput := {| focus := true; value := value t |}.

Inductive PanelType := PanelInstalled | PanelSearch | PanelDependencies.

Section Dashboard.

Context {L : Library}.

(** [textinput.Model.Update]: an input that is not focused ignores the
    message. *)
Definition TextInput_Update (t : TextInput) (msg : Msg) : TextInput :=
  if focus t then {| focus := true; value := textinput_edit (value t) msg |}
  else t.

(** [DashboardView].  The store [state] is the one shared with the
    application shell; the client and the spinner carry no state that the
    controller reads. *)
Record DashboardView := {
  state : State;
  installedList : list_Model;
  searchInput : TextInput;
  searchResults : list Package;
  focusedPanel : PanelType;
  selectedPkg : option Package;
  packageInfo : option PackageInfo;
  loadingInfo : bool;
  searching : bool;
  installedIndex : Z;
  searchIndex : Z;
  depIndex : Z;
  installedScroll : Z;
  searchScroll : Z;
  depScroll : Z;
  pendingPackage : option Package;
  debounceID : Z;
  operationInProgress : bool;
  operationMessage : string;
  dialog : Dialog;
  pendingAction : string;
  logs : list string;
  logsScroll : Z;
  width : Z;
  height : Z
}.

Definition with_state (x : State) (v : DashboardView) : DashboardView :=
  Build_DashboardView x (installedList v) (searchInput v) (searchResults
  v) (focusedPanel v) (selectedPkg v) (packageInfo v) (loadingInfo v)
  (searching v) (installedIndex v) (searchIndex v) (depIndex v)
  (installedScroll v) (searchScroll v) (depScroll v) (pendingPackage v)
  (debounceID v) (operationInProgress v) (operationMessage v) (dialog v)
  (pendingAction v) (logs v) (logsScroll v) (width v) (height v).

Definition with_installedList (x : list_Model) (v : DashboardView) : DashboardView :=
  Build_DashboardView (state v) x (searchInput v) (searchResults v)
  (focusedPanel v) (selectedPkg v) (packageInfo v) (loadingInfo v)
  (searching v) (installedIndex v) (searchIndex v) (depIndex v)
  (installedScroll v) (searchScroll v) (depScroll v) (pendingPackage v)
  (debounceID v) (operationInProgress v) (operationMessage v) (dialog v)
  (pendingAction v) (logs v) (logsScroll v) (width v) (height v).

Definition with_searchInput (x : TextInput) (v : DashboardView) : DashboardView :=
  Build_DashboardView (state v) (installedList v) x (searchResults v)
  (focusedPanel v) (selectedPkg v) (packageInfo v) (loadingInfo v)
  (searching v) (installedIndex v) (searchIndex v) (depIndex v)
  (installedScroll v) (searchScroll v) (depScroll v) (pendingPackage v)
  (debounceID v) (operationInProgress v) (operationMessage v) (dialog v)
  (pendingAction v) (logs v) (logsScroll v) (width v) (height v).

Definition with_searchResults (x : list Package) (v : DashboardView) : DashboardView :=
  Build_DashboardView (state v) (installedList v) (searchInput v) x
  (focusedPanel v) (selectedPkg v) (packageInfo v) (loadingInfo v)
  (searching v) (installedIndex v) (searchIndex v) (depIndex v)
  (installedScroll v) (searchScroll v) (depScroll v) (pendingPackage v)
  (debounceID v) (operationInProgress v) (operationMessage v) (dialog v)
  (pendingAction v) (logs v) (logsScroll v) (width v) (height v).

Definition with_focusedPanel (x : PanelType) (v : DashboardView) : DashboardView :=
  Build_DashboardView (state v) (installedList v) (searchInput v)
  (searchResults v) x (selectedPkg v) (packageInfo v) (loadingInfo v)
  (searching v) (installedIndex v) (searchIndex v) (depIndex v)
  (installedScroll v) (searchScroll v) (depScroll v) (pendingPackage v)
  (debounceID v) (operationInProgress v) (operationMessage v) (dialog v)
  (pendingAction v) (logs v) (logsScroll v) (width v) (height v).

Definition with_selectedPkg (x : option Package) (v : DashboardView) : DashboardView :=
  Build_DashboardView (state v) (installedList v) (searchInput v)
  (searchResults v) (focusedPanel v) x (packageInfo v) (loadingInfo v)
  (searching v) (installedIndex v) (searchIndex v) (depIndex v)
  (installedScroll v) (searchScroll v) (depScroll v) (pendingPackage v)
  (debounceID v) (operationInProgress v) (operationMessage v) (dialog v)
  (pendingAction v) (logs v) (logsScroll v) (width v) (height v).

Definition with_packageInfo (x : option PackageInfo) (v : DashboardView) : DashboardView :=
  Build_DashboardView (state v) (installedList v) (searchInput v)
  (searchResults v) (focusedPanel v) (selectedPkg v) x (loadingInfo v)
  (searching v) (installedIndex v) (searchIndex v) (depIndex v)
  (installedScroll v) (searchScroll v) (depScroll v) (pendingPackage v)
  (debounceID v) (operationInProgress v) (operationMessage v) (dialog v)
  (pendingAction v) (logs v) (logsScroll v) (width v) (height v).

Definition with_loadingInfo (x : bool) (v : DashboardView) : DashboardView :=
  Build_DashboardView (state v) (installedList v) (searchInput v)
  (searchResults v) (focusedPanel v) (selectedPkg v) (packageInfo v) x
  (searching v) (installedIndex v) (searchIndex v) (depIndex v)
  (installedScroll v) (searchScroll v) (depScroll v) (pendingPackage v)
  (debounceID v) (operationInProgress v) (operationMessage v) (dialog v)
  (pendingAction v) (logs v) (logsScroll v) (width v) (height v).

Definition with_searching (x : bool) (v : DashboardView) : DashboardView :=
  Build_DashboardView (state v) (installedList v) (searchInput v)
  (searchResults v) (focusedPanel v) (selectedPkg v) (packageInfo v)
  (loadingInfo v) x (installedIndex v) (searchIndex v) (depIndex v)
  (installedScroll v) (searchScroll v) (depScroll v) (pendingPackage v)
  (debounceID v) (operationInProgress v) (operationMessage v) (dialog v)
  (pendingAction v) (logs v) (logsScroll v) (width v) (height v).

Definition with_installedIndex (x : Z) (v : DashboardView) : DashboardView :=
  Build_DashboardView (state v) (installedList v) (searchInput v)
  (searchResults v) (focusedPanel v) (selectedPkg v) (packageInfo v)
  (loadingInfo v) (searching v) x (searchIndex v) (depIndex v)
  (installedScroll v) (searchScroll v) (depScroll v) (pendingPackage v)
  (debounceID v) (operationInProgress v) (operationMessage v) (dialog v)
  (pendingAction v) (logs v) (logsScroll v) (width v) (height v).

Definition with_searchIndex (x : Z) (v : DashboardView) : DashboardView :=
  Build_DashboardView (state v) (installedList v) (searchInput v)
  (searchResults v) (focusedPanel v) (selectedPkg v) (packageInfo v)
  (loadingInfo v) (searching v) (installedIndex v) x (depIndex v)
  (installedScroll v) (searchScroll v) (depScroll v) (pendingPackage v)
  (debounceID v) (operationInProgress v) (operationMessage v) (dialog v)
  (pendingAction v) (logs v) (logsScroll v) (width v) (height v).

Definition with_installedScroll (x : Z) (v : DashboardView) : DashboardView :=
  Build_DashboardView (state v) (installedList v) (searchInput v)
  (searchResults v) (focusedPanel v) (selectedPkg v) (packageInfo v)
  (loadingInfo v) (searching v) (installedIndex v) (searchIndex v)
  (depIndex v) x (searchScroll v) (depScroll v) (pendingPackage v)
  (debounceID v) (operationInProgress v) (operationMessage v) (dialog v)
  (pendingAction v) (logs v) (logsScroll v) (width v) (height v).

Definition with_searchScroll (x : Z) (v : DashboardView) : DashboardView :=
  Build_DashboardView (state v) (installedList v) (searchInput v)
  (searchResults v) (focusedPanel v) (selectedPkg v) (packageInfo v)
  (loadingInfo v) (searching v) (installedIndex v) (searchIndex v)
  (depIndex v) (installedScroll v) x (depScroll v) (pendingPackage v)
  (debounceID v) (operationInProgress v) (operationMessage v) (dialog v)
  (pendingAction v) (logs v) (logsScroll v) (width v) (height v).

Definition with_depScroll (x : Z) (v : DashboardView) : DashboardView :=
  Build_DashboardView (state v) (installedList v) (searchInput v)
  (searchResults v) (focusedPanel v) (selectedPkg v) (packageInfo v)
  (loadingInfo v) (searching v) (installedIndex v) (searchIndex v)
  (depIndex v) (installedScroll v) (searchScroll v) x (pendingPackage v)
  (debounceID v) (operationInProgress v) (operationMessage v) (dialog v)
  (pendingAction v) (logs v) (logsScroll v) (width v) (height v).

Definition with_pendingPackage (x : option Package) (v : DashboardView) : DashboardView :=
  Build_DashboardView (state v) (installedList v) (searchInput v)
  (searchResults v) (focusedPanel v) (selectedPkg v) (packageInfo v)
  (loadingInfo v) (searching v) (installedIndex v) (searchIndex v)
  (depIndex v) (installedScroll v) (searchScroll v) (depScroll v) x
  (debounceID v) (operationInProgress v) (operationMessage v) (dialog v)
  (pendingAction v) (logs v) (logsScroll v) (width v) (height v).

Definition with_debounceID (x : Z) (v : DashboardView) : DashboardView :=
  Build_DashboardView (state v) (installedList v) (searchInput v)
  (searchResults v) (focusedPanel v) (selectedPkg v) (packageInfo v)
  (loadingInfo v) (searching v) (installedIndex v) (searchIndex v)
  (depIndex v) (installedScroll v) (searchScroll v) (depScroll v)
  (pendingPackage v) x (operationInProgress v) (operationMessage v)
  (dialog v) (pendingAction v) (logs v) (logsScroll v) (width v) (height
  v).

Definition with_operationInProgress (x : bool) (v : DashboardView) : DashboardView :=
  Build_DashboardView (state v) (installedList v) (searchInput v)
  (searchResults v) (focusedPanel v) (selectedPkg v) (packageInfo v)
  (loadingInfo v) (searching v) (installedIndex v) (searchIndex v)
  (depIndex v) (installedScroll v) (searchScroll v) (depScroll v)
  (pendingPackage v) (debounceID v) x (operationMessage v) (dialog v)
  (pendingAction v) (logs v) (logsScroll v) (width v) (height v).

Definition with_operationMessage (x : string) (v : DashboardView) : DashboardView :=
  Build_DashboardView (state v) (installedList v) (searchInput v)
  (searchResults v) (focusedPanel v) (selectedPkg v) (packageInfo v)
  (loadingInfo v) (searching v) (installedIndex v) (searchIndex v)
  (depIndex v) (installedScroll v) (searchScroll v) (depScroll v)
  (pendingPackage v) (debounceID v) (operationInProgress v) x (dialog v)
  (pendingAction v) (logs v) (logsScroll v) (width v) (height v).

Definition with_dialog (x : Dialog) (v : DashboardView) : DashboardView :=
  Build_DashboardView (state v) (installedList v) (searchInput v)
  (searchResults v) (focusedPanel v) (selectedPkg v) (packageInfo v)
  (loadingInfo v) (searching v) (installedIndex v) (searchIndex v)
  (depIndex v) (installedScroll v) (searchScroll v) (depScroll v)
  (pendingPackage v) (debounceID v) (operationInProgress v)
  (operationMessage v) x (pendingAction v) (logs v) (logsScroll v) (width
  v) (height v).

Definition with_pendingAction (x : string) (v : DashboardView) : DashboardView :=
  Build_DashboardView (state v) (installedList v) (searchInput v)
  (searchResults v) (focusedPanel v) (selectedPkg v) (packageInfo v)
  (loadingInfo v) (searching v) (installedIndex v) (searchIndex v)
  (depIndex v) (installedScroll v) (searchScroll v) (depScroll v)
  (pendingPackage v) (debounceID v) (operationInProgress v)
  (operationMessage v) (dialog v) x (logs v) (logsScroll v) (width v)
  (height v).

Definition with_logs (x : list string) (v : DashboardView) : DashboardView :=
  Build_DashboardView (state v) (installedList v) (searchInput v)
  (searchResults v) (focusedPanel v) (selectedPkg v) (packageInfo v)
  (loadingInfo v) (searching v) (installedIndex v) (searchIndex v)
  (depIndex v) (installedScroll v) (searchScroll v) (depScroll v)
  (pendingPackage v) (debounceID v) (operationInProgress v)
  (operationMessage v) (dialog v) (pendingAction v) x (logsScroll v)
  (width v) (height v).

Definition with_width (x : Z) (v : DashboardView) : DashboardView :=
  Build_DashboardView (state v) (installedList v) (searchInput v)
  (searchResults v) (focusedPanel v) (selectedPkg v) (packageInfo v)
  (loadingInfo v) (searching v) (installedIndex v) (searchIndex v)
  (depIndex v) (installedScroll v) (searchScroll v) (depScroll v)
  (pendingPackage v) (debounceID v) (operationInProgress v)
  (operationMessage v) (dialog v) (pendingAction v) (logs v) (logsScroll
  v) x (height v).

Definition with_height (x : Z) (v : DashboardView) : DashboardView :=
  Build_DashboardView (state v) (installedList v) (searchInput v)
  (searchResults v) (focusedPanel v) (selectedPkg v) (packageInfo v)
  (loadingInfo v) (searching v) (installedIndex v) (searchIndex v)
  (depIndex v) (installedScroll v) (searchScroll v) (depScroll v)
  (pendingPackage v) (debounceID v) (operationInProgress v)
  (operationMessage v) (dialog v) (pendingAction v) (logs v) (logsScroll
  v) (width v) x.


Definition NewDashboardView (st : State) : DashboardView :=
  {| state := st; installedList := list_New;
     searchInput := {| focus := false; value := "" |};
     searchResults := []; focusedPanel := PanelInstalled;
     selectedPkg := None; packageInfo := None; loadingInfo := false;
     searching := false; installedIndex := 0; searchIndex := 0;
     depIndex := 0; installedScroll := 0; searchScroll := 0; depScroll := 0;
     pendingPackage := None; debounceID := 0;
     operationInProgress := false; operationMessage := "";
     dialog := NewConfirmDialog "Confirm" ""; pendingAction := "";
     logs := []; logsScroll := 0; width := 0; height := 0 |}.

Definition SetSize (w h : Z) (v : DashboardView) : DashboardView :=
  with_height h (with_width w v).

(** The slice operations of [addLog]. *)
Definition append_log (logs : list string) (msg : string) : list string :=
  let logs1 := (logs ++ [msg])%list in
  if GoInt.len logs1 >? 1000
  then skipn (Z.to_nat (GoInt.len logs1 - 1000)) logs1
  else logs1.

Definition addLog (msg : string) (v : DashboardView) : DashboardView :=
  with_logs (append_log (logs v) msg) v.

Definition updateInstalledList (v : DashboardView) : DashboardView :=
  with_installedList
    (list_SetItems (GetFilteredPackages (state v)) (installedList v)) v.

Definition isCask (pkg : Package) : bool := String.eqb (Type_ pkg) TypeCask.

Definition loadPackageInfo (pkg : Package) (v : DashboardView)
  : DashboardView * list Cmd :=
  (with_loadingInfo true v, [client_Info (Name pkg) (isCask pkg)]).

(** [xs[i]] for an index already checked to be in bounds. *)
Definition index {A : Type} (xs : list A) (i : Z) : option A :=
  if (0 <=? i) && (i <? GoInt.len xs) then nth_error xs (Z.to_nat i)
  else None.

Definition updateSelectedPackage (v : DashboardView) : DashboardView :=
  match focusedPanel v with
  | PanelInstalled =>
      match index (GetFilteredPackages (state v)) (installedIndex v) with
      | Some pkg => with_selectedPkg (Some pkg) v
      | None => v
      end
  | PanelSearch =>
      match index (searchResults v) (searchIndex v) with
      | Some pkg => with_selectedPkg (Some pkg) v
      | None => v
      end
  | PanelDependencies => v
  end.

Definition debouncedLoadPackageInfo (pkg : Package) (v : DashboardView)
  : DashboardView * list Cmd :=
  let v := with_debounceID (GoInt.add (debounceID v) 1) v in
  let v := with_pendingPackage (Some pkg) v in
  let currentID := debounceID v in
  (v, [Tick 200 (DebouncedLoadMsg (Some pkg) currentID)]).

Definition loadSelectedPackageInfo (v : DashboardView)
  : DashboardView * list Cmd :=
  match selectedPkg v with
  | Some pkg => debouncedLoadPackageInfo pkg v
  | None => (v, [])
  end.

Definition performSearch (query : string) (v : DashboardView)
  : DashboardView * list Cmd :=
  (with_searching true v, [client_Search query]).

(** The three assignments that open every operation. *)
Definition begin_operation (message log : string) (v : DashboardView)
  : DashboardView :=
  addLog log (with_operationMessage message (with_operationInProgress true v)).

Definition installPackage (pkg : Package) (v : DashboardView)
  : DashboardView * list Cmd :=
  (begin_operation ("Installing " ++ Name pkg ++ "...")
     ("→ Installing " ++ Name pkg ++ "...") v,
   [client_Install (Name pkg) (isCask pkg)]).

Definition uninstallPackage (pkg : Package) (v : DashboardView)
  : DashboardView * list Cmd :=
  (begin_operation ("Uninstalling " ++ Name pkg ++ "...")
     ("→ Uninstalling " ++ Name pkg ++ "...") v,
   [client_Uninstall (Name pkg) (isCask pkg)]).

Definition upgradePackage (name : string) (v : DashboardView)
  : DashboardView * list Cmd :=
  (begin_operation ("Upgrading " ++ name ++ "...")
     ("→ Upgrading " ++ name ++ "...") v,
   [client_Upgrade [name]]).

Definition upgradeAll (v : DashboardView) : DashboardView * list Cmd :=
  (begin_operation "Upgrading all packages..." "→ Upgrading all packages..." v,
   [client_Upgrade []]).

(** [refresh] appends no log line. *)
Definition refresh (v : DashboardView) : DashboardView * list Cmd :=
  (with_operationMessage "Refreshing packages..."
     (with_operationInProgress true v),
   [Emit RefreshPackagesMsg]).

Definition runDoctor (v : DashboardView) : DashboardView * list Cmd :=
  (begin_operation "Running brew doctor..." "→ Running brew doctor..." v,
   [client_Doctor]).

Definition runCleanup (v : DashboardView) : DashboardView * list Cmd :=
  (begin_operation "Running brew cleanup..." "→ Running brew cleanup..." v,
   [client_Cleanup]).

Definition runAutoremove (v : DashboardView) : DashboardView * list Cmd :=
  (begin_operation "Running brew autoremove..."
     "→ Running brew autoremove..." v,
   [client_Autoremove]).

Definition getInstalledVisibleLines (v : DashboardView) : Z :=
  let contentHeight := GoInt.sub (height v) 1 in
  let installedHeight := contentHeight in
  GoInt.sub installedHeight 5.

Definition getSearchVisibleLines (v : DashboardView) : Z :=
  let contentHeight := GoInt.sub (height v) 1 in
  let searchHeight := scale35 contentHeight in
  let maxLines := GoInt.sub searchHeight 7 in
  if maxLines <? 2 then 2 else maxLines.

Definition getDependenciesVisibleLines (v : DashboardView) : Z :=
  let contentHeight := GoInt.sub (height v) 1 in
  let depTreeHeight := scale35 contentHeight in
  let maxLines := GoInt.sub depTreeHeight 6 in
  if maxLines <? 1 then 1 else maxLines.

(** The statements shared by every request for a confirmation: the pending
    action is recorded, the search input loses the focus and the dialog is
    shown with the prompt. *)
Definition request (action prompt : string) (v : DashboardView)
  : DashboardView :=
  let v := with_pendingAction action v in
  let v := with_searchInput (Blur (searchInput v)) v in
  let v := with_dialog (SetMessage prompt (dialog v)) v in
  with_dialog (Show (dialog v)) v.

(** The code after the switch of [Update]: the message goes to the
    installed list widget when the installed panel has the focus.  Indexing
    the items outside their bounds panics in Go; the widget keeps its index
    within them, and the model then leaves the selection as it is. *)
Definition updateFocusedPanel (msg : Msg) (v : DashboardView)
  : DashboardView * list Cmd :=
  match focusedPanel v with
  | PanelInstalled =>
      let oldIdx := list_Index (installedList v) in
      let v := with_installedList (list_Update (installedList v) msg) v in
      let l := installedList v in
      if negb (list_Index l =? oldIdx) && (GoInt.len (list_Items l) >? 0)
      then
        match index (list_Items l) (list_Index l) with
        | Some pkg =>
            let v := with_selectedPkg (Some pkg) v in
            let '(v, cmds) := loadPackageInfo pkg v in
            (v, (cmds ++ [WidgetCmd])%list)
        | None => (v, [WidgetCmd])
        end
      else (v, [WidgetCmd])
  | _ => (v, [])
  end.

(** [case components.DialogMsg] *)
Definition onDialogMsg (Confirmed : bool) (v : DashboardView)
  : DashboardView * list Cmd :=
  let cleared := (with_pendingAction "" v, []) in
  if Confirmed then
    if String.eqb (pendingAction v) "install" then
      match selectedPkg v with
      | Some pkg => installPackage pkg v
      | None => cleared
      end
    else if String.eqb (pendingAction v) "uninstall" then
      match selectedPkg v with
      | Some pkg => uninstallPackage pkg v
      | None => cleared
      end
    else if String.eqb (pendingAction v) "upgrade" then
      match selectedPkg v with
      | Some pkg => upgradePackage (Name pkg) v
      | None => cleared
      end
    else if String.eqb (pendingAction v) "upgradeAll" then upgradeAll v
    else if String.eqb (pendingAction v) "doctor" then runDoctor v
    else if String.eqb (pendingAction v) "cleanup" then runCleanup v
    else if String.eqb (pendingAction v) "autoremove" then runAutoremove v
    else cleared
  else cleared.

(** [case tea.KeyMsg] while the search input has the focus. *)
Definition onKeyInSearchInput (key : string) (v : DashboardView)
  : DashboardView * list Cmd :=
  if String.eqb key "esc" then
    (with_searchInput (Blur (searchInput v)) v, [])
  else if String.eqb key "enter" then
    let query := Value (searchInput v) in
    if negb (String.eqb query "") then performSearch query v else (v, [])
  else if String.eqb key "tab" then
    let v := with_searchInput (Blur (searchInput v)) v in
    (with_focusedPanel PanelDependencies v, [])
  else
    (with_searchInput (TextInput_Update (searchInput v) (KeyMsg key)) v,
     [WidgetCmd]).

Definition onUp (v : DashboardView) : DashboardView * list Cmd :=
  match focusedPanel v with
  | PanelInstalled =>
      if installedIndex v >? 0 then
        let v := with_installedIndex (GoInt.sub (installedIndex v) 1) v in
        let v := if installedIndex v <? installedScroll v
                 then with_installedScroll (installedIndex v) v else v in
        let v := updateSelectedPackage v in
        loadSelectedPackageInfo v
      else (v, [])
  | PanelSearch =>
      if searchIndex v >? 0 then
        let v := with_searchIndex (GoInt.sub (searchIndex v) 1) v in
        let v := if searchIndex v <? searchScroll v
                 then with_searchScroll (searchIndex v) v else v in
        let v := updateSelectedPackage v in
        loadSelectedPackageInfo v
      else (v, [])
  | PanelDependencies =>
      ((if depScroll v >? 0
        then with_depScroll (GoInt.sub (depScroll v) 1) v else v), [])
  end.

Definition onDown (v : DashboardView) : DashboardView * list Cmd :=
  match focusedPanel v with
  | PanelInstalled =>
      let packages := GetFilteredPackages (state v) in
      if installedIndex v <? GoInt.sub (GoInt.len packages) 1 then
        let v := with_installedIndex (GoInt.add (installedIndex v) 1) v in
        let visibleLines := getInstalledVisibleLines v in
        let v :=
          if installedIndex v >=? GoInt.add (installedScroll v) visibleLines
          then with_installedScroll
                 (GoInt.add (GoInt.sub (installedIndex v) visibleLines) 1) v
          else v in
        let v := updateSelectedPackage v in
        loadSelectedPackageInfo v
      else (v, [])
  | PanelSearch =>
      if searchIndex v <? GoInt.sub (GoInt.len (searchResults v)) 1 then
        let v := with_searchIndex (GoInt.add (searchIndex v) 1) v in
        let visibleLines := getSearchVisibleLines v in
        let v :=
          if searchIndex v >=? GoInt.add (searchScroll v) visibleLines
          then with_searchScroll
                 (GoInt.add (GoInt.sub (searchIndex v) visibleLines) 1) v
          else v in
        let v := updateSelectedPackage v in
        loadSelectedPackageInfo v
      else (v, [])
  | PanelDependencies =>
      match packageInfo v with
      | Some info =>
          let maxScroll :=
            GoInt.sub (GoInt.len (Dependencies info))
              (getDependenciesVisibleLines v) in
          let maxScroll := if maxScroll <? 0 then 0 else maxScroll in
          ((if depScroll v <? maxScroll
            then with_depScroll (GoInt.add (depScroll v) 1) v else v), [])
      | None => (v, [])
      end
  end.

Definition onTab (v : DashboardView) : DashboardView * list Cmd :=
  let v := with_searchInput (Blur (searchInput v)) v in
  match focusedPanel v with
  | PanelInstalled =>
      let v := with_focusedPanel PanelSearch v in
      (with_searchInput (Focus (searchInput v)) v, [])
  | PanelSearch => (with_focusedPanel PanelDependencies v, [])
  | PanelDependencies => (with_focusedPanel PanelInstalled v, [])
  end.

Definition is_PanelInstalled (p : PanelType) : bool :=
  match p with PanelInstalled => true | _ => false end.

Definition is_PanelSearch (p : PanelType) : bool :=
  match p with PanelSearch => true | _ => false end.

(** [case tea.KeyMsg] when the search input does not have the focus: the
    [switch] over the key bindings.  A case that does not return leaves the
    switch for [updateFocusedPanel]. *)
Definition onKey (key : string) (v : DashboardView)
  : DashboardView * list Cmd :=
  if Matches key ["up"; "k"] then onUp v
  else if Matches key ["down"; "j"] then onDown v
  else if Matches key ["tab"] then onTab v
  else if Matches key ["enter"] then
    if is_PanelSearch (focusedPanel v) && (GoInt.len (searchResults v) >? 0)
       && negb (Focused (searchInput v))
    then
      match selectedPkg v with
      | Some pkg =>
          if negb (Installed pkg)
          then (request "install" ("Install " ++ Name pkg ++ "?") v, [])
          else updateFocusedPanel (KeyMsg key) v
      | None => updateFocusedPanel (KeyMsg key) v
      end
    else updateFocusedPanel (KeyMsg key) v
  else if Matches key ["u"] then
    match selectedPkg v with
    | Some pkg =>
        if is_PanelInstalled (focusedPanel v) && Outdated pkg
        then (request "upgrade" ("Upgrade " ++ Name pkg ++ "?") v, [])
        else updateFocusedPanel (KeyMsg key) v
    | None => updateFocusedPanel (KeyMsg key) v
    end
  else if Matches key ["x"] then
    match selectedPkg v with
    | Some pkg =>
        if is_PanelInstalled (focusedPanel v)
        then (request "uninstall" ("Uninstall " ++ Name pkg ++ "?") v, [])
        else updateFocusedPanel (KeyMsg key) v
    | None => updateFocusedPanel (KeyMsg key) v
    end
  else if Matches key ["U"] then
    if is_PanelInstalled (focusedPanel v) then
      let outdatedCount := GetOutdatedCount (state v) in
      if outdatedCount >? 0
      then (request "upgradeAll"
              ("Upgrade all " ++ GoInt.itoa outdatedCount
               ++ " outdated packages?") v, [])
      else (v, [])
    else updateFocusedPanel (KeyMsg key) v
  else if Matches key ["r"] then refresh v
  else if Matches key ["d"] then
    (request "doctor" "Run brew doctor to check for problems?" v, [])
  else if Matches key ["c"] then
    (request "cleanup" "Run brew cleanup to remove old versions?" v, [])
  else if Matches key ["a"] then
    (request "autoremove"
       "Run brew autoremove to uninstall unused dependencies?" v, [])
  else updateFocusedPanel (KeyMsg key) v.

(** The statements that close an operation. *)
Definition end_operation (v : DashboardView) : DashboardView :=
  with_operationMessage "" (with_operationInProgress false v).

(** The loop of the [DoctorOutputMsg] case. *)
Fixpoint addLogLines (lines : list string) (v : DashboardView)
  : DashboardView :=
  match lines with
  | [] => v
  | line :: rest =>
      addLogLines rest
        (if negb (String.eqb (TrimSpace line) "") then addLog line v else v)
  end.

(** The counting loop of the [OutdatedLoadedMsg] case. *)
Definition countOutdated (packages : list Package) : Z :=
  GoInt.len (List.filter Outdated packages).

(** [DashboardView.Update] *)
Definition Update (v : DashboardView) (msg : Msg) : DashboardView * list Cmd :=
  if IsVisible (dialog v) then
    let '(d, cmd) := Components.Update (dialog v) msg in
    (with_dialog d v, match cmd with Some c => [c] | None => [] end)
  else
    match msg with
    | DialogMsg Confirmed _ => onDialogMsg Confirmed v
    | spinner_TickMsg => (v, [WidgetCmd])
    | KeyMsg key =>
        if Focused (searchInput v) then onKeyInSearchInput key v
        else onKey key v
    | DebouncedLoadMsg pkg id =>
        match pkg with
        | Some p => if id =? debounceID v then loadPackageInfo p v else (v, [])
        | None => (v, [])
        end
    | PackageInfoLoadedMsg Info =>
        (with_depScroll 0 (with_loadingInfo false (with_packageInfo Info v)),
         [])
    | SearchResultsMsg Results =>
        let v := with_searchResults Results v in
        let v := with_searching false v in
        let v := with_searchIndex 0 v in
        let v := with_searchScroll 0 v in
        let v := with_searchInput (Blur (searchInput v)) v in
        match searchResults v with
        | first :: _ => loadPackageInfo first (with_selectedPkg (Some first) v)
        | [] => (v, [])
        end
    | PackagesLoadedMsg _ =>
        let v := updateInstalledList v in
        let v := end_operation v in
        let v := with_installedIndex 0 v in
        let v := with_installedScroll 0 v in
        let packages := GetFilteredPackages (state v) in
        let v :=
          addLog ("✓ Loaded " ++ GoInt.itoa (GoInt.len packages)
                  ++ " packages") v in
        match packages with
        | first :: _ => loadPackageInfo first (with_selectedPkg (Some first) v)
        | [] => (v, [])
        end
    | OutdatedLoadedMsg _ =>
        let v := updateInstalledList v in
        let v := end_operation v in
        let outdatedCount := countOutdated (GetFilteredPackages (state v)) in
        if outdatedCount >? 0
        then (addLog ("⚠ Found " ++ GoInt.itoa outdatedCount
                      ++ " outdated packages") v, [])
        else (addLog "✓ All packages are up to date" v, [])
    | SuccessMsgView m =>
        let v := end_operation v in
        let v := addLog ("✓ " ++ m) v in
        let v := with_state (SetSuccess m (state v)) v in
        (v, [Emit RefreshPackagesMsg])
    | ErrorMsgView err =>
        let v := with_loadingInfo false v in
        let v := with_searching false v in
        let v := end_operation v in
        let v := addLog ("Error: " ++ err) v in
        let v := with_state (SetError (Some err) (state v)) v in
        (v, [])
    | DoctorOutputMsg Lines =>
        let v := end_operation v in
        let v := addLogLines Lines v in
        (addLog "✓ Doctor completed" v, [])
    | _ => updateFocusedPanel msg v
    end.

(** [DashboardView.Init] *)
Definition Init (v : DashboardView) : DashboardView * list Cmd :=
  let v := with_operationInProgress true v in
  let v := with_operationMessage "Loading packages..." v in
  let v := addLog "→ Loading installed packages..." v in
  let v := updateInstalledList v in
  let v := with_installedIndex 0 v in
  match GetFilteredPackages (state v) with
  | first :: _ =>
      let '(v, cmds) := loadPackageInfo first (with_selectedPkg (Some first) v) in
      (v, (cmds ++ [WidgetCmd])%list)
  | [] => (v, [WidgetCmd])
  end.

End Dashboard.

End Views.

(** ** The application shell (package app) *)

Module App.

Import Brew StateStore Tea Components.

(** The six views other than the dashboard ([InstalledView], [SearchView],
    [DetailsView], [OutdatedView], [TapsView], [DiagnosticsView]) are kept
    abstract: each reads and writes the shared store and its own fields. *)
Class Others := {
  OtherViews : Type;
  other_Update : ViewType -> State -> OtherViews -> Msg -> State * OtherViews;
  other_Init : ViewType -> State -> OtherViews -> State * OtherViews;
  other_SetSize : Z -> Z -> OtherViews -> OtherViews
}.

Section Shell.

Context {L : Views.Library} {O : Others}.

(** [Model].  [home] is [views[ViewHome]], the dashboard; the store
    [m.state] is the one the dashboard holds, [Views.state (home m)]. *)
Record Model := {
  home : Views.DashboardView;
  others : OtherViews;
  dialog : Dialog;
  currentView : ViewType;
  viewStack : list ViewType;
  width : Z;
  height : Z;
  ready : bool
}.

Definition with_home (x : Views.DashboardView) (m : Model) : Model :=
  Build_Model x (others m) (dialog m) (currentView m) (viewStack m) (width m) (height m) (ready m).

Definition with_others (x : OtherViews) (m : Model) : Model :=
  Build_Model (home m) x (dialog m) (currentView m) (viewStack m) (width m) (height m) (ready m).

Definition with_dialog (x : Dialog) (m : Model) : Model :=
  Build_Model (home m) (others m) x (currentView m) (viewStack m) (width m) (height m) (ready m).

Definition with_currentView (x : ViewType) (m : Model) : Model :=
  Build_Model (home m) (others m) (dialog m) x (viewStack m) (width m) (height m) (ready m).

Definition with_viewStack (x : list ViewType) (m : Model) : Model :=
  Build_Model (home m) (others m) (dialog m) (currentView m) x (width m) (height m) (ready m).

Definition with_ready (x : bool) (m : Model) : Model :=
  Build_Model (home m) (others m) (dialog m) (currentView m) (viewStack m) (width m) (height m) x.

Definition with_size (w h : Z) (m : Model) : Model :=
  Build_Model (home m) (others m) (dialog m) (currentView m) (viewStack m)
    w h (ready m).

Definition store (m : Model) : State := Views.state (home m).

Definition with_store (st : State) (m : Model) : Model :=
  with_home (Views.with_state st (home m)) m.

(** [view.Update(msg)] on the current view. *)
Definition updateView (msg : Msg) (m : Model) : Model * list Cmd :=
  match currentView m with
  | ViewHome =>
      let '(h, cmds) := Views.Update (home m) msg in (with_home h m, cmds)
  | w =>
      let '(st, o) := other_Update w (store m) (others m) msg in
      (with_others o (with_store st m), [ViewCmd])
  end.

(** [v.Init()] on the current view. *)
Definition initView (m : Model) : Model * list Cmd :=
  match currentView m with
  | ViewHome =>
      let '(h, cmds) := Views.Init (home m) in (with_home h m, cmds)
  | w =>
      let '(st, o) := other_Init w (store m) (others m) in
      (with_others o (with_store st m), [ViewCmd])
  end.

Definition navigate (view : ViewType) : list Cmd :=
  [Emit (app_NavigateMsg view)].

(** The first [switch] of [Model.Update]: [Some] when the case returns,
    [None] when control leaves the switch. *)
Definition dispatch (cmds : list Cmd) (msg : Msg) (m : Model)
  : option (Model * list Cmd) :=
  match msg with
  | WindowSizeMsg w h =>
      let m := with_size w h m in
      let m := with_home (Views.SetSize w h (home m)) m in
      let m := with_others (other_SetSize w h (others m)) m in
      Some (with_ready true m, [])
  | KeyMsg key =>
      if String.eqb key "ctrl+c" || String.eqb key "q" then
        Some (m, [SaveFavorites (Favorites (store m)); Quit])
      else if String.eqb key "esc" then
        if GoInt.len (viewStack m) >? 0 then Some (m, [Emit app_BackMsg])
        else None
      else if String.eqb key "?" then Some (m, [])
      else if String.eqb key "1" then Some (m, navigate ViewHome)
      else if String.eqb key "2" then Some (m, navigate ViewInstalled)
      else if String.eqb key "3" then Some (m, navigate ViewSearch)
      else if String.eqb key "4" then Some (m, navigate ViewOutdated)
      else if String.eqb key "5" then Some (m, navigate ViewTaps)
      else if String.eqb key "6" then Some (m, navigate ViewDiagnostics)
      else None
  | app_NavigateMsg view =>
      let m := with_viewStack (viewStack m ++ [currentView m])%list m in
      let m := with_currentView view m in
      let m := with_store (ClearMessages (store m)) m in
      Some (initView m)
  | app_BackMsg =>
      match rev (viewStack m) with
      | top :: below =>
          let m := with_currentView top m in
          let m := with_viewStack (rev below) m in
          Some (with_store (ClearMessages (store m)) m, [])
      | [] => Some (m, [])
      end
  | app_ErrorMsg err => Some (with_store (SetError (Some err) (store m)) m, [])
  | app_SuccessMsg s => Some (with_store (SetSuccess s (store m)) m, [])
  | app_PackagesLoadedMsg packages =>
      let m := with_store (SetInstalled packages (store m)) m in
      let '(m, vcmds) := updateView (PackagesLoadedMsg packages) m in
      Some (m, (cmds ++ vcmds)%list)
  | app_OutdatedLoadedMsg packages =>
      let m := with_store (SetOutdated packages (store m)) m in
      let '(m, vcmds) := updateView (OutdatedLoadedMsg packages) m in
      Some (m, (cmds ++ vcmds)%list)
  | app_TapsLoadedMsg => Some (m, [])
  | _ => None
  end.

Definition is_TickMsg (msg : Msg) : bool :=
  match msg with spinner_TickMsg => true | _ => false end.

(** [Model.Update].  The store field [Taps] is not modelled, and the type
    switch on [*views.HomeView] after the view update never matches: no
    view of the map has that type. *)
Definition Update (m : Model) (msg : Msg) : Model * list Cmd :=
  if negb (ready m) && is_TickMsg msg then (m, [WidgetCmd])
  else
    let '(m, cmds) :=
      if IsVisible (dialog m) then
        let '(d, cmd) := Components.Update (dialog m) msg in
        (with_dialog d m, match cmd with Some c => [c] | None => [] end)
      else (m, []) in
    if IsVisible (dialog m) then (m, cmds)
    else
      match dispatch cmds msg m with
      | Some r => r
      | None =>
          match msg with
          | RefreshPackagesMsg => (m, [client_ListInstalled; client_Outdated])
          | _ =>
              let '(m, vcmds) := updateView msg m in
              (m, (cmds ++ vcmds)%list)
          end
      end.

(** The message that the closure of a command returns when the call of the
    package manager client fails with the error [err]: the commands of the
    dashboard answer [ErrorMsgView], [loadInstalledPackages] answers
    [ErrorMsg] and [loadOutdatedPackages] an empty list. *)
Definition on_failure (c : Cmd) (err : string) : option Msg :=
  match c with
  | client_Info _ _ | client_Search _ | client_Install _ _
  | client_Uninstall _ _ | client_Upgrade _ | client_Doctor
  | client_Cleanup | client_Autoremove => Some (ErrorMsgView err)
  | client_ListInstalled => Some (app_ErrorMsg err)
  | client_Outdated => Some (app_OutdatedLoadedMsg [])
  | _ => None
  end.

End Shell.

End App.

(** ** Observations used by the properties *)

Module Props.

Import Brew StateStore Tea Components Views.

(** The mutating calls of the package manager client, by the action that
    the controller names in [pendingAction]; an upgrade of the empty list
    is the upgrade of all packages. *)
Definition mutating (c : Cmd) : option string :=
  match c with
  | client_Install _ _ => Some "install"
  | client_Uninstall _ _ => Some "uninstall"
  | client_Upgrade [] => Some "upgradeAll"
  | client_Upgrade (_ :: _) => Some "upgrade"
  | client_Doctor => Some "doctor"
  | client_Cleanup => Some "cleanup"
  | client_Autoremove => Some "autoremove"
  | _ => None
  end.

(** A list of commands without a mutating call. *)
Definition quiet (cmds : list Cmd) : Prop :=
  forall c, In c cmds -> mutating c = None.

(** The actions that need a selected package, and those that do not. *)
Definition package_actions : list string := ["install"; "uninstall"; "upgrade"].

Definition global_actions : list string :=
  ["upgradeAll"; "doctor"; "cleanup"; "autoremove"].

Section Runs.

Context {L : Library}.

(** The pending action can be carried out: it is a global action, or an
    action on a package while a package is selected. *)
Definition actionable (v : DashboardView) : Prop :=
  In (pendingAction v) global_actions
  \/ (In (pendingAction v) package_actions /\ selectedPkg v <> None).

(** The controller processes the events in order; each step is recorded
    with the state it started from, the event and the commands returned. *)
Fixpoint history (v : DashboardView) (events : list Msg)
  : list (DashboardView * Msg * list Cmd) :=
  match events with
  | [] => []
  | msg :: rest =>
      let '(v', cmds) := Update v msg in (v, msg, cmds) :: history v' rest
  end.

(** The state after the events. *)
Definition after (v : DashboardView) (events : list Msg) : DashboardView :=
  fold_left (fun v msg => fst (Update v msg)) events v.

(** The selection of a panel over [count] items with [visible] lines. *)
Definition in_window (count index scroll visible : Z) : Prop :=
  (0 < count -> 0 <= index < count)
  /\ scroll <= index < scroll + visible.

Definition installed_selection_ok (v : DashboardView) : Prop :=
  in_window (GoInt.len (GetFilteredPackages (state v)))
    (installedIndex v) (installedScroll v) (getInstalledVisibleLines v).

Definition search_selection_ok (v : DashboardView) : Prop :=
  in_window (GoInt.len (searchResults v))
    (searchIndex v) (searchScroll v) (getSearchVisibleLines v).

Definition selection_ok (v : DashboardView) : Prop :=
  installed_selection_ok v /\ search_selection_ok v.

(** A window of 7 lines or more, which gives the installed panel a visible
    line, and sizes far from the limits of an [int]. *)
Definition well_sized (v : DashboardView) : Prop :=
  7 <= height v < 2 ^ 62
  /\ GoInt.len (GetFilteredPackages (state v)) < 2 ^ 62
  /\ GoInt.len (searchResults v) < 2 ^ 62
  /\ getSearchVisibleLines v < 2 ^ 62
  /\ - 2 ^ 62 < installedIndex v < 2 ^ 62
  /\ - 2 ^ 62 < searchIndex v < 2 ^ 62.

Definition small_results (msg : Msg) : Prop :=
  match msg with
  | SearchResultsMsg Results => GoInt.len Results < 2 ^ 62
  | _ => True
  end.

(** The visible lines as functions of the height. *)
Definition installed_lines (h : Z) : Z := GoInt.sub (GoInt.sub h 1) 5.

Definition search_lines (h : Z) : Z :=
  let maxLines := GoInt.sub (scale35 (GoInt.sub h 1)) 7 in
  if maxLines <? 2 then 2 else maxLines.

(** What the selection invariant reads of a dashboard. *)
Definition frame (v : DashboardView)
  : Z * list Package * Z * Z * list Package * Z * Z :=
  (height v, GetFilteredPackages (state v), installedIndex v,
   installedScroll v, searchResults v, searchIndex v, searchScroll v).

(** The invariant and the size conditions, on the frame. *)
Definition framed (f : Z * list Package * Z * Z * list Package * Z * Z)
  : Prop :=
  let '(h, packages, ii, isc, results, si, ssc) := f in
  (in_window (GoInt.len packages) ii isc (installed_lines h)
   /\ in_window (GoInt.len results) si ssc (search_lines h))
  /\ (7 <= h < 2 ^ 62
      /\ GoInt.len packages < 2 ^ 62
      /\ GoInt.len results < 2 ^ 62
      /\ search_lines h < 2 ^ 62
      /\ - 2 ^ 62 < ii < 2 ^ 62
      /\ - 2 ^ 62 < si < 2 ^ 62).

End Runs.

(** The shell processes the events in order: the state after them and the
    commands returned by each step. *)
Fixpoint shell_run {L : Library} {O : App.Others}
    (m : App.Model) (events : list Msg) : App.Model * list (list Cmd) :=
  match events with
  | [] => (m, [])
  | msg :: rest =>
      let '(m', cmds) := App.Update m msg in
      let '(m'', out) := shell_run m' rest in
      (m'', cmds :: out)
  end.

(** The commands returned by each step of a run of the controller. *)
Definition commands {L : Library} (v : DashboardView) (events : list Msg)
  : list (list Cmd) :=
  List.map snd (history v events).

(** *** The event loop with its timers

    The shell receives the inputs (keys and completions) at their arrival
    times, in milliseconds.  A [Tick d msg] returned at time [now] becomes a
    pending timer that delivers [msg] at [now + d]; every other command is
    recorded as issued.  Before an input is processed the pending timers
    that have expired are delivered, earliest first; when the inputs are
    exhausted the remaining timers expire in turn.  Whether a timer that
    expires at the very instant of an input is delivered before or after it
    is left to [ties]. *)

Section Loop.

Context {L : Library} {Ov : App.Others}.

Record World := {
  shell : App.Model;
  queue : list (Z * Msg);
  issued : list Cmd
}.

(** The queue is kept in the order of expiry; among equal times the older
    timer comes first. *)
Fixpoint insert (t : Z) (msg : Msg) (pending : list (Z * Msg))
  : list (Z * Msg) :=
  match pending with
  | [] => [(t, msg)]
  | (t', msg') :: rest =>
      if t <? t' then (t, msg) :: pending
      else (t', msg') :: insert t msg rest
  end.

Fixpoint schedule (now : Z) (cmds : list Cmd)
    (pending : list (Z * Msg)) (out : list Cmd)
  : list (Z * Msg) * list Cmd :=
  match cmds with
  | [] => (pending, out)
  | Tick d msg :: rest => schedule now rest (insert (now + d) msg pending) out
  | c :: rest => schedule now rest pending (out ++ [c])%list
  end.

Definition deliver (now : Z) (msg : Msg) (w : World) : World :=
  let '(m, cmds) := App.Update (shell w) msg in
  let '(pending, out) := schedule now cmds (queue w) (issued w) in
  {| shell := m; queue := pending; issued := out |}.

(** At most [n] timers are delivered, as long as the earliest is due. *)
Fixpoint expire (n : nat) (due : Z -> bool) (w : World) : World :=
  match n with
  | O => w
  | S n' =>
      match queue w with
      | (t, msg) :: rest =>
          if due t
          then expire n' due
                 (deliver t msg
                    {| shell := shell w; queue := rest; issued := issued w |})
          else w
      | [] => w
      end
  end.

(** One round delivers no more timers than are pending when it starts. *)
Definition expire_due (due : Z -> bool) (w : World) : World :=
  expire (List.length (queue w)) due w.

Definition due_at (ties : bool) (now t : Z) : bool :=
  if ties then t <=? now else t <? now.

Fixpoint run (ties : bool) (inputs : list (Z * Msg)) (w : World) : World :=
  match inputs with
  | [] => expire_due (fun _ => true) w
  | (t, msg) :: rest =>
      run ties rest (deliver t msg (expire_due (due_at ties t) w))
  end.

Definition start (m : App.Model) : World :=
  {| shell := m; queue := []; issued := [] |}.

Definition keystrokes (burst : list (Z * string)) : list (Z * Msg) :=
  List.map (fun tk => (fst tk, KeyMsg (snd tk))) burst.

(** The shell passes navigation keys and triggers to the dashboard. *)
Definition settled (m : App.Model) : Prop :=
  App.currentView m = ViewHome
  /\ IsVisible (App.dialog m) = false
  /\ IsVisible (dialog (App.home m)) = false.

End Loop.

Section Selecting.

Context {L : Library}.

(** The selection of the focused panel and the items it ranges over. *)
Definition selection (v : DashboardView) : Z :=
  match focusedPanel v with
  | PanelInstalled => installedIndex v
  | PanelSearch => searchIndex v
  | PanelDependencies => depIndex v
  end.

Definition items (v : DashboardView) : list Package :=
  match focusedPanel v with
  | PanelInstalled => GetFilteredPackages (state v)
  | PanelSearch => searchResults v
  | PanelDependencies => []
  end.

Definition is_nav (key : string) : bool :=
  Matches key ["up"; "k"] || Matches key ["down"; "j"].

(** Every key of the list is a navigation key that moves the selection. *)
Fixpoint selection_changes (v : DashboardView) (keys : list string) : Prop :=
  match keys with
  | [] => True
  | key :: rest =>
      let v' := fst (Update v (KeyMsg key)) in
      is_nav key = true
      /\ selection v' <> selection v
      /\ selection_changes v' rest
  end.

(** Each input comes less than the debounce delay after the one before. *)
Fixpoint within_delay (times : list Z) : Prop :=
  match times with
  | t :: rest =>
      match rest with
      | t' :: _ => t <= t' < t + 200
      | [] => True
      end /\ within_delay rest
  | [] => True
  end.

(** A dashboard that takes navigation keys: no dialog, the search input
    not focused, and a valid selection in the focused panel. *)
Definition browsing (v : DashboardView) : Prop :=
  IsVisible (dialog v) = false
  /\ Focused (searchInput v) = false
  /\ 0 <= selection v < GoInt.len (items v)
  /\ GoInt.len (items v) <= GoInt.max_int.

(** What a navigation key that moves the selection does. *)
Definition nav_post (v v' : DashboardView) (cmds : list Cmd) : Prop :=
  exists pkg,
    cmds = [Tick 200 (DebouncedLoadMsg (Some pkg) (debounceID v'))]
    /\ debounceID v' = GoInt.add (debounceID v) 1
    /\ selectedPkg v' = Some pkg
    /\ index (items v') (selection v') = Some pkg
    /\ dialog v' = dialog v
    /\ searchInput v' = searchInput v
    /\ items v' = items v.

End Selecting.

(** A pending trigger that an earlier selection of the burst left. *)
Definition old_timer (t0 k bound : Z) (tm : Z * Msg) : Prop :=
  fst tm <= bound
  /\ exists pkg j,
      0 <= j < k /\ snd tm = DebouncedLoadMsg (Some pkg) (GoInt.wrap (t0 + j)).


(** Widgets for the examples: a text input that appends the key, a list
    widget that never moves its cursor, and exact arithmetic for the
    layout. *)
Definition plain_widgets : Library :=
  {| textinput_edit := fun value msg =>
       match msg with KeyMsg key => (value ++ key)%string | _ => value end;
     list_Model := list Package;
     list_New := [];
     list_SetItems := fun items _ => items;
     list_Items := fun l => l;
     list_Index := fun _ => 0;
     list_Update := fun l _ => l;
     TrimSpace := fun s => s;
     scale35 := fun x => x * 35 / 100 |}.

Definition no_other_views : App.Others :=
  {| App.OtherViews := unit;
     App.other_Update := fun _ st o _ => (st, o);
     App.other_Init := fun _ st o => (st, o);
     App.other_SetSize := fun _ _ o => o |}.

Definition formula (name : string) (outdated : bool) : Package :=
  {| Name := name; FullName := name; Version := "1.0"; Description := "";
     Homepage := ""; Type_ := TypeFormula; Installed := true;
     Outdated := outdated; Pinned := false |}.

Definition info_of (pkg : Package) (deps : list string) : PackageInfo :=
  {| Package_ := pkg; Dependencies := deps; BuildDeps := []; Caveats := "" |}.

Definition three_installed : State :=
  SetInstalled
    [formula "git" false; formula "wget" true; formula "zsh" false] NewState.

(** A dashboard of 30 lines over three installed packages, and the shell
    around a dashboard that has not received its size yet. *)
Definition sample_dashboard : DashboardView (L := plain_widgets) :=
  SetSize 80 30 (NewDashboardView three_installed).

Definition sample_model : App.Model (L := plain_widgets) (O := no_other_views) :=
  @App.Build_Model plain_widgets no_other_views
    (NewDashboardView three_installed) tt (NewConfirmDialog "" "")
    ViewHome [] 0 0 false.

(** A longer installed list, and the shell around a dashboard over it. *)
Definition numbered (n : nat) : Package :=
  formula ("pkg" ++ GoInt.itoa (Z.of_nat n)) false.

Definition thirty_installed : State :=
  SetInstalled (List.map numbered (seq 0 30)) NewState.

Definition long_model : App.Model (L := plain_widgets) (O := no_other_views) :=
  @App.Build_Model plain_widgets no_other_views
    (NewDashboardView thirty_installed) tt (NewConfirmDialog "" "")
    ViewHome [] 0 0 false.

(** A package as a search returns it: not installed. *)
Definition found (name : string) : Package :=
  {| Name := name; FullName := name; Version := "1.0"; Description := "";
     Homepage := ""; Type_ := TypeFormula; Installed := false;
     Outdated := false; Pinned := false |}.

(** A numbered log line. *)
Definition line (n : nat) : string := "line " ++ GoInt.itoa (Z.of_nat n).

End Props.

(** ** The package list component (package components, list.go) *)

Module PackageLists.

Import Brew Tea.

Record PackageItem := { pkg : Package; selected : bool }.

(** The bubbles list that [PackageList] wraps, by what the component uses
    of it. *)
Class ItemList := {
  list_Model : Type;
  Index : list_Model -> Z;
  SetItems : list PackageItem -> list_Model -> list_Model;
  list_Update : list_Model -> Msg -> list_Model
}.

Section Component.

Context {W : ItemList}.

Record PackageList := {
  list_ : list_Model;
  items : list PackageItem;
  multiMode : bool
}.

Definition SetPackages (packages : list Package) (l : PackageList)
  : PackageList :=
  let items := List.map (fun p => {| pkg := p; selected := false |}) packages in
  {| list_ := SetItems items (list_ l); items := items;
     multiMode := multiMode l |}.

Definition ToggleMultiMode (l : PackageList) : PackageList :=
  {| list_ := list_ l; items := items l; multiMode := negb (multiMode l) |}.

Definition IsMultiMode (l : PackageList) : bool := multiMode l.

(** [items[idx].selected = !items[idx].selected] *)
Fixpoint flip_at (idx : nat) (items : list PackageItem) : list PackageItem :=
  match items, idx with
  | [], _ => []
  | item :: rest, O =>
      {| pkg := pkg item; selected := negb (selected item) |} :: rest
  | item :: rest, S idx' => item :: flip_at idx' rest
  end.

Definition ToggleSelection (l : PackageList) : PackageList :=
  let idx := Index (list_ l) in
  if (idx >=? 0) && (idx <? GoInt.len (items l)) then
    let items := flip_at (Z.to_nat idx) (items l) in
    {| list_ := SetItems items (list_ l); items := items;
       multiMode := multiMode l |}
  else l.

Definition GetSelected (l : PackageList) : list Package :=
  List.map pkg (List.filter selected (items l)).

Definition ClearSelection (l : PackageList) : PackageList :=
  let items :=
    List.map (fun item => {| pkg := pkg item; selected := false |})
      (items l) in
  {| list_ := SetItems items (list_ l); items := items;
     multiMode := multiMode l |}.

Definition GetCurrentPackage (l : PackageList) : option Package :=
  let idx := Index (list_ l) in
  if (idx >=? 0) && (idx <? GoInt.len (items l))
  then option_map pkg (nth_error (items l) (Z.to_nat idx))
  else None.

Definition IsEmpty (l : PackageList) : bool := GoInt.len (items l) =? 0.

Definition Update (l : PackageList) (msg : Msg) : PackageList * list Cmd :=
  let widget :=
    ({| list_ := list_Update (list_ l) msg; items := items l;
        multiMode := multiMode l |}, [WidgetCmd]) in
  match msg with
  | KeyMsg key =>
      if multiMode l && Matches key [" "; "space"]
      then (ToggleSelection l, [])
      else widget
  | _ => widget
  end.

(** [PackageItem.Description]; [desc[:57]] cuts bytes. *)
Definition Description (i : PackageItem) : string :=
  let version :=
    if String.eqb (Version (pkg i)) "" then ""
    else "v" ++ Version (pkg i) in
  let desc := Brew.Description (pkg i) in
  let desc :=
    if Z.of_nat (String.length desc) >? 60
    then String.substring 0 57 desc ++ "..." else desc in
  if negb (String.eqb version "") && negb (String.eqb desc "")
  then version ++ " • " ++ desc
  else if negb (String.eqb version "") then version
  else desc.

End Component.

End PackageLists.

(** ** Observations used by the further properties *)

Module More.

Import Brew StateStore Tea Components Views Props.

(** The keys bound to the actions that need no package, with the pending
    action each records and the call each stands for. *)
Definition global_requests : list (string * string * Cmd) :=
  [("d", "doctor", client_Doctor);
   ("c", "cleanup", client_Cleanup);
   ("a", "autoremove", client_Autoremove)].

(** The store after a sequence of toggles, oldest first. *)
Definition toggle_all (names : list string) (s : State) : State :=
  fold_left (fun s name => ToggleFavorite name s) names s.

(** The filters of [NewState]: every type is shown, nothing is required. *)
Definition shows_everything (s : State) : Prop :=
  ShowFormulae s = true /\ ShowCasks s = true
  /\ OnlyOutdated s = false /\ OnlyPinned s = false.

Section Asking.

Context {L : Library}.

(** A dashboard that takes the keys of the bindings: no dialog is open, the
    search input is not focused, and the dialog is the confirmation dialog
    of [NewDashboardView]. *)
Definition ready_to_ask (v : DashboardView) : Prop :=
  IsVisible (dialog v) = false
  /\ Focused (searchInput v) = false
  /\ dialogType (dialog v) = DialogConfirm
  /\ buttons (dialog v) = ["Confirm"; "Cancel"].

(** The scroll offset of the dependencies panel stays between the first
    row and the last offset that still fills the panel. *)
Definition deps_scroll_ok (v : DashboardView) : Prop :=
  match packageInfo v with
  | Some info =>
      GoInt.len (Dependencies info) < 2 ^ 62
      /\ 0 <= depScroll v
         <= Z.max 0 (GoInt.len (Dependencies info)
                     - getDependenciesVisibleLines v)
  | None => depScroll v = 0
  end.

Definition small_info (msg : Msg) : Prop :=
  match msg with
  | PackageInfoLoadedMsg (Some info) =>
      GoInt.len (Dependencies info) < 2 ^ 62
  | _ => True
  end.

End Asking.

(** The keys that [Model.Update] binds for itself, [esc] apart. *)
Definition global_keys : list string :=
  ["ctrl+c"; "q"; "?"; "1"; "2"; "3"; "4"; "5"; "6"].

(** *** What the panels show

    The render functions of the dashboard build their panels with lipgloss.
    What is modelled is what they take from the state: the log lines that
    [renderLogsPanel] writes, each with the style that colours it, and the
    rows that the loop of [renderInstalledPanel] goes through, each with
    its selection mark and its package.  Titles, headers, the formatting of
    a row into columns (which cuts names and versions to widths computed
    from the width of the window), the placeholder of an empty panel and
    the frame are left out. *)

(** [strings.Contains], on the bytes of the two strings. *)
Fixpoint Contains (s substr : string) : bool :=
  if String.prefix substr s then true
  else match s with
       | EmptyString => false
       | String _ rest => Contains rest substr
       end.

Inductive LogStyle :=
| ErrorStyle | SuccessMessageStyle | OutdatedStyle | DimStyle.

(** The colour coding of [renderLogsPanel]. *)
Definition logStyle (logLine : string) : LogStyle :=
  if Contains logLine "Error" || Contains logLine "error" then ErrorStyle
  else if Contains logLine "Success" || Contains logLine "✓"
  then SuccessMessageStyle
  else if Contains logLine "Warning" || Contains logLine "⚠"
  then OutdatedStyle
  else DimStyle.

Section Rendering.

Context {L : Library}.

(** The loop of [renderLogsPanel] over [v.logs[start:]]. *)
Definition renderLogsPanel_lines (v : DashboardView) (height : Z)
  : list (LogStyle * string) :=
  if GoInt.len (logs v) =? 0 then []
  else
    let maxLines := GoInt.sub height 4 in
    let maxLines := if maxLines <? 1 then 1 else maxLines in
    let start :=
      if GoInt.len (logs v) >? maxLines
      then GoInt.sub (GoInt.len (logs v)) maxLines else 0 in
    List.map (fun logLine => (logStyle logLine, logLine))
      (skipn (Z.to_nat start) (logs v)).

(** The body of the row loop of [renderInstalledPanel], from row [i] on:
    the mark of the selected row and the package. *)
Fixpoint rows_from (v : DashboardView) (i : Z) (packages : list Package)
  : list (bool * Package) :=
  match packages with
  | [] => []
  | pkg :: rest =>
      ((i =? installedIndex v) && is_PanelInstalled (focusedPanel v), pkg)
      :: rows_from v (GoInt.add i 1) rest
  end.

(** The row loop of [renderInstalledPanel], [for i := start; i < end; i++]
    over [packages[i]]; [None] when an index is out of range, where Go
    panics. *)
Definition renderInstalledPanel_rows (v : DashboardView) (height : Z)
  : option (list (bool * Package)) :=
  let packages := GetFilteredPackages (state v) in
  let maxLines := GoInt.sub height 5 in
  let maxLines := if maxLines <? 5 then 5 else maxLines in
  let start := installedScroll v in
  let end_ := GoInt.add start maxLines in
  let end_ := if end_ >? GoInt.len packages then GoInt.len packages
              else end_ in
  if start <? end_ then
    if start <? 0 then None
    else Some (rows_from v start
                 (firstn (Z.to_nat (end_ - start))
                    (skipn (Z.to_nat start) packages)))
  else Some [].

(** The rows of the installed panel in [View]: none while the width or
    the height is 0, where [View] returns before it renders a panel, and
    otherwise the rows for the height of the window less the status
    line. *)
Definition View_installed_rows (v : DashboardView)
  : option (list (bool * Package)) :=
  if (width v =? 0) || (height v =? 0) then Some []
  else renderInstalledPanel_rows v (GoInt.sub (height v) 1).

End Rendering.

End More.

Import Brew StateStore Tea Components Views Props.

(** * Properties *)

(** ** Favorites *)

Lemma contains_app (favs : list string) (name m : string) :
  contains (favs ++ [name]) m = contains favs m || String.eqb name m.
Proof.
  induction favs as [|fav rest IH]; simpl.
  - now destruct (String.eqb name m).
  - destruct (String.eqb fav m); [reflexivity | exact IH].
Qed.

Lemma contains_In (favs : list string) (name : string) :
  contains favs name = true <-> In name favs.
Proof.
  induction favs as [|fav rest IH]; simpl.
  - split; [discriminate | tauto].
  - destruct (String.eqb_spec fav name) as [->|Hne].
    + tauto.
    + rewrite IH. split; [tauto | intros [H|H]; [contradiction | assumption]].
Qed.

Lemma remove_first_None (favs : list string) (name : string) :
  remove_first favs name = None <-> contains favs name = false.
Proof.
  induction favs as [|fav rest IH]; simpl.
  - tauto.
  - destruct (String.eqb fav name).
    + split; discriminate.
    + destruct (remove_first rest name); rewrite <- IH;
        split; try discriminate; reflexivity.
Qed.

Lemma remove_first_other (favs favs' : list string) (name m : string) :
  remove_first favs name = Some favs' -> m <> name ->
  contains favs' m = contains favs m.
Proof.
  revert favs'. induction favs as [|fav rest IH]; simpl; intros favs' H Hm.
  - discriminate.
  - destruct (String.eqb_spec fav name) as [->|Hne].
    + injection H as <-.
      destruct (String.eqb_spec name m) as [->|_]; [contradiction | reflexivity].
    + destruct (remove_first rest name) as [rest'|]; [|discriminate].
      injection H as <-. simpl. rewrite (IH rest' eq_refl Hm). reflexivity.
Qed.

Lemma remove_first_gone (favs favs' : list string) (name : string) :
  NoDup favs -> remove_first favs name = Some favs' ->
  contains favs' name = false.
Proof.
  revert favs'. induction favs as [|fav rest IH]; simpl; intros favs' Hnd H.
  - discriminate.
  - inversion Hnd as [|? ? Hnotin Hnd']; subst.
    destruct (String.eqb_spec fav name) as [->|Hne].
    + injection H as <-.
      destruct (contains rest name) eqn:E; [|reflexivity].
      apply contains_In in E. contradiction.
    + destruct (remove_first rest name) as [rest'|]; [|discriminate].
      injection H as <-. simpl.
      destruct (String.eqb_spec fav name); [contradiction|].
      now apply IH.
Qed.

Lemma toggle_flips (favs : list string) (name : string) :
  NoDup favs -> contains (toggle favs name) name = negb (contains favs name).
Proof.
  intros Hnd. unfold toggle.
  destruct (remove_first favs name) as [favs'|] eqn:E.
  - rewrite (remove_first_gone _ _ _ Hnd E).
    destruct (contains favs name) eqn:C; [reflexivity|].
    apply remove_first_None in C. congruence.
  - apply remove_first_None in E. rewrite contains_app, E, String.eqb_refl.
    reflexivity.
Qed.

Lemma toggle_other (favs : list string) (name m : string) :
  m <> name -> contains (toggle favs name) m = contains favs m.
Proof.
  intros Hm. unfold toggle.
  destruct (remove_first favs name) as [favs'|] eqn:E.
  - now apply remove_first_other with (name := name).
  - rewrite contains_app.
    destruct (String.eqb_spec name m) as [->|_]; [contradiction|].
    now rewrite orb_false_r.
Qed.

Lemma remove_first_NoDup (favs favs' : list string) (name : string) :
  NoDup favs -> remove_first favs name = Some favs' -> NoDup favs'.
Proof.
  revert favs'. induction favs as [|fav rest IH]; simpl; intros favs' Hnd H.
  - discriminate.
  - inversion Hnd as [|? ? Hnotin Hnd']; subst.
    destruct (String.eqb_spec fav name) as [->|Hne].
    + now injection H as <-.
    + destruct (remove_first rest name) as [rest'|] eqn:E; [|discriminate].
      injection H as <-. constructor; [|now apply IH].
      intros Hin. apply Hnotin. apply contains_In.
      rewrite <- (remove_first_other rest rest' name fav E) by congruence.
      now apply contains_In.
Qed.

Lemma toggle_NoDup (favs : list string) (name : string) :
  NoDup favs -> NoDup (toggle favs name).
Proof.
  intros Hnd. unfold toggle.
  destruct (remove_first favs name) as [favs'|] eqn:E.
  - exact (remove_first_NoDup _ _ _ Hnd E).
  - apply remove_first_None in E.
    apply NoDup_app; [assumption | repeat constructor; intros [] |].
    intros x Hx [<-|[]]. apply contains_In in Hx. congruence.
Qed.

(** C10 (as amended).  On a favorites list without duplicates,
    [ToggleFavorite n] flips [IsFavorite n], leaves the membership of every
    other name unchanged, and toggling twice restores the membership of
    every name. *)
Theorem ToggleFavorite_flips_membership (s : State) (n : string) :
  NoDup (Favorites s) ->
  IsFavorite (ToggleFavorite n s) n = negb (IsFavorite s n)
  /\ (forall m, m <> n -> IsFavorite (ToggleFavorite n s) m = IsFavorite s m)
  /\ (forall m,
        IsFavorite (ToggleFavorite n (ToggleFavorite n s)) m = IsFavorite s m).
Proof.
  intros Hnd. unfold IsFavorite, ToggleFavorite. simpl.
  split; [now apply toggle_flips|].
  split; [intros m Hm; now apply toggle_other|].
  intros m. destruct (String.eqb_spec m n) as [->|Hm].
  - rewrite toggle_flips by now apply toggle_NoDup.
    rewrite toggle_flips by assumption. apply negb_involutive.
  - now rewrite !toggle_other.
Qed.

Lemma ToggleFavorite_flips_membership_witness :
  let s := set_Favorites ["git"; "wget"] NewState in
  NoDup (Favorites s)
  /\ IsFavorite (ToggleFavorite "wget" s) "wget" = negb (IsFavorite s "wget")
  /\ IsFavorite (ToggleFavorite "wget" (ToggleFavorite "wget" s)) "git"
     = IsFavorite s "git".
Proof.
  intros s.
  assert (Hnd : NoDup (Favorites s)).
  { simpl. repeat constructor; simpl; intuition discriminate. }
  destruct (ToggleFavorite_flips_membership s "wget" Hnd) as (H1 & _ & H3).
  exact (conj Hnd (conj H1 (H3 "git"))).
Defined.

(** C10 (as stated) fails on a list with a duplicate, which the favorites
    file may hold: only the first occurrence is cut out, and the name stays
    a favorite. *)
Lemma ToggleFavorite_duplicate_stays :
  let s := set_Favorites ["wget"; "wget"] NewState in
  IsFavorite s "wget" = true
  /\ Favorites (ToggleFavorite "wget" s) = ["wget"]
  /\ IsFavorite (ToggleFavorite "wget" s) "wget" <> negb (IsFavorite s "wget").
Proof.
  simpl. repeat split. discriminate.
Qed.

(** ** The log buffer *)

Lemma append_log_skipn (logs : list string) (msg : string) :
  append_log logs msg
  = skipn (List.length (logs ++ [msg]) - 1000) (logs ++ [msg]).
Proof.
  unfold append_log, GoInt.len.
  destruct (Z.gtb_spec (Z.of_nat (List.length (logs ++ [msg]))) 1000) as [H|H].
  - f_equal. lia.
  - replace (List.length (logs ++ [msg]) - 1000)%nat with 0%nat by lia.
    reflexivity.
Qed.

Lemma fold_append_log (entries logs : list string) :
  entries <> [] ->
  fold_left append_log entries logs
  = skipn (List.length (logs ++ entries) - 1000) (logs ++ entries).
Proof.
  revert logs. induction entries as [|e rest IH]; intros logs Hne.
  - contradiction.
  - simpl. destruct rest as [|e' rest'].
    + simpl. apply append_log_skipn.
    + rewrite IH by discriminate. rewrite append_log_skipn.
      set (X := (logs ++ [e])%list).
      replace (logs ++ e :: e' :: rest')%list with (X ++ e' :: rest')%list
        by (unfold X; now rewrite <- app_assoc).
      set (ms := e' :: rest').
      set (k := (List.length X - 1000)%nat).
      assert (Hk : (k <= List.length X)%nat) by lia.
      assert (Happ : (skipn k X ++ ms = skipn k (X ++ ms))%list).
      { rewrite skipn_app. replace (k - List.length X)%nat with 0%nat by lia.
        reflexivity. }
      rewrite Happ, skipn_skipn. f_equal.
      rewrite <- Happ, !length_app, length_skipn. lia.
Qed.

Lemma logs_fold_addLog {L : Library} (entries : list string) (v : DashboardView) :
  logs (fold_left (fun v e => addLog e v) entries v)
  = fold_left append_log entries (logs v).
Proof.
  revert v. induction entries as [|e rest IH]; intros v; simpl.
  - reflexivity.
  - now rewrite IH.
Qed.

(** C7.  Whatever entries are appended to a log within the cap, the log
    holds at most 1000 entries and they are the last 1000 of the sequence,
    in their order; after 1001 appends to the empty log the first entry is
    gone and the second is the oldest. *)
Theorem addLog_keeps_last_1000 {L : Library}
    (v : DashboardView) (entries : list string) :
  (List.length (logs v) <= 1000)%nat ->
  let v' := fold_left (fun v e => addLog e v) entries v in
  (List.length (logs v') <= 1000)%nat
  /\ logs v'
     = skipn (List.length (logs v ++ entries) - 1000) (logs v ++ entries)
  /\ (logs v = [] -> List.length entries = 1001%nat ->
      logs v' = tl entries /\ hd_error (logs v') = nth_error entries 1).
Proof.
  intros Hcap v'.
  assert (Heq : logs v'
     = skipn (List.length (logs v ++ entries) - 1000) (logs v ++ entries)).
  { unfold v'. rewrite logs_fold_addLog.
    destruct entries as [|e rest].
    - simpl. rewrite app_nil_r.
      replace (List.length (logs v) - 1000)%nat with 0%nat by lia.
      reflexivity.
    - apply fold_append_log. discriminate. }
  split; [rewrite Heq, length_skipn; lia|].
  split; [exact Heq|].
  intros Hnil Hlen. rewrite Heq, Hnil. simpl.
  rewrite Hlen. change (1001 - 1000)%nat with 1%nat.
  destruct entries as [|e1 [|e2 rest]]; simpl in *; try discriminate.
  split; reflexivity.
Qed.

Lemma addLog_keeps_last_1000_witness :
  let v := NewDashboardView (L := plain_widgets) NewState in
  let entries := List.map line (seq 1 1001) in
  let v' := fold_left (fun v e => addLog e v) entries v in
  (List.length (logs v) <= 1000)%nat
  /\ (List.length (logs v') <= 1000)%nat
  /\ hd_error (logs v') = Some (line 2).
Proof.
  intros v entries v'.
  assert (Hcap : (List.length (logs v) <= 1000)%nat) by (simpl; lia).
  destruct (addLog_keeps_last_1000 v entries Hcap) as (H1 & _ & H3).
  destruct (H3 eq_refl) as [_ Hhd].
  { unfold entries. now rewrite length_map, length_seq. }
  split; [exact Hcap|]. split; [exact H1|].
  fold v' in Hhd. rewrite Hhd. reflexivity.
Defined.

(** ** Confirmation-gated dispatch *)

(** Case analysis on the innermost scrutinee of the goal, repeated. *)
Ltac split_cases :=
  repeat (cbn [fst snd];
          match goal with
          | |- context [match ?x with _ => _ end] =>
              lazymatch x with
              | context [match _ with _ => _ end] => fail
              | _ => destruct x eqn:?
              end
          end);
  cbn [fst snd].

Ltac quiet_list :=
  let c := fresh "c" in
  let H := fresh "H" in
  intros c H; simpl in H; intuition (subst; reflexivity).

Section Dispatch.

Context {L : Library}.

Lemma quiet_loadSelectedPackageInfo (v : DashboardView) :
  quiet (snd (loadSelectedPackageInfo v)).
Proof.
  unfold loadSelectedPackageInfo, debouncedLoadPackageInfo.
  split_cases; quiet_list.
Qed.

Lemma quiet_updateFocusedPanel (msg : Msg) (v : DashboardView) :
  quiet (snd (updateFocusedPanel msg v)).
Proof.
  unfold updateFocusedPanel, loadPackageInfo. split_cases; quiet_list.
Qed.

Lemma quiet_onUp (v : DashboardView) : quiet (snd (onUp v)).
Proof.
  unfold onUp. split_cases; try apply quiet_loadSelectedPackageInfo; quiet_list.
Qed.

Lemma quiet_onDown (v : DashboardView) : quiet (snd (onDown v)).
Proof.
  unfold onDown.
  split_cases; try apply quiet_loadSelectedPackageInfo; quiet_list.
Qed.

Lemma quiet_onTab (v : DashboardView) : quiet (snd (onTab v)).
Proof. unfold onTab. split_cases; quiet_list. Qed.

Lemma quiet_onKey (key : string) (v : DashboardView) :
  quiet (snd (onKey key v)).
Proof.
  unfold onKey, refresh.
  split_cases;
    try apply quiet_onUp; try apply quiet_onDown; try apply quiet_onTab;
    try apply quiet_updateFocusedPanel; quiet_list.
Qed.

Lemma quiet_onKeyInSearchInput (key : string) (v : DashboardView) :
  quiet (snd (onKeyInSearchInput key v)).
Proof.
  unfold onKeyInSearchInput, performSearch. split_cases; quiet_list.
Qed.

Lemma quiet_dialog_Update (d : Dialog) (msg : Msg) :
  quiet (match snd (Components.Update d msg) with
         | Some c => [c]
         | None => []
         end).
Proof.
  unfold Components.Update.
  destruct (negb (visible d)); [quiet_list|].
  destruct msg; try quiet_list.
  split_cases; quiet_list.
Qed.

(** A keystroke never dispatches a mutating call. *)
Lemma quiet_Update_KeyMsg (v : DashboardView) (key : string) :
  quiet (snd (Update v (KeyMsg key))).
Proof.
  unfold Update.
  destruct (IsVisible (dialog v)).
  - pose proof (quiet_dialog_Update (dialog v) (KeyMsg key)) as H.
    destruct (Components.Update (dialog v) (KeyMsg key)) as [d cmd].
    exact H.
  - destruct (Focused (searchInput v)).
    + apply quiet_onKeyInSearchInput.
    + apply quiet_onKey.
Qed.

Lemma onDialogMsg_mutating (confirmed : bool) (v : DashboardView)
    (c : Cmd) (action : string) :
  In c (snd (onDialogMsg confirmed v)) -> mutating c = Some action ->
  confirmed = true /\ pendingAction v = action.
Proof.
  unfold onDialogMsg, installPackage, uninstallPackage, upgradePackage,
    upgradeAll, runDoctor, runCleanup, runAutoremove.
  repeat match goal with
    | |- context [String.eqb ?a ?b] => destruct (String.eqb_spec a b)
    | |- context [match ?x with _ => _ end] => destruct x eqn:?
    end; simpl; intros Hin Hm;
    repeat match goal with
      | H : _ \/ _ |- _ => destruct H
      | H : False |- _ => contradiction
      end; subst; simpl in Hm; try discriminate;
    injection Hm as <-; split; congruence.
Qed.

(** One step: a mutating call leaves [Update] only on a confirmed dialog
    resolution, for the action that is pending. *)
Lemma Update_mutating (v : DashboardView) (msg : Msg)
    (c : Cmd) (action : string) :
  In c (snd (Update v msg)) -> mutating c = Some action ->
  IsVisible (dialog v) = false
  /\ (exists a, msg = DialogMsg true a)
  /\ pendingAction v = action.
Proof.
  intros Hin Hm.
  assert (Hq : quiet (snd (Update v msg)) -> False).
  { intros Hq. rewrite (Hq c Hin) in Hm. discriminate. }
  unfold Update in *.
  destruct (IsVisible (dialog v)) eqn:Hvis.
  - exfalso. apply Hq.
    pose proof (quiet_dialog_Update (dialog v) msg) as H.
    destruct (Components.Update (dialog v) msg) as [d cmd]. exact H.
  - split; [reflexivity|].
    destruct msg;
      try (exfalso; apply Hq;
           first [ apply quiet_updateFocusedPanel
                 | unfold loadPackageInfo; split_cases; quiet_list ]).
    + exfalso. apply Hq. split_cases.
      * apply quiet_onKeyInSearchInput.
      * apply quiet_onKey.
    + destruct (onDialogMsg_mutating _ _ _ _ Hin Hm) as [-> Hp].
      split; [now exists Action | exact Hp].
Qed.

Lemma history_step (v : DashboardView) (events : list Msg)
    (pre : DashboardView) (msg : Msg) (cmds : list Cmd) :
  In (pre, msg, cmds) (history v events) -> cmds = snd (Update pre msg).
Proof.
  revert v. induction events as [|e rest IH]; intros v; simpl.
  - contradiction.
  - destruct (Update v e) as [v' cs] eqn:E. intros [H|H].
    + injection H as <- <- <-. now rewrite E.
    + exact (IH v' H).
Qed.

End Dispatch.

(** C1.  In every run of the controller, a step that dispatches a mutating
    call is the processing of a dialog resolution with [Confirmed = true],
    in a state whose dialog is closed and whose pending action is the
    action of the call. *)
Theorem mutating_call_needs_confirmation {L : Library}
    (v0 : DashboardView) (events : list Msg)
    (pre : DashboardView) (msg : Msg) (cmds : list Cmd)
    (c : Cmd) (action : string) :
  In (pre, msg, cmds) (history v0 events) ->
  In c cmds ->
  mutating c = Some action ->
  IsVisible (dialog pre) = false
  /\ (exists a, msg = DialogMsg true a)
  /\ pendingAction pre = action.
Proof.
  intros Hstep Hin Hm. apply history_step in Hstep. subst cmds.
  now apply Update_mutating with (c := c).
Qed.

Lemma mutating_call_needs_confirmation_witness :
  let v0 := NewDashboardView (L := plain_widgets) NewState in
  let events := [KeyMsg "d"; KeyMsg "enter"; DialogMsg true ""] in
  let pre := after v0 [KeyMsg "d"; KeyMsg "enter"] in
  In (pre, DialogMsg true "", [client_Doctor]) (history v0 events)
  /\ pendingAction pre = "doctor".
Proof.
  intros v0 events pre.
  assert (Hstep : In (pre, DialogMsg true "", [client_Doctor])
                     (history v0 events)).
  { simpl. right. right. left. reflexivity. }
  split; [exact Hstep|].
  exact (proj2 (proj2 (mutating_call_needs_confirmation v0 events pre
                         (DialogMsg true "") [client_Doctor] client_Doctor
                         "doctor" Hstep (or_introl eq_refl) eq_refl))).
Defined.

(** C3 (defect).  A confirmed resolution that dispatches its action returns
    before the pending action is cleared: after the operator asks for the
    doctor and confirms, the pending action is still ["doctor"], and a
    further confirmed resolution dispatches the doctor a second time. *)
Theorem confirmed_resolution_keeps_pendingAction :
  let v0 := NewDashboardView (L := plain_widgets) NewState in
  let asked := [KeyMsg "d"; KeyMsg "enter"; DialogMsg true ""] in
  pendingAction (after v0 [KeyMsg "d"; KeyMsg "enter"]) = "doctor"
  /\ pendingAction (after v0 asked) = "doctor"
  /\ pendingAction (after v0 [KeyMsg "d"; KeyMsg "enter"; DialogMsg false ""])
     = ""
  /\ commands v0 (asked ++ [DialogMsg true ""])
     = [[]; [Emit (DialogMsg true "")]; [client_Doctor]; [client_Doctor]].
Proof. repeat split. Qed.

(** ** Operation status *)

(** C5 (as stated) fails: with the doctor dispatched and no completion
    received, the operator asks for the doctor again and confirms; the
    status is in progress before each of the three steps and the doctor is
    dispatched a second time. *)
Lemma duplicate_dispatch_while_in_progress :
  let v0 := NewDashboardView (L := plain_widgets) NewState in
  let first := [KeyMsg "d"; KeyMsg "enter"; DialogMsg true ""] in
  let again := [KeyMsg "d"; KeyMsg "enter"; DialogMsg true ""] in
  commands v0 first = [[]; [Emit (DialogMsg true "")]; [client_Doctor]]
  /\ List.map (fun step => operationInProgress (fst (fst step)))
       (history (after v0 first) again) = [true; true; true]
  /\ commands (after v0 first) again
     = [[]; [Emit (DialogMsg true "")]; [client_Doctor]].
Proof. repeat split. Qed.

(** C5 (as amended).  The operation status gates nothing.  A keystroke
    never dispatches a mutating call, whatever the status; and while an
    operation is in progress, a confirmed resolution still dispatches the
    pending action: exactly one call, for that action. *)
Theorem dispatch_not_gated_by_status {L : Library} (v : DashboardView) :
  operationInProgress v = true ->
  (forall key, quiet (snd (Update v (KeyMsg key))))
  /\ (IsVisible (dialog v) = false -> actionable v ->
      forall a, exists c,
        snd (Update v (DialogMsg true a)) = [c]
        /\ mutating c = Some (pendingAction v)).
Proof.
  intros _. split; [intros key; apply quiet_Update_KeyMsg|].
  intros Hvis Hact a. unfold Update. rewrite Hvis. unfold onDialogMsg.
  destruct Hact as [Hg | [Hp Hsel]].
  - unfold global_actions in Hg. simpl in Hg.
    destruct Hg as [E|[E|[E|[E|[]]]]]; rewrite <- E; simpl; eauto.
  - destruct (selectedPkg v) as [pkg|]; [|contradiction].
    unfold package_actions in Hp. simpl in Hp.
    destruct Hp as [E|[E|[E|[]]]]; rewrite <- E; simpl; eauto.
Qed.

Lemma dispatch_not_gated_by_status_witness :
  let v := after (NewDashboardView (L := plain_widgets) NewState)
             [KeyMsg "d"; KeyMsg "enter"; DialogMsg true "";
              KeyMsg "c"; KeyMsg "enter"] in
  operationInProgress v = true
  /\ IsVisible (dialog v) = false
  /\ actionable v
  /\ exists c, snd (Update v (DialogMsg true "")) = [c]
               /\ mutating c = Some "cleanup".
Proof.
  intros v.
  assert (Hact : actionable v).
  { left. simpl. right. right. left. reflexivity. }
  split; [reflexivity|]. split; [reflexivity|]. split; [exact Hact|].
  exact (proj2 (dispatch_not_gated_by_status v eq_refl) eq_refl Hact "").
Defined.

(** ** Debounced detail loading *)

(** C2 (as stated) fails.  Two selections are made and both triggers are
    accepted in turn, so that two requests are in flight: the first issued
    under token 1, the second under token 2.  The second completes first;
    when the first completes, the current token is 2, and its detail
    replaces the one displayed.  [PackageInfoLoadedMsg] has no token. *)
Lemma stale_completion_replaces_detail :
  let git := formula "git" false in
  let wget := formula "wget" true in
  let zsh := formula "zsh" false in
  let events :=
    [KeyMsg "j"; DebouncedLoadMsg (Some wget) 1;
     KeyMsg "j"; DebouncedLoadMsg (Some zsh) 2;
     PackageInfoLoadedMsg (Some (info_of zsh []))] in
  let v := after sample_dashboard events in
  let late := PackageInfoLoadedMsg (Some (info_of wget ["openssl"])) in
  commands sample_dashboard events
  = [[Tick 200 (DebouncedLoadMsg (Some wget) 1)];
     [client_Info "wget" false];
     [Tick 200 (DebouncedLoadMsg (Some zsh) 2)];
     [client_Info "zsh" false];
     []]
  /\ debounceID v = 2
  /\ selectedPkg v = Some zsh
  /\ packageInfo v = Some (info_of zsh [])
  /\ packageInfo (fst (Update v late)) = Some (info_of wget ["openssl"])
  /\ packageInfo (fst (Update v late)) <> packageInfo v.
Proof. vm_compute. repeat split. discriminate. Qed.

(** C2 (as amended).  With no dialog open, a delayed trigger whose token is
    not the current one issues no request and changes nothing, and a
    trigger with the current token issues the request for its package; the
    completion of a detail load always becomes the displayed detail. *)
Theorem stale_trigger_dropped_completion_applied {L : Library}
    (v : DashboardView) :
  IsVisible (dialog v) = false ->
  (forall pkg id, id <> debounceID v ->
     Update v (DebouncedLoadMsg pkg id) = (v, []))
  /\ (forall pkg,
        snd (Update v (DebouncedLoadMsg (Some pkg) (debounceID v)))
        = [client_Info (Name pkg) (isCask pkg)])
  /\ (forall info,
        packageInfo (fst (Update v (PackageInfoLoadedMsg info))) = info).
Proof.
  intros Hvis. unfold Update. rewrite Hvis. repeat split.
  - intros [pkg|] id Hid; [|reflexivity].
    destruct (Z.eqb_spec id (debounceID v)); [contradiction | reflexivity].
  - intros pkg. now rewrite Z.eqb_refl.
Qed.

Lemma stale_trigger_dropped_completion_applied_witness :
  let v := after sample_dashboard [KeyMsg "j"; KeyMsg "j"] in
  let wget := formula "wget" true in
  IsVisible (dialog v) = false
  /\ Update v (DebouncedLoadMsg (Some wget) 1) = (v, [])
  /\ packageInfo (fst (Update v (PackageInfoLoadedMsg None))) = None.
Proof.
  intros v wget.
  destruct (stale_trigger_dropped_completion_applied v eq_refl)
    as (Hstale & _ & Hdone).
  split; [reflexivity|]. split; [|exact (Hdone None)].
  apply Hstale. vm_compute. discriminate.
Defined.

(** ** Failures *)

(** A failure that reaches the dashboard while no dialog is open returns
    the status to idle and leaves the lists and the detail as they were. *)
Lemma ErrorMsgView_returns_to_idle {L : Library}
    (v : DashboardView) (err : string) :
  IsVisible (dialog v) = false ->
  let v' := fst (Update v (ErrorMsgView err)) in
  operationInProgress v' = false
  /\ packageInfo v' = packageInfo v
  /\ searchResults v' = searchResults v
  /\ GetFilteredPackages (state v') = GetFilteredPackages (state v).
Proof.
  intros Hvis. unfold Update. rewrite Hvis. repeat split.
Qed.

(** C8 (defect).  The operator refreshes; the shell issues the two list
    requests.  The failure of [ListInstalled] comes back as [app.ErrorMsg],
    which the shell records in the store without passing anything to the
    dashboard: the installed list is kept, but the status stays in progress
    and the log gets no line.  The same failure delivered as
    [ErrorMsgView] returns the status to idle. *)
Theorem failed_refresh_stays_in_progress :
  let run := shell_run sample_model
               [WindowSizeMsg 80 30; KeyMsg "r"; RefreshPackagesMsg] in
  let m := fst run in
  let failure := "Error: exit status 1" in
  let m' := fst (App.Update m (app_ErrorMsg failure)) in
  snd run = [[]; [Emit RefreshPackagesMsg];
             [client_ListInstalled; client_Outdated]]
  /\ App.on_failure client_ListInstalled failure = Some (app_ErrorMsg failure)
  /\ operationInProgress (App.home m) = true
  /\ operationInProgress (App.home m') = true
  /\ logs (App.home m') = logs (App.home m)
  /\ GetFilteredPackages (App.store m') = GetFilteredPackages (App.store m)
  /\ operationInProgress (fst (Update (App.home m) (ErrorMsgView failure)))
     = false.
Proof. vm_compute. repeat split. Qed.

(** ** Text entry *)

(** C9 (defect).  The operator moves to the search panel, which focuses the
    input, and types [g]: the key reaches the query.  Typing [q] then quits:
    the shell matches its global bindings before the dashboard sees the
    key, and the query is unchanged.  Typing [2] leaves the dashboard. *)
Theorem global_keys_bypass_search_input :
  let run := shell_run sample_model
               [WindowSizeMsg 80 30; KeyMsg "tab"; KeyMsg "g"] in
  let m := fst run in
  Focused (searchInput (App.home m)) = true
  /\ Value (searchInput (App.home m)) = "g"
  /\ App.Update m (KeyMsg "q") = (m, [SaveFavorites []; Quit])
  /\ App.Update m (KeyMsg "2") = (m, [Emit (app_NavigateMsg ViewInstalled)])
  /\ Value (searchInput (App.home (fst (App.Update m (KeyMsg "h"))))) = "gh".
Proof. vm_compute. repeat split. Qed.

(** ** Selection and scrolling *)

Lemma wrap_small (z : Z) :
  GoInt.min_int <= z <= GoInt.max_int -> GoInt.wrap z = z.
Proof.
  unfold GoInt.min_int, GoInt.max_int, GoInt.wrap, GoInt.modulus. intros H.
  rewrite Z.mod_small; lia.
Qed.

Lemma add_small (a b : Z) :
  - 2 ^ 63 <= a + b < 2 ^ 63 -> GoInt.add a b = a + b.
Proof.
  intros H. apply wrap_small. unfold GoInt.min_int, GoInt.max_int. lia.
Qed.

Lemma sub_small (a b : Z) :
  - 2 ^ 63 <= a - b < 2 ^ 63 -> GoInt.sub a b = a - b.
Proof.
  intros H. apply wrap_small. unfold GoInt.min_int, GoInt.max_int. lia.
Qed.

Lemma wrap_in_range (z : Z) : - 2 ^ 63 <= GoInt.wrap z < 2 ^ 63.
Proof.
  unfold GoInt.wrap, GoInt.modulus.
  pose proof (Z.mod_pos_bound (z + 2 ^ 63) (2 ^ 64) ltac:(lia)). lia.
Qed.

(** C6 (as stated) fails.  With 30 installed packages and a window of 30
    lines the installed panel shows 24, and the operator moves down to the
    package at index 20: the invariant holds.  The window shrinks to 12
    lines, a height at which the controller and the renderer agree on 6
    lines: [SetSize] keeps index and scroll offset, the selection is 14
    lines below the window, and the rows that the view goes through are
    those of the first six packages, none of them marked. *)
Lemma resize_leaves_selection_outside :
  let before := fst (shell_run long_model
                       (WindowSizeMsg 80 30 :: repeat (KeyMsg "j") 20)) in
  let v := App.home (fst (App.Update before (WindowSizeMsg 80 12))) in
  selection_ok (App.home before)
  /\ well_sized (App.home before)
  /\ well_sized v
  /\ installedIndex v = 20
  /\ installedScroll v = 0
  /\ getInstalledVisibleLines v = 6
  /\ More.View_installed_rows v
     = Some (List.map (fun pkg => (false, pkg))
               (List.map numbered (seq 0 6)))
  /\ ~ selection_ok v.
Proof.
  intros before v.
  assert (Hb : selection_ok (App.home before))
    by (vm_compute; intuition discriminate).
  assert (Hsb : well_sized (App.home before))
    by (vm_compute; intuition discriminate).
  assert (Hsv : well_sized v) by (vm_compute; intuition discriminate).
  assert (Hi : installedIndex v = 20) by (vm_compute; reflexivity).
  assert (Hs : installedScroll v = 0) by (vm_compute; reflexivity).
  assert (Hv : getInstalledVisibleLines v = 6) by (vm_compute; reflexivity).
  assert (Hrows : More.View_installed_rows v
                  = Some (List.map (fun pkg => (false, pkg))
                            (List.map numbered (seq 0 6))))
    by (vm_compute; reflexivity).
  repeat split; try assumption; try apply Hb; try apply Hsb; try apply Hsv.
  intros [[_ H] _]. rewrite Hi, Hs, Hv in H. lia.
Qed.

Section Selection.

Context {L : Library}.

Lemma framed_iff (v : DashboardView) :
  framed (frame v) <-> selection_ok v /\ well_sized v.
Proof. reflexivity. Qed.

Lemma installed_lines_eq (h : Z) :
  7 <= h < 2 ^ 62 -> installed_lines h = h - 6.
Proof.
  intros H. unfold installed_lines.
  rewrite (sub_small h 1) by lia. rewrite sub_small by lia. lia.
Qed.

Lemma search_lines_min (h : Z) : 2 <= search_lines h.
Proof.
  unfold search_lines.
  destruct (Z.ltb_spec (GoInt.sub (scale35 (GoInt.sub h 1)) 7) 2); lia.
Qed.

Lemma len_nonneg {A : Type} (xs : list A) : 0 <= GoInt.len xs.
Proof. unfold GoInt.len. lia. Qed.

Lemma frame_load (v : DashboardView) :
  frame (fst (loadSelectedPackageInfo (updateSelectedPackage v))) = frame v.
Proof.
  unfold loadSelectedPackageInfo, debouncedLoadPackageInfo,
    updateSelectedPackage.
  split_cases; reflexivity.
Qed.

Lemma frame_updateFocusedPanel (msg : Msg) (v : DashboardView) :
  frame (fst (updateFocusedPanel msg v)) = frame v.
Proof.
  unfold updateFocusedPanel, loadPackageInfo. split_cases; reflexivity.
Qed.

Lemma frame_addLogLines (lines : list string) (v : DashboardView) :
  frame (addLogLines lines v) = frame v.
Proof.
  revert v. induction lines as [|l rest IH]; intros v; simpl.
  - reflexivity.
  - rewrite IH. now destruct (negb (String.eqb (TrimSpace l) "")).
Qed.

Lemma frame_onDialogMsg (confirmed : bool) (v : DashboardView) :
  frame (fst (onDialogMsg confirmed v)) = frame v.
Proof.
  unfold onDialogMsg, installPackage, uninstallPackage, upgradePackage,
    upgradeAll, runDoctor, runCleanup, runAutoremove.
  split_cases; reflexivity.
Qed.

Lemma frame_onKeyInSearchInput (key : string) (v : DashboardView) :
  frame (fst (onKeyInSearchInput key v)) = frame v.
Proof.
  unfold onKeyInSearchInput, performSearch. split_cases; reflexivity.
Qed.

Lemma frame_onTab (v : DashboardView) : frame (fst (onTab v)) = frame v.
Proof. unfold onTab. split_cases; reflexivity. Qed.

Ltac selection_fields :=
  cbn [installedIndex installedScroll searchIndex searchScroll searchResults
       height state with_installedIndex with_installedScroll
       with_searchIndex with_searchScroll].

Lemma framed_onUp (v : DashboardView) :
  framed (frame v) -> framed (frame (fst (onUp v))).
Proof.
  intros Hf. unfold onUp.
  destruct (focusedPanel v).
  - destruct (Z.gtb_spec (installedIndex v) 0) as [Hpos|_]; [|exact Hf].
    rewrite frame_load. revert Hf. unfold frame, framed, in_window.
    selection_fields. intros [[[Hc Hw] Hs] Hsz].
    pose proof (len_nonneg (GetFilteredPackages (state v))).
    rewrite (installed_lines_eq (height v)) in * by tauto.
    rewrite sub_small by lia.
    destruct (Z.ltb_spec (installedIndex v - 1) (installedScroll v));
      selection_fields;
      rewrite ?(installed_lines_eq (height v)) by tauto;
      (split; [split; [split; [lia | lia] | exact Hs] | intuition lia]).
  - destruct (Z.gtb_spec (searchIndex v) 0) as [Hpos|_]; [|exact Hf].
    rewrite frame_load. revert Hf. unfold frame, framed, in_window.
    selection_fields. intros [[Hi [Hc Hw]] Hsz].
    pose proof (len_nonneg (searchResults v)).
    pose proof (search_lines_min (height v)).
    rewrite sub_small by lia.
    destruct (Z.ltb_spec (searchIndex v - 1) (searchScroll v));
      selection_fields;
      (split; [split; [exact Hi | split; [lia | lia]] | intuition lia]).
  - cbn [fst]. now destruct (depScroll v >? 0).
Qed.

Lemma getInstalledVisibleLines_eq (v : DashboardView) :
  getInstalledVisibleLines v = installed_lines (height v).
Proof. reflexivity. Qed.

Lemma getSearchVisibleLines_eq (v : DashboardView) :
  getSearchVisibleLines v = search_lines (height v).
Proof. reflexivity. Qed.

Lemma framed_onDown (v : DashboardView) :
  framed (frame v) -> framed (frame (fst (onDown v))).
Proof.
  intros Hf. unfold onDown.
  destruct (focusedPanel v).
  - cbv zeta.
    pose proof (len_nonneg (GetFilteredPackages (state v))) as Hlen.
    assert (Hsz : GoInt.len (GetFilteredPackages (state v)) < 2 ^ 62)
      by (unfold frame, framed in Hf; tauto).
    rewrite (sub_small (GoInt.len _) 1) by lia.
    destruct (Z.ltb_spec (installedIndex v)
                (GoInt.len (GetFilteredPackages (state v)) - 1))
      as [Hlt|_]; [|exact Hf].
    rewrite frame_load. revert Hf.
    rewrite !getInstalledVisibleLines_eq.
    unfold frame, framed, in_window. selection_fields.
    intros [[[Hc Hw] Hs] Hb].
    rewrite (installed_lines_eq (height v)) in * by tauto.
    rewrite (add_small (installedIndex v) 1) by lia.
    rewrite (add_small (installedScroll v)) by lia.
    destruct (Z.geb_spec (installedIndex v + 1)
                (installedScroll v + (height v - 6)));
      selection_fields;
      rewrite ?(installed_lines_eq (height v)) by tauto;
      rewrite ?(sub_small (installedIndex v + 1)) by lia;
      rewrite ?add_small by lia;
      (split; [split; [split; [lia | lia] | exact Hs] | intuition lia]).
  - cbv zeta.
    pose proof (len_nonneg (searchResults v)) as Hlen.
    assert (Hsz : GoInt.len (searchResults v) < 2 ^ 62)
      by (unfold frame, framed in Hf; tauto).
    rewrite (sub_small (GoInt.len _) 1) by lia.
    destruct (Z.ltb_spec (searchIndex v) (GoInt.len (searchResults v) - 1))
      as [Hlt|_]; [|exact Hf].
    rewrite frame_load. revert Hf.
    rewrite !getSearchVisibleLines_eq.
    unfold frame, framed, in_window. selection_fields.
    intros [[Hi [Hc Hw]] Hb].
    pose proof (search_lines_min (height v)) as Hmin.
    rewrite (add_small (searchIndex v) 1) by lia.
    rewrite (add_small (searchScroll v)) by lia.
    destruct (Z.geb_spec (searchIndex v + 1)
                (searchScroll v + search_lines (height v)));
      selection_fields;
      rewrite ?(sub_small (searchIndex v + 1)) by lia;
      rewrite ?add_small by lia;
      (split; [split; [exact Hi | split; [lia | lia]] | intuition lia]).
  - cbn [fst]. split_cases; exact Hf.
Qed.

(** [Update] keeps the frame on every message that is neither a key nor a
    new list. *)
Lemma framed_Update (v : DashboardView) (msg : Msg) :
  framed (frame v) -> small_results msg ->
  framed (frame (fst (Update v msg))).
Proof.
  intros Hf Hsmall. unfold Update.
  destruct (IsVisible (dialog v)).
  { destruct (Components.Update (dialog v) msg) as [d cmd]. exact Hf. }
  destruct msg;
    try (rewrite frame_updateFocusedPanel; exact Hf).
  - (* KeyMsg *)
    destruct (Focused (searchInput v)).
    { now rewrite frame_onKeyInSearchInput. }
    unfold onKey, refresh, request.
    split_cases;
      try (rewrite frame_updateFocusedPanel; exact Hf);
      try (rewrite frame_onTab; exact Hf);
      try (now apply framed_onUp); try (now apply framed_onDown);
      exact Hf.
  - (* spinner.TickMsg *) exact Hf.
  - (* DialogMsg *) now rewrite frame_onDialogMsg.
  - (* DebouncedLoadMsg *) split_cases; exact Hf.
  - (* PackageInfoLoadedMsg *) exact Hf.
  - (* SearchResultsMsg *)
    cbv zeta.
    assert (Hn : framed
              (height v, GetFilteredPackages (state v), installedIndex v,
               installedScroll v, Results, 0, 0)).
    { revert Hf. unfold frame, framed, in_window. simpl in Hsmall.
      pose proof (search_lines_min (height v)).
      pose proof (len_nonneg Results). intuition lia. }
    cbn [searchResults with_searchResults with_searching with_searchIndex
         with_searchScroll with_searchInput].
    destruct Results as [|first rest]; exact Hn.
  - (* PackagesLoadedMsg *)
    cbv zeta.
    assert (Hn : framed
              (height v, GetFilteredPackages (state v), 0, 0,
               searchResults v, searchIndex v, searchScroll v)).
    { revert Hf. unfold frame, framed, in_window.
      intros Hf.
      rewrite (installed_lines_eq (height v)) in * by tauto.
      pose proof (len_nonneg (GetFilteredPackages (state v))).
      intuition lia. }
    cbn [state updateInstalledList end_operation with_installedList
         with_operationMessage with_operationInProgress with_installedIndex
         with_installedScroll].
    destruct (GetFilteredPackages (state v)) eqn:E; rewrite <- ?E in *;
      exact Hn.
  - (* OutdatedLoadedMsg *) split_cases; exact Hf.
  - (* SuccessMsgView *) exact Hf.
  - (* ErrorMsgView *) exact Hf.
  - (* DoctorOutputMsg *)
    cbv zeta. unfold addLog at 1. cbn [fst].
    change (framed (frame (addLogLines Lines (end_operation v)))).
    now rewrite frame_addLogLines.
Qed.

Lemma framed_after (events : list Msg) (v : DashboardView) :
  framed (frame v) -> Forall small_results events ->
  framed (frame (after v events)).
Proof.
  revert v. induction events as [|msg rest IH]; intros v Hf Hall.
  - exact Hf.
  - inversion Hall as [|? ? Hmsg Hrest]; subst. unfold after. simpl.
    apply IH; [|exact Hrest]. now apply framed_Update.
Qed.

End Selection.

(** C6 (as amended).  From a state in which the installed and the search
    panel satisfy [0 <= index < itemCount] (when there are items) and
    [scrollOffset <= index < scrollOffset + visibleLines], in a window of 7
    lines or more and with sizes far from the limits of an [int], every
    sequence of events processed by the dashboard leads to a state that
    satisfies them again. *)
Theorem selection_stays_in_window {L : Library}
    (v : DashboardView) (events : list Msg) :
  selection_ok v ->
  well_sized v ->
  Forall small_results events ->
  selection_ok (after v events) /\ well_sized (after v events).
Proof.
  intros Hok Hsz Hall. apply framed_iff.
  apply framed_after; [|exact Hall]. apply framed_iff. now split.
Qed.

Lemma selection_stays_in_window_witness :
  let events := [KeyMsg "j"; KeyMsg "j"; KeyMsg "k";
                 SearchResultsMsg [formula "htop" false]] in
  selection_ok sample_dashboard
  /\ well_sized sample_dashboard
  /\ Forall small_results events
  /\ selection_ok (after sample_dashboard events).
Proof.
  intros events.
  assert (Hok : selection_ok sample_dashboard).
  { vm_compute. intuition discriminate. }
  assert (Hsz : well_sized sample_dashboard).
  { vm_compute. intuition discriminate. }
  assert (Hall : Forall small_results events).
  { repeat constructor. }
  split; [exact Hok|]. split; [exact Hsz|]. split; [exact Hall|].
  exact (proj1 (selection_stays_in_window sample_dashboard events
                  Hok Hsz Hall)).
Defined.

(** ** Debounce: a burst of selections *)

Lemma wrap_add_wrap (a b : Z) : GoInt.add (GoInt.wrap a) b = GoInt.wrap (a + b).
Proof.
  unfold GoInt.add, GoInt.wrap, GoInt.modulus. f_equal.
  replace ((a + 2 ^ 63) mod 2 ^ 64 - 2 ^ 63 + b + 2 ^ 63)
    with ((a + 2 ^ 63) mod 2 ^ 64 + b) by lia.
  rewrite Zplus_mod_idemp_l. f_equal. lia.
Qed.

Lemma wrap_distinct (t j k : Z) :
  0 <= j < k -> k < 2 ^ 64 -> GoInt.wrap (t + j) <> GoInt.wrap (t + k).
Proof.
  intros Hjk Hk Heq. unfold GoInt.wrap, GoInt.modulus in Heq.
  assert (H : (t + j + 2 ^ 63) mod 2 ^ 64 = (t + k + 2 ^ 63) mod 2 ^ 64)
    by lia.
  assert (Hd : (k - j) mod 2 ^ 64 = 0).
  { replace (k - j) with ((t + k + 2 ^ 63) - (t + j + 2 ^ 63)) by lia.
    rewrite Zminus_mod, H, Z.sub_diag. reflexivity. }
  rewrite Z.mod_small in Hd by lia. lia.
Qed.

Lemma index_in_range {A : Type} (xs : list A) (i : Z) :
  0 <= i < GoInt.len xs -> exists x, index xs i = Some x.
Proof.
  intros H. unfold index.
  destruct (Z.leb_spec 0 i); [|lia].
  destruct (Z.ltb_spec i (GoInt.len xs)); [|lia]. simpl.
  destruct (nth_error xs (Z.to_nat i)) as [x|] eqn:E; [now exists x|].
  apply nth_error_None in E. unfold GoInt.len in H. lia.
Qed.

Lemma index_Some_range {A : Type} (xs : list A) (i : Z) (x : A) :
  index xs i = Some x -> 0 <= i < GoInt.len xs.
Proof.
  unfold index.
  destruct (Z.leb_spec 0 i); destruct (Z.ltb_spec i (GoInt.len xs));
    simpl; try discriminate. lia.
Qed.

Lemma is_nav_cases (key : string) :
  is_nav key = true ->
  Matches key ["up"; "k"] = true
  \/ (Matches key ["up"; "k"] = false /\ Matches key ["down"; "j"] = true).
Proof.
  unfold is_nav. destruct (Matches key ["up"; "k"]); simpl; auto.
Qed.

Lemma is_nav_key (key : string) :
  is_nav key = true -> In key ["up"; "k"; "down"; "j"].
Proof.
  unfold is_nav, Matches. simpl.
  repeat match goal with
    | |- context [String.eqb ?a ?b] => destruct (String.eqb_spec a b)
    end; subst; simpl; intuition discriminate.
Qed.
(** Reduction of the projections of an updated dashboard. *)
Ltac fields :=
  cbn [fst snd
       state installedList searchInput searchResults focusedPanel
       selectedPkg packageInfo loadingInfo searching installedIndex
       searchIndex depIndex installedScroll searchScroll depScroll
       pendingPackage debounceID operationInProgress operationMessage
       dialog pendingAction logs logsScroll width height with_state
       with_installedList with_searchInput with_searchResults
       with_focusedPanel with_selectedPkg with_packageInfo with_loadingInfo
       with_searching with_installedIndex with_searchIndex
       with_installedScroll with_searchScroll with_depScroll
       with_pendingPackage with_debounceID with_operationInProgress
       with_operationMessage with_dialog with_pendingAction with_logs
       with_width with_height].

Ltac fields_in H :=
  cbn [fst snd
       state installedList searchInput searchResults focusedPanel
       selectedPkg packageInfo loadingInfo searching installedIndex
       searchIndex depIndex installedScroll searchScroll depScroll
       pendingPackage debounceID operationInProgress operationMessage
       dialog pendingAction logs logsScroll width height with_state
       with_installedList with_searchInput with_searchResults
       with_focusedPanel with_selectedPkg with_packageInfo with_loadingInfo
       with_searching with_installedIndex with_searchIndex
       with_installedScroll with_searchScroll with_depScroll
       with_pendingPackage with_debounceID with_operationInProgress
       with_operationMessage with_dialog with_pendingAction with_logs
       with_width with_height] in H.

Section Burst.

Context {L : Library}.

Lemma nav_step (v : DashboardView) (key : string) :
  browsing v -> is_nav key = true ->
  selection (fst (Update v (KeyMsg key))) <> selection v ->
  nav_post v (fst (Update v (KeyMsg key))) (snd (Update v (KeyMsg key))).
Proof.
  intros (Hvis & Hfoc & Hsel & Hmax) Hnav.
  unfold Update. rewrite Hvis, Hfoc. unfold onKey.
  unfold GoInt.max_int in Hmax.
  destruct (is_nav_cases key Hnav) as [Hup | [Hup Hdown]];
    rewrite Hup; [|rewrite Hdown].
  - unfold onUp. unfold nav_post, selection, items in *.
    destruct (focusedPanel v) eqn:Hp.
    + destruct (Z.gtb_spec (installedIndex v) 0) as [Hpos|_];
        [|intros Hc; exfalso; apply Hc; cbn [fst]; rewrite Hp; reflexivity].
      intros _. cbv zeta.
      unfold loadSelectedPackageInfo, debouncedLoadPackageInfo,
        updateSelectedPackage.
      destruct (index_in_range (GetFilteredPackages (state v))
                  (installedIndex v - 1) ltac:(lia)) as [pkg Hpkg].
      rewrite <- (sub_small (installedIndex v) 1) in Hpkg by lia.
      fields.
      match goal with
      | |- context [if ?c then with_installedScroll _ _ else _] =>
          destruct c
      end;
        fields; rewrite Hp; fields; rewrite Hpkg; fields;
        exists pkg; fields; rewrite Hp; auto 10.
    + destruct (Z.gtb_spec (searchIndex v) 0) as [Hpos|_];
        [|intros Hc; exfalso; apply Hc; cbn [fst]; rewrite Hp; reflexivity].
      intros _. cbv zeta.
      unfold loadSelectedPackageInfo, debouncedLoadPackageInfo,
        updateSelectedPackage.
      destruct (index_in_range (searchResults v)
                  (searchIndex v - 1) ltac:(lia)) as [pkg Hpkg].
      rewrite <- (sub_small (searchIndex v) 1) in Hpkg by lia.
      fields.
      match goal with
      | |- context [if ?c then with_searchScroll _ _ else _] =>
          destruct c
      end;
        fields; rewrite Hp; fields; rewrite Hpkg; fields;
        exists pkg; fields; rewrite Hp; auto 10.
    + intros Hc. exfalso. apply Hc.
      destruct (depScroll v >? 0); fields; rewrite Hp; reflexivity.
  - unfold onDown. unfold nav_post, selection, items in *.
    destruct (focusedPanel v) eqn:Hp.
    + cbv zeta.
      pose proof (len_nonneg (GetFilteredPackages (state v))) as Hlen.
      rewrite (sub_small (GoInt.len _) 1) by lia.
      destruct (Z.ltb_spec (installedIndex v)
                  (GoInt.len (GetFilteredPackages (state v)) - 1))
        as [Hlt|_]; [|intros Hc; exfalso; apply Hc; cbn [fst]; rewrite Hp; reflexivity].
      intros _.
      unfold loadSelectedPackageInfo, debouncedLoadPackageInfo,
        updateSelectedPackage.
      destruct (index_in_range (GetFilteredPackages (state v))
                  (installedIndex v + 1) ltac:(lia)) as [pkg Hpkg].
      rewrite <- (add_small (installedIndex v) 1) in Hpkg by lia.
      fields.
      match goal with
      | |- context [if ?c then with_installedScroll _ _ else _] =>
          destruct c
      end;
        fields; rewrite Hp; fields; rewrite Hpkg; fields;
        exists pkg; fields; rewrite Hp; auto 10.
    + cbv zeta.
      pose proof (len_nonneg (searchResults v)) as Hlen.
      rewrite (sub_small (GoInt.len _) 1) by lia.
      destruct (Z.ltb_spec (searchIndex v) (GoInt.len (searchResults v) - 1))
        as [Hlt|_]; [|intros Hc; exfalso; apply Hc; cbn [fst]; rewrite Hp; reflexivity].
      intros _.
      unfold loadSelectedPackageInfo, debouncedLoadPackageInfo,
        updateSelectedPackage.
      destruct (index_in_range (searchResults v)
                  (searchIndex v + 1) ltac:(lia)) as [pkg Hpkg].
      rewrite <- (add_small (searchIndex v) 1) in Hpkg by lia.
      fields.
      match goal with
      | |- context [if ?c then with_searchScroll _ _ else _] =>
          destruct c
      end;
        fields; rewrite Hp; fields; rewrite Hpkg; fields;
        exists pkg; fields; rewrite Hp; auto 10.
    + unfold GoInt.len in Hsel. simpl in Hsel. lia.
Qed.

Lemma browsing_after_nav (v v' : DashboardView) (cmds : list Cmd) :
  browsing v -> nav_post v v' cmds -> browsing v'.
Proof.
  intros (Hvis & Hfoc & Hsel & Hmax)
         (pkg & _ & _ & _ & Hidx & Hd & Hs & Hi).
  unfold browsing. rewrite Hd, Hs. repeat split; try assumption.
  - apply (index_Some_range _ _ _ Hidx).
  - apply (index_Some_range _ _ _ Hidx).
  - now rewrite Hi.
Qed.

End Burst.

Section BurstLoop.

Context {L : Library} {Ov : App.Others}.

Lemma with_home_same (m : App.Model) : App.with_home (App.home m) m = m.
Proof. now destruct m. Qed.

Lemma shell_nav (m : App.Model) (key : string) :
  settled m -> is_nav key = true ->
  App.Update m (KeyMsg key)
  = (App.with_home (fst (Update (App.home m) (KeyMsg key))) m,
     snd (Update (App.home m) (KeyMsg key))).
Proof.
  intros (Hview & Hdlg & _) Hnav. unfold App.Update.
  rewrite andb_false_r, Hdlg. cbn iota. rewrite Hdlg.
  assert (Hnone : App.dispatch [] (KeyMsg key) m = None).
  { apply is_nav_key in Hnav. simpl in Hnav.
    destruct Hnav as [<-|[<-|[<-|[<-|[]]]]]; reflexivity. }
  rewrite Hnone. unfold App.updateView. rewrite Hview.
  now destruct (Update (App.home m) (KeyMsg key)).
Qed.

Lemma shell_trigger (m : App.Model) (pkg : option Package) (id : Z) :
  settled m ->
  App.Update m (DebouncedLoadMsg pkg id)
  = (App.with_home (fst (Update (App.home m) (DebouncedLoadMsg pkg id))) m,
     snd (Update (App.home m) (DebouncedLoadMsg pkg id))).
Proof.
  intros (Hview & Hdlg & _). unfold App.Update.
  rewrite andb_false_r, Hdlg. cbn iota. rewrite Hdlg.
  cbn [App.dispatch]. unfold App.updateView. rewrite Hview.
  now destruct (Update (App.home m) (DebouncedLoadMsg pkg id)).
Qed.

Lemma deliver_stale (m : App.Model) (t id : Z) (pkg : Package)
    (q : list (Z * Msg)) (out : list Cmd) :
  settled m -> id <> debounceID (App.home m) ->
  deliver t (DebouncedLoadMsg (Some pkg) id)
    {| shell := m; queue := q; issued := out |}
  = {| shell := m; queue := q; issued := out |}.
Proof.
  intros Hs Hid. unfold deliver. cbn [shell queue issued].
  rewrite (shell_trigger m _ _ Hs). destruct Hs as (_ & _ & Hvis).
  unfold Update. rewrite Hvis.
  destruct (Z.eqb_spec id (debounceID (App.home m))); [contradiction|].
  cbn [fst snd schedule]. now rewrite with_home_same.
Qed.

Lemma deliver_fresh (m : App.Model) (t : Z) (pkg : Package)
    (q : list (Z * Msg)) (out : list Cmd) :
  settled m ->
  deliver t (DebouncedLoadMsg (Some pkg) (debounceID (App.home m)))
    {| shell := m; queue := q; issued := out |}
  = {| shell := App.with_home (with_loadingInfo true (App.home m)) m;
       queue := q;
       issued := (out ++ [client_Info (Name pkg) (isCask pkg)])%list |}.
Proof.
  intros Hs. unfold deliver. cbn [shell queue issued].
  rewrite (shell_trigger m _ _ Hs). destruct Hs as (_ & _ & Hvis).
  unfold Update. rewrite Hvis, Z.eqb_refl. reflexivity.
Qed.

Lemma deliver_nav (m : App.Model) (t : Z) (key : string)
    (q : list (Z * Msg)) (out : list Cmd) :
  settled m -> browsing (App.home m) -> is_nav key = true ->
  let v' := fst (Update (App.home m) (KeyMsg key)) in
  selection v' <> selection (App.home m) ->
  exists pkg,
    nav_post (App.home m) v' [Tick 200 (DebouncedLoadMsg (Some pkg) (debounceID v'))]
    /\ deliver t (KeyMsg key) {| shell := m; queue := q; issued := out |}
       = {| shell := App.with_home v' m;
            queue := insert (t + 200)
                       (DebouncedLoadMsg (Some pkg) (debounceID v')) q;
            issued := out |}.
Proof.
  intros Hs Hb Hnav v' Hch.
  pose proof (nav_step (App.home m) key Hb Hnav Hch) as Hpost.
  destruct Hpost as (pkg & Hcmds & Hrest). exists pkg.
  split.
  - exists pkg. split; [reflexivity | exact Hrest].
  - unfold deliver. cbn [shell queue issued].
    rewrite (shell_nav m key Hs Hnav). fold v'. rewrite Hcmds.
    reflexivity.
Qed.

Lemma old_timer_weaken (t0 k k' bound bound' : Z) (tm : Z * Msg) :
  k <= k' -> bound <= bound' ->
  old_timer t0 k bound tm -> old_timer t0 k' bound' tm.
Proof.
  intros Hk Hb (Ht & pkg & j & Hj & Hm). split; [lia|].
  exists pkg, j. split; [lia | exact Hm].
Qed.

Lemma insert_last (t : Z) (msg : Msg) (q : list (Z * Msg)) :
  Forall (fun tm => fst tm <= t) q -> insert t msg q = (q ++ [(t, msg)])%list.
Proof.
  induction q as [|[t' msg'] rest IH]; intros Hall; simpl.
  - reflexivity.
  - inversion Hall as [|? ? Hle Hrest]; subst. simpl in Hle.
    destruct (Z.ltb_spec t t'); [lia|]. now rewrite IH.
Qed.

(** The expired triggers of earlier selections are delivered and dropped;
    the trigger of the last selection is not due and stays. *)
Lemma expire_olds (due : Z -> bool) (t0 k bound : Z) (last : Z * Msg)
    (m : App.Model) (out : list Cmd) :
  settled m -> debounceID (App.home m) = GoInt.wrap (t0 + k) ->
  k < 2 ^ 64 -> due (fst last) = false ->
  forall (olds : list (Z * Msg)) (n : nat),
    Forall (old_timer t0 k bound) olds ->
    exists olds',
      Forall (old_timer t0 k bound) olds'
      /\ expire n due
           {| shell := m; queue := (olds ++ [last])%list; issued := out |}
         = {| shell := m; queue := (olds' ++ [last])%list; issued := out |}.
Proof.
  intros Hs Hid Hk Hlast olds.
  induction olds as [|[t msg] rest IH]; intros n Hall.
  - exists []. split; [constructor|].
    destruct n; [reflexivity|]. simpl. destruct last as [tl ml].
    simpl in Hlast. now rewrite Hlast.
  - destruct n; [exists ((t, msg) :: rest); now split|].
    inversion Hall as [|? ? Hold Hrest]; subst.
    simpl. destruct (due t).
    + destruct Hold as (_ & pkg & j & Hj & Hmsg). simpl in Hmsg. subst msg.
      rewrite deliver_stale; [|exact Hs|].
      * exact (IH n Hrest).
      * rewrite Hid. apply wrap_distinct; lia.
    + exists ((t, msg) :: rest). now split.
Qed.

(** When time passes, the triggers of earlier selections are dropped and
    the trigger of the last selection issues its request. *)
Lemma expire_all (t0 k bound tl : Z) (pkg : Package)
    (m : App.Model) (out : list Cmd) :
  settled m -> debounceID (App.home m) = GoInt.wrap (t0 + k) ->
  k < 2 ^ 64 ->
  forall (olds : list (Z * Msg)) (n : nat),
    Forall (old_timer t0 k bound) olds ->
    (List.length olds < n)%nat ->
    expire n (fun _ => true)
      {| shell := m;
         queue := (olds ++ [(tl, DebouncedLoadMsg (Some pkg)
                                   (GoInt.wrap (t0 + k)))])%list;
         issued := out |}
    = {| shell := App.with_home (with_loadingInfo true (App.home m)) m;
         queue := [];
         issued := (out ++ [client_Info (Name pkg) (isCask pkg)])%list |}.
Proof.
  intros Hs Hid Hk olds.
  induction olds as [|[t msg] rest IH]; intros n Hall Hn.
  - destruct n; [simpl in Hn; lia|]. simpl.
    rewrite <- Hid, deliver_fresh by exact Hs. now destruct n.
  - destruct n; [simpl in Hn; lia|].
    inversion Hall as [|? ? Hold Hrest]; subst. simpl.
    destruct Hold as (_ & p & j & Hj & Hmsg). simpl in Hmsg. subst msg.
    rewrite deliver_stale; [|exact Hs|].
    + apply IH; [exact Hrest | simpl in Hn; lia].
    + rewrite Hid. apply wrap_distinct; lia.
Qed.

(** The rest of a burst, after a selection whose trigger is pending. *)
Lemma burst_tail (ties : bool) (t0 : Z) :
  forall (rest : list (Z * string)) (m : App.Model)
         (olds : list (Z * Msg)) (tk k : Z) (pk : Package),
    settled m -> browsing (App.home m) ->
    debounceID (App.home m) = GoInt.wrap (t0 + k) ->
    0 <= k -> k + Z.of_nat (List.length rest) < 2 ^ 64 ->
    selectedPkg (App.home m) = Some pk ->
    index (items (App.home m)) (selection (App.home m)) = Some pk ->
    Forall (old_timer t0 k (tk + 200)) olds ->
    within_delay (tk :: List.map fst rest) ->
    selection_changes (App.home m) (List.map snd rest) ->
    let w := run ties (keystrokes rest)
               {| shell := m;
                  queue := (olds ++ [(tk + 200,
                                      DebouncedLoadMsg (Some pk)
                                        (GoInt.wrap (t0 + k)))])%list;
                  issued := [] |} in
    debounceID (App.home (shell w))
    = GoInt.wrap (t0 + (k + Z.of_nat (List.length rest)))
    /\ exists pkg,
        selectedPkg (App.home (shell w)) = Some pkg
        /\ index (items (App.home (shell w)))
             (selection (App.home (shell w))) = Some pkg
        /\ issued w = [client_Info (Name pkg) (isCask pkg)].
Proof.
  induction rest as [|[t key] rest IH];
    intros m olds tk k pk Hs Hb Hid Hk Hlen Hsel Hidx Hold Htimes Hch w.
  - subst w. unfold run, keystrokes, expire_due. simpl List.map.
    cbn [queue].
    rewrite (expire_all t0 k (tk + 200)) by
      (try assumption; try lia; rewrite length_app; simpl; lia).
    cbn [shell issued App.home App.with_home].
    split.
    + change (debounceID (App.home m) = GoInt.wrap (t0 + (k + 0))).
      now rewrite Z.add_0_r.
    + exists pk. repeat split; assumption.
  - simpl in Htimes, Hch. cbn [List.length] in Hlen.
    rewrite Nat2Z.inj_succ in Hlen.
    destruct Htimes as [Hgap Htimes]. destruct Hch as (Hnav & Hmove & Hch).
    subst w. unfold keystrokes. simpl List.map. cbn [run fst snd].
    unfold expire_due. cbn [queue].
    destruct (expire_olds (due_at ties t) t0 k (tk + 200)
                (tk + 200, DebouncedLoadMsg (Some pk) (GoInt.wrap (t0 + k)))
                m [] Hs Hid ltac:(lia)
                ltac:(unfold due_at; cbn [fst];
                      destruct ties;
                      [destruct (Z.leb_spec (tk + 200) t)
                      |destruct (Z.ltb_spec (tk + 200) t)]; lia || reflexivity)
                olds (List.length
                        (olds ++ [(tk + 200,
                                   DebouncedLoadMsg (Some pk)
                                     (GoInt.wrap (t0 + k)))])%list) Hold)
      as (olds' & Hold' & ->).
    destruct (deliver_nav m t key
                (olds' ++ [(tk + 200,
                            DebouncedLoadMsg (Some pk)
                              (GoInt.wrap (t0 + k)))])%list [] Hs Hb Hnav Hmove)
      as (pkg & Hpost & ->).
    set (v' := fst (Update (App.home m) (KeyMsg key))) in *.
    pose proof (browsing_after_nav _ _ _ Hb Hpost) as Hb'.
    destruct Hpost as (pkg' & Hcmd & Hid' & Hsel' & Hidx' & Hdlg & _ & _).
    injection Hcmd as Hpkg. subst pkg'.
    assert (Hall : Forall (old_timer t0 (k + 1) (t + 200))
                     (olds' ++ [(tk + 200,
                                 DebouncedLoadMsg (Some pk)
                                   (GoInt.wrap (t0 + k)))])%list).
    { apply Forall_app. split.
      - eapply Forall_impl; [|exact Hold'].
        intros tm. apply old_timer_weaken; lia.
      - constructor; [|constructor]. split; [simpl; lia|].
        exists pk, k. split; [lia | reflexivity]. }
    rewrite insert_last.
    2:{ eapply Forall_impl; [|exact Hall]. intros tm [Hle _]. exact Hle. }
    assert (Hid'' : debounceID v' = GoInt.wrap (t0 + (k + 1))).
    { rewrite Hid', Hid, wrap_add_wrap. f_equal. lia. }
    rewrite Hid''.
    cbn [List.length].
    replace (k + Z.of_nat (S (List.length rest)))
      with (k + 1 + Z.of_nat (List.length rest)) by lia.
    apply (IH (App.with_home v' m) _ t (k + 1) pkg).
    + destruct Hs as (Hview & Hd & Hvis). repeat split; try assumption.
      cbn [App.home App.with_home]. now rewrite Hdlg.
    + exact Hb'.
    + exact Hid''.
    + lia.
    + lia.
    + exact Hsel'.
    + exact Hidx'.
    + exact Hall.
    + exact Htimes.
    + exact Hch.
Qed.

End BurstLoop.

(** C4 (as amended).  A burst of one or more navigation keys that each
    move the selection of the focused panel, each less than 200 ms after
    the one before, increments the debounce token once per key and issues
    exactly one request to the package manager client when the timers have
    expired: the detail load of the package selected last. *)
Theorem burst_issues_one_load {L : Library} {Ov : App.Others}
    (m : App.Model) (burst : list (Z * string)) (ties : bool) :
  settled m ->
  browsing (App.home m) ->
  burst <> [] ->
  Z.of_nat (List.length burst) < 2 ^ 64 ->
  within_delay (List.map fst burst) ->
  selection_changes (App.home m) (List.map snd burst) ->
  let w := run ties (keystrokes burst) (start m) in
  debounceID (App.home (shell w))
  = GoInt.wrap (debounceID (App.home m) + Z.of_nat (List.length burst))
  /\ exists pkg,
      selectedPkg (App.home (shell w)) = Some pkg
      /\ index (items (App.home (shell w))) (selection (App.home (shell w)))
         = Some pkg
      /\ issued w = [client_Info (Name pkg) (isCask pkg)].
Proof.
  intros Hs Hb Hne Hlen Htimes Hch.
  destruct burst as [|[t key] rest]; [contradiction|]. clear Hne.
  simpl in Htimes, Hch. cbn [List.length] in Hlen.
  rewrite Nat2Z.inj_succ in Hlen. destruct Hch as (Hnav & Hmove & Hch).
  unfold start, keystrokes. simpl List.map. cbn [run fst snd].
  unfold expire_due. cbn [queue List.length expire].
  destruct (deliver_nav m t key [] [] Hs Hb Hnav Hmove) as (pkg & Hpost & ->).
  set (v' := fst (Update (App.home m) (KeyMsg key))) in *.
  pose proof (browsing_after_nav _ _ _ Hb Hpost) as Hb'.
  destruct Hpost as (pkg' & Hcmd & Hid' & Hsel' & Hidx' & Hdlg & _ & _).
  injection Hcmd as Hpkg. subst pkg'.
  assert (Hid : debounceID v' = GoInt.wrap (debounceID (App.home m) + 1))
    by exact Hid'.
  rewrite Hid. cbn [insert].
  cbn [List.length].
  replace (Z.of_nat (S (List.length rest)))
    with (1 + Z.of_nat (List.length rest)) by lia.
  apply (burst_tail ties (debounceID (App.home m)) rest
           (App.with_home v' m) [] t 1 pkg).
  - destruct Hs as (Hview & Hd & Hvis). repeat split; try assumption.
    cbn [App.home App.with_home]. now rewrite Hdlg.
  - exact Hb'.
  - exact Hid.
  - lia.
  - lia.
  - exact Hsel'.
  - exact Hidx'.
  - constructor.
  - exact Htimes.
  - exact Hch.
Qed.

Lemma burst_issues_one_load_witness :
  let m := fst (shell_run sample_model [WindowSizeMsg 80 30]) in
  let burst := [(0, "j"); (100, "j"); (150, "k")] in
  settled m
  /\ browsing (App.home m)
  /\ within_delay (List.map fst burst)
  /\ selection_changes (App.home m) (List.map snd burst)
  /\ issued (run true (keystrokes burst) (start m))
     = [client_Info "wget" false].
Proof.
  intros m burst.
  assert (Hs : settled m) by (vm_compute; auto).
  assert (Hb : browsing (App.home m)) by (vm_compute; intuition discriminate).
  assert (Ht : within_delay (List.map fst burst)) by (simpl; lia).
  assert (Hc : selection_changes (App.home m) (List.map snd burst))
    by (vm_compute; intuition discriminate).
  assert (Hn : burst <> []) by discriminate.
  assert (Hl : Z.of_nat (List.length burst) < 2 ^ 64)
    by (vm_compute; reflexivity).
  destruct (burst_issues_one_load m burst true Hs Hb Hn Hl Ht Hc)
    as (_ & pkg & Hsel & _ & Hissued).
  vm_compute in Hsel. injection Hsel as <-.
  exact (conj Hs (conj Hb (conj Ht (conj Hc Hissued)))).
Defined.

(** C4 (as stated) fails.  Not every selection change is debounced.  The
    operator moves to the second package, which schedules the trigger for
    it; 50 ms later search results arrive: their first package becomes the
    selection and its detail is requested at once, the token unchanged.
    The trigger then expires with the current token and requests the
    detail of the package that is no longer selected: two requests, the
    last one for a superseded package.  A reloaded installed list does the
    same. *)
Lemma arriving_list_is_loaded_at_once :
  let m := fst (shell_run sample_model [WindowSizeMsg 80 30]) in
  let searched :=
    run true [(0, KeyMsg "j"); (50, SearchResultsMsg [found "htop"])]
      (start m) in
  let reloaded :=
    run true
      [(0, KeyMsg "j");
       (50, app_PackagesLoadedMsg [formula "git" false; formula "zsh" false])]
      (start m) in
  settled m
  /\ browsing (App.home m)
  /\ issued searched = [client_Info "htop" false; client_Info "wget" false]
  /\ selectedPkg (App.home (shell searched)) = Some (found "htop")
  /\ debounceID (App.home (shell searched))
     = GoInt.add (debounceID (App.home m)) 1
  /\ issued reloaded = [client_Info "git" false; client_Info "wget" false]
  /\ selectedPkg (App.home (shell reloaded)) = Some (formula "git" false)
  /\ debounceID (App.home (shell reloaded))
     = GoInt.add (debounceID (App.home m)) 1.
Proof.
  intros m searched reloaded.
  assert (Hs : settled m) by (vm_compute; auto).
  assert (Hb : browsing (App.home m)) by (vm_compute; intuition discriminate).
  split; [exact Hs|]. split; [exact Hb|].
  vm_compute. repeat split.
Qed.

Import More.

(** * Further properties of the controller *)

(** ** Every event *)

(** Case analysis through [Update] and its handlers, with the fields of the
    updated dashboard reduced at each step. *)
Ltac unfold_handlers :=
  unfold Update, onDialogMsg, onKeyInSearchInput, onKey, onUp, onDown, onTab,
    updateFocusedPanel, loadSelectedPackageInfo, debouncedLoadPackageInfo,
    updateSelectedPackage, loadPackageInfo, performSearch, refresh,
    installPackage, uninstallPackage, upgradePackage, upgradeAll, runDoctor,
    runCleanup, runAutoremove, request, begin_operation, end_operation,
    updateInstalledList, addLog.

Ltac walk :=
  repeat (fields;
          match goal with
          | |- context [match ?x with _ => _ end] =>
              lazymatch x with
              | context [match _ with _ => _ end] => fail
              | _ => destruct x eqn:?
              end
          end);
  fields.

Section EveryEvent.

Context {L : Library}.

Lemma append_log_capped (logs : list string) (msg : string) :
  (List.length (append_log logs msg) <= 1000)%nat.
Proof.
  rewrite append_log_skipn, length_skipn. lia.
Qed.

(** [addLogLines] writes to the log and to nothing else. *)
Lemma addLogLines_only_logs (lines : list string) (v : DashboardView) :
  addLogLines lines v = with_logs (logs (addLogLines lines v)) v.
Proof.
  revert v. induction lines as [|l rest IH]; intros v.
  - now destruct v.
  - simpl. rewrite IH.
    destruct (negb (String.eqb (TrimSpace l) "")); reflexivity.
Qed.

Lemma addLogLines_capped (lines : list string) (v : DashboardView) :
  (List.length (logs v) <= 1000)%nat ->
  (List.length (logs (addLogLines lines v)) <= 1000)%nat.
Proof.
  revert v. induction lines as [|l rest IH]; intros v H; simpl.
  - exact H.
  - apply IH. destruct (negb (String.eqb (TrimSpace l) "")); [|exact H].
    apply append_log_capped.
Qed.

(** X1.  The log cap is an invariant of the controller: whatever the event,
    a log of at most 1000 entries stays a log of at most 1000 entries. *)
Theorem Update_keeps_log_cap (v : DashboardView) (msg : Msg) :
  (List.length (logs v) <= 1000)%nat ->
  (List.length (logs (fst (Update v msg))) <= 1000)%nat.
Proof.
  intros Hcap. unfold_handlers. walk;
    first [ exact Hcap | apply append_log_capped ].
Qed.

(** X2.  The debounce token is never reset: an event leaves it as it is
    and schedules no trigger, or increments it and schedules exactly one
    trigger, which carries the new token. *)
Theorem Update_token_steps (v : DashboardView) (msg : Msg) :
  let v' := fst (Update v msg) in
  let cmds := snd (Update v msg) in
  (debounceID v' = debounceID v /\ forall d m, ~ In (Tick d m) cmds)
  \/ (debounceID v' = GoInt.add (debounceID v) 1
      /\ exists pkg,
          cmds = [Tick 200 (DebouncedLoadMsg (Some pkg) (debounceID v'))]).
Proof.
  cbv zeta. unfold_handlers. unfold Components.Update. walk;
    try (rewrite addLogLines_only_logs; fields);
    first [ left; split; [reflexivity|];
            intros d m H; simpl in H; intuition discriminate
          | right; split; [reflexivity|]; eexists; reflexivity ].
Qed.

(** X3.  The search input has the focus only while the search panel has
    it: every event keeps this. *)
Theorem Update_focus_implies_search (v : DashboardView) (msg : Msg) :
  (Focused (searchInput v) = true -> focusedPanel v = PanelSearch) ->
  Focused (searchInput (fst (Update v msg))) = true ->
  focusedPanel (fst (Update v msg)) = PanelSearch.
Proof.
  unfold_handlers. unfold Focused, Blur, Focus, TextInput_Update.
  repeat (fields; cbn [focus value];
          match goal with
          | |- context [match ?x with _ => _ end] =>
              lazymatch x with
              | context [match _ with _ => _ end] => fail
              | _ => destruct x eqn:?
              end
          end);
    fields; cbn [focus value];
    try (rewrite addLogLines_only_logs; fields; cbn [focus value]);
    intuition congruence.
Qed.

(** X4.  While the dialog is visible the controller hears nothing else: a
    message that is not a key, a completion included, is dropped and the
    state is unchanged; a key changes at most the dialog, and the only
    command it can return is the resolution, which closes the dialog. *)
Theorem visible_dialog_swallows (v : DashboardView) :
  IsVisible (dialog v) = true ->
  (forall msg, (forall key, msg <> KeyMsg key) -> Update v msg = (v, []))
  /\ (forall key,
        exists d,
          fst (Update v (KeyMsg key)) = with_dialog d v
          /\ (snd (Update v (KeyMsg key)) = [] /\ IsVisible d = true
              \/ exists b,
                  snd (Update v (KeyMsg key)) = [Emit (DialogMsg b "")]
                  /\ IsVisible d = false)).
Proof.
  intros Hvis. split.
  - intros msg Hmsg. unfold Update. rewrite Hvis.
    unfold Components.Update. unfold IsVisible in Hvis. rewrite Hvis.
    cbn [negb].
    destruct msg; try (now destruct v). now elim (Hmsg key).
  - intros key. unfold Update. rewrite Hvis.
    unfold Components.Update. unfold IsVisible in *. rewrite Hvis.
    cbn [negb].
    repeat match goal with
      | |- context [match ?x with _ => _ end] =>
          lazymatch x with
          | context [match _ with _ => _ end] => fail
          | _ => destruct x eqn:?
          end
      end; cbn [fst snd];
      eexists; (split; [reflexivity|]); cbn [visible with_visible
                                                with_selectedBtn];
      first [ left; split; [reflexivity | assumption]
            | right; eexists; split; reflexivity ].
Qed.

End EveryEvent.

(** ** The dialog *)

(** X5.  A visible confirmation dialog resolves on [enter] and on [esc]
    and on nothing else.  [esc] cancels; [enter] confirms when the first
    button is selected and cancels otherwise; the dialog is hidden exactly
    when it resolves. *)
Theorem Dialog_resolves_on_enter_or_esc (d : Dialog) (msg : Msg) :
  visible d = true -> dialogType d = DialogConfirm ->
  match snd (Components.Update d msg) with
  | Some c =>
      visible (fst (Components.Update d msg)) = false
      /\ (msg = KeyMsg "enter"
             /\ c = Emit (DialogMsg (selectedBtn d =? 0) "")
          \/ msg = KeyMsg "esc" /\ c = Emit (DialogMsg false ""))
  | None =>
      visible (fst (Components.Update d msg)) = true
      /\ msg <> KeyMsg "enter" /\ msg <> KeyMsg "esc"
  end.
Proof.
  intros Hvis Htype. unfold Components.Update. rewrite Hvis, Htype.
  cbn [negb].
  destruct msg; cbn [fst snd]; try (repeat split; [assumption | discriminate..]).
  unfold Matches. cbn [existsb].
  repeat match goal with
    | |- context [String.eqb key ?k] => destruct (String.eqb_spec key k)
    end; subst; cbn [orb fst snd];
    try discriminate;
    repeat match goal with
      | |- context [if ?c then _ else _] => destruct c
      end; cbn [fst snd visible with_visible with_selectedBtn];
    repeat split; auto; try congruence.
Qed.

(** X6.  The selected button stays one of the buttons: no message moves
    the selection of a dialog outside [0, len(buttons)). *)
Theorem Dialog_selection_in_range (d : Dialog) (msg : Msg) :
  0 <= selectedBtn d < GoInt.len (buttons d) ->
  GoInt.len (buttons d) <= GoInt.max_int ->
  let d' := fst (Components.Update d msg) in
  buttons d' = buttons d /\ 0 <= selectedBtn d' < GoInt.len (buttons d').
Proof.
  intros Hsel Hmax. unfold GoInt.max_int in Hmax. cbv zeta.
  unfold Components.Update.
  destruct (negb (visible d)); [now split|].
  destruct msg; cbn [fst]; try now split.
  repeat match goal with
    | |- context [if Matches ?k ?ks then _ else _] => destruct (Matches k ks)
    end; cbn [fst]; try now split.
  - destruct (Z.gtb_spec (selectedBtn d) 0); cbn [fst]; [|now split].
    cbn [buttons selectedBtn with_selectedBtn]. split; [reflexivity|].
    rewrite sub_small by lia. lia.
  - rewrite (sub_small (GoInt.len (buttons d)) 1) by lia.
    destruct (Z.ltb_spec (selectedBtn d) (GoInt.len (buttons d) - 1));
      cbn [fst]; [|now split].
    cbn [buttons selectedBtn with_selectedBtn]. split; [reflexivity|].
    rewrite add_small by lia. lia.
  - cbn [buttons selectedBtn with_selectedBtn]. split; [reflexivity|].
    rewrite add_small by lia.
    pose proof (Z.rem_bound_pos (selectedBtn d + 1) (GoInt.len (buttons d))
                  ltac:(lia) ltac:(lia)).
    lia.
  - destruct (dialogType d); cbn [fst buttons selectedBtn with_visible];
      now split.
Qed.

(** ** Asking, confirming, cancelling *)

Section Flows.

Context {L : Library}.

Lemma commands_cons (v : DashboardView) (msg : Msg) (rest : list Msg) :
  commands v (msg :: rest)
  = snd (Update v msg) :: commands (fst (Update v msg)) rest.
Proof.
  unfold commands. simpl. now destruct (Update v msg).
Qed.

Lemma after_cons (v : DashboardView) (msg : Msg) (rest : list Msg) :
  after v (msg :: rest) = after (fst (Update v msg)) rest.
Proof. reflexivity. Qed.

Lemma dialog_enter (v : DashboardView) :
  IsVisible (dialog v) = true -> dialogType (dialog v) = DialogConfirm ->
  Update v (KeyMsg "enter")
  = (with_dialog (with_visible false (dialog v)) v,
     [Emit (DialogMsg (selectedBtn (dialog v) =? 0) "")]).
Proof.
  intros Hvis Htype. unfold Update. rewrite Hvis.
  unfold Components.Update. unfold IsVisible in Hvis. rewrite Hvis, Htype.
  reflexivity.
Qed.

Lemma dialog_esc (v : DashboardView) :
  IsVisible (dialog v) = true ->
  Update v (KeyMsg "esc")
  = (with_dialog (with_visible false (dialog v)) v,
     [Emit (DialogMsg false "")]).
Proof.
  intros Hvis. unfold Update. rewrite Hvis.
  unfold Components.Update. unfold IsVisible in Hvis. rewrite Hvis.
  reflexivity.
Qed.

Lemma dialog_right (v : DashboardView) :
  IsVisible (dialog v) = true ->
  Update v (KeyMsg "right")
  = (with_dialog
       (if selectedBtn (dialog v)
           <? GoInt.sub (GoInt.len (buttons (dialog v))) 1
        then with_selectedBtn (GoInt.add (selectedBtn (dialog v)) 1)
               (dialog v)
        else dialog v) v, []).
Proof.
  intros Hvis. unfold Update. rewrite Hvis.
  unfold Components.Update. unfold IsVisible in Hvis. rewrite Hvis.
  reflexivity.
Qed.

Lemma resolve (v : DashboardView) (b : bool) (a : string) :
  IsVisible (dialog v) = false ->
  Update v (DialogMsg b a) = onDialogMsg b v.
Proof. intros Hvis. unfold Update. now rewrite Hvis. Qed.

Lemma ask_global (v : DashboardView) (key action : string) (call : Cmd) :
  ready_to_ask v -> In (key, action, call) global_requests ->
  exists prompt, Update v (KeyMsg key) = (request action prompt v, []).
Proof.
  intros (Hvis & Hfoc & _) Hin. unfold Update. rewrite Hvis, Hfoc.
  unfold global_requests in Hin. simpl in Hin.
  destruct Hin as [E|[E|[E|[]]]]; injection E as <- <- <-;
    eexists; reflexivity.
Qed.

(** The dialog that a request opens, after the keys that answer it. *)
Lemma answer_enter (v : DashboardView) (action prompt : string) :
  dialogType (dialog v) = DialogConfirm ->
  let asked := request action prompt v in
  let v' := fst (Update asked (KeyMsg "enter")) in
  snd (Update asked (KeyMsg "enter")) = [Emit (DialogMsg true "")]
  /\ IsVisible (dialog v') = false
  /\ pendingAction v' = action
  /\ selectedPkg v' = selectedPkg v.
Proof.
  intros Htype asked v'. subst v'.
  rewrite (dialog_enter asked eq_refl Htype). repeat split.
Qed.

Lemma answer_esc (v : DashboardView) (action prompt : string) :
  let asked := request action prompt v in
  let v' := fst (Update asked (KeyMsg "esc")) in
  snd (Update asked (KeyMsg "esc")) = [Emit (DialogMsg false "")]
  /\ IsVisible (dialog v') = false.
Proof.
  intros asked v'. subst v'. rewrite (dialog_esc asked eq_refl).
  repeat split.
Qed.

Lemma answer_right_enter (v : DashboardView) (action prompt : string) :
  dialogType (dialog v) = DialogConfirm ->
  buttons (dialog v) = ["Confirm"; "Cancel"] ->
  let asked := request action prompt v in
  let moved := fst (Update asked (KeyMsg "right")) in
  let v' := fst (Update moved (KeyMsg "enter")) in
  snd (Update asked (KeyMsg "right")) = []
  /\ snd (Update moved (KeyMsg "enter")) = [Emit (DialogMsg false "")]
  /\ IsVisible (dialog v') = false.
Proof.
  intros Htype Hbtn asked moved v'. subst v' moved.
  rewrite (dialog_right asked eq_refl).
  cbn [fst snd]. split; [reflexivity|].
  assert (Hd : dialog asked = Show (SetMessage prompt (dialog v)))
    by reflexivity.
  rewrite Hd. unfold Show, SetMessage.
  cbn [selectedBtn buttons with_selectedBtn with_visible].
  rewrite Hbtn.
  change (0 <? GoInt.sub (GoInt.len ["Confirm"; "Cancel"]) 1) with true.
  cbn iota.
  rewrite dialog_enter by (try reflexivity; exact Htype).
  repeat split.
Qed.

(** X7.  The doctor, the cleanup and the autoremove go through the two
    phases.  The key opens the dialog and issues nothing; [enter] on the
    dialog as it opens confirms, and the confirmation issues the call;
    [esc], or [enter] after moving to the second button, cancels: nothing
    is issued and the pending action is cleared. *)
Theorem global_action_two_phases (v : DashboardView)
    (key action : string) (call : Cmd) :
  ready_to_ask v ->
  In (key, action, call) global_requests ->
  commands v [KeyMsg key; KeyMsg "enter"; DialogMsg true ""]
  = [[]; [Emit (DialogMsg true "")]; [call]]
  /\ commands v [KeyMsg key; KeyMsg "esc"; DialogMsg false ""]
     = [[]; [Emit (DialogMsg false "")]; []]
  /\ commands v [KeyMsg key; KeyMsg "right"; KeyMsg "enter";
                 DialogMsg false ""]
     = [[]; []; [Emit (DialogMsg false "")]; []]
  /\ pendingAction (after v [KeyMsg key]) = action
  /\ pendingAction (after v [KeyMsg key; KeyMsg "esc"; DialogMsg false ""])
     = "".
Proof.
  intros Hr Hin.
  destruct (ask_global v key action call Hr Hin) as [prompt Hask].
  destruct Hr as (Hvis & Hfoc & Htype & Hbtn).
  destruct (answer_enter v action prompt Htype) as (He1 & He2 & He3 & _).
  destruct (answer_esc v action prompt) as (Hc1 & Hc2).
  destruct (answer_right_enter v action prompt Htype Hbtn)
    as (Hm1 & Hm2 & Hm3).
  rewrite !commands_cons, !after_cons, Hask. cbn [fst snd].
  rewrite He1, Hc1, Hm1, Hm2.
  rewrite !resolve by assumption.
  unfold after. cbn [fold_left commands history List.map].
  repeat split.
  unfold onDialogMsg. rewrite He3.
  unfold global_requests in Hin. simpl in Hin.
  destruct Hin as [E|[E|[E|[]]]]; injection E as <- <- <-; reflexivity.
Qed.

Lemma confirm_package (v : DashboardView) (action prompt : string)
    (pkg : Package) :
  dialogType (dialog v) = DialogConfirm ->
  selectedPkg v = Some pkg ->
  commands (request action prompt v) [KeyMsg "enter"; DialogMsg true ""]
  = [[Emit (DialogMsg true "")];
     snd (onDialogMsg true
            (fst (Update (request action prompt v) (KeyMsg "enter"))))]
  /\ pendingAction (fst (Update (request action prompt v) (KeyMsg "enter")))
     = action
  /\ selectedPkg (fst (Update (request action prompt v) (KeyMsg "enter")))
     = Some pkg.
Proof.
  intros Htype Hsel.
  destruct (answer_enter v action prompt Htype) as (He1 & He2 & He3 & He4).
  rewrite !commands_cons, He1, resolve by assumption.
  rewrite He4, Hsel. repeat split. exact He3.
Qed.

(** X8.  Upgrading and uninstalling the selected package of the installed
    panel go through the two phases, with the name of the package in the
    prompt and in the call; the upgrade is offered only for a package that
    is outdated. *)
Theorem package_action_two_phases (v : DashboardView) (pkg : Package) :
  ready_to_ask v ->
  focusedPanel v = PanelInstalled ->
  selectedPkg v = Some pkg ->
  (commands v [KeyMsg "x"; KeyMsg "enter"; DialogMsg true ""]
   = [[]; [Emit (DialogMsg true "")];
      [client_Uninstall (Name pkg) (isCask pkg)]]
   /\ message (dialog (after v [KeyMsg "x"]))
      = "Uninstall " ++ Name pkg ++ "?")
  /\ (Outdated pkg = true ->
      commands v [KeyMsg "u"; KeyMsg "enter"; DialogMsg true ""]
      = [[]; [Emit (DialogMsg true "")]; [client_Upgrade [Name pkg]]]
      /\ message (dialog (after v [KeyMsg "u"]))
         = "Upgrade " ++ Name pkg ++ "?")
  /\ (Outdated pkg = false ->
      IsVisible (dialog (after v [KeyMsg "u"])) = false
      /\ pendingAction (after v [KeyMsg "u"]) = pendingAction v
      /\ quiet (snd (Update v (KeyMsg "u")))).
Proof.
  intros (Hvis & Hfoc & Htype & Hbtn) Hpanel Hsel.
  assert (Hx : Update v (KeyMsg "x")
               = (request "uninstall" ("Uninstall " ++ Name pkg ++ "?") v, [])).
  { unfold Update. rewrite Hvis, Hfoc. unfold onKey.
    cbn [Matches existsb String.eqb Ascii.eqb Bool.eqb orb].
    rewrite Hsel, Hpanel. reflexivity. }
  split; [|split].
  - rewrite commands_cons, after_cons, Hx. cbn [fst snd].
    destruct (confirm_package v "uninstall"
                ("Uninstall " ++ Name pkg ++ "?") pkg Htype Hsel)
      as (Hc & Hp & Hs).
    rewrite Hc. unfold onDialogMsg. rewrite Hp, Hs. split; reflexivity.
  - intros Hout.
    assert (Hu : Update v (KeyMsg "u")
                 = (request "upgrade" ("Upgrade " ++ Name pkg ++ "?") v, [])).
    { unfold Update. rewrite Hvis, Hfoc. unfold onKey.
      cbn [Matches existsb String.eqb Ascii.eqb Bool.eqb orb].
      rewrite Hsel, Hpanel, Hout. reflexivity. }
    rewrite commands_cons, after_cons, Hu. cbn [fst snd].
    destruct (confirm_package v "upgrade"
                ("Upgrade " ++ Name pkg ++ "?") pkg Htype Hsel)
      as (Hc & Hp & Hs).
    rewrite Hc. unfold onDialogMsg. rewrite Hp, Hs. split; reflexivity.
  - intros Hout.
    assert (Hu : Update v (KeyMsg "u") = updateFocusedPanel (KeyMsg "u") v).
    { unfold Update. rewrite Hvis, Hfoc. unfold onKey.
      cbn [Matches existsb String.eqb Ascii.eqb Bool.eqb orb].
      rewrite Hsel, Hpanel, Hout. reflexivity. }
    rewrite after_cons, Hu. unfold after. cbn [fold_left].
    split; [|split].
    + unfold updateFocusedPanel, loadPackageInfo. walk; exact Hvis.
    + unfold updateFocusedPanel, loadPackageInfo. walk; reflexivity.
    + apply quiet_updateFocusedPanel.
Qed.

(** X9.  Upgrading everything is offered only when the store counts an
    outdated package.  With a count of zero the key does nothing: no
    dialog, no command, the same state.  With a positive count the prompt
    names the count and the confirmation issues the upgrade of the empty
    list. *)
Theorem upgrade_all_needs_outdated (v : DashboardView) :
  ready_to_ask v ->
  focusedPanel v = PanelInstalled ->
  (GetOutdatedCount (state v) <= 0 -> Update v (KeyMsg "U") = (v, []))
  /\ (0 < GetOutdatedCount (state v) ->
      commands v [KeyMsg "U"; KeyMsg "enter"; DialogMsg true ""]
      = [[]; [Emit (DialogMsg true "")]; [client_Upgrade []]]
      /\ message (dialog (after v [KeyMsg "U"]))
         = "Upgrade all " ++ GoInt.itoa (GetOutdatedCount (state v))
           ++ " outdated packages?").
Proof.
  intros (Hvis & Hfoc & Htype & Hbtn) Hpanel.
  assert (HU : Update v (KeyMsg "U")
               = if GetOutdatedCount (state v) >? 0
                 then (request "upgradeAll"
                         ("Upgrade all "
                          ++ GoInt.itoa (GetOutdatedCount (state v))
                          ++ " outdated packages?") v, [])
                 else (v, [])).
  { unfold Update. rewrite Hvis, Hfoc. unfold onKey.
    cbn [Matches existsb String.eqb Ascii.eqb Bool.eqb orb].
    rewrite Hpanel. reflexivity. }
  split; intros Hcount.
  - rewrite HU.
    destruct (Z.gtb_spec (GetOutdatedCount (state v)) 0); [lia|reflexivity].
  - rewrite commands_cons, after_cons, HU.
    destruct (Z.gtb_spec (GetOutdatedCount (state v)) 0); [|lia].
    cbn [fst snd].
    set (prompt := "Upgrade all " ++ _ ++ " outdated packages?").
    destruct (answer_enter v "upgradeAll" prompt Htype)
      as (He1 & He2 & He3 & _).
    rewrite !commands_cons, He1, resolve by assumption.
    unfold onDialogMsg. rewrite He3. split; reflexivity.
Qed.

End Flows.

(** ** Searching *)

Section Searching.

Context {L : Library}.

(** X10.  In the text entry of the search panel, with no dialog open, a
    key other than [esc], [enter] and [tab] changes the query and nothing
    else; [enter] on an empty query does nothing and on a query issues the
    search for it, the input keeping the focus; [esc] and [tab] leave the
    text entry with the query kept, [tab] moving on to the dependencies. *)
Theorem search_input_keys (v : DashboardView) (key : string) :
  IsVisible (dialog v) = false ->
  Focused (searchInput v) = true ->
  let query := Value (searchInput v) in
  (key <> "esc" -> key <> "enter" -> key <> "tab" ->
   Update v (KeyMsg key)
   = (with_searchInput
        {| focus := true; value := textinput_edit query (KeyMsg key) |} v,
      [WidgetCmd]))
  /\ (query = "" -> Update v (KeyMsg "enter") = (v, []))
  /\ (query <> "" ->
      Update v (KeyMsg "enter")
      = (with_searching true v, [client_Search query]))
  /\ Update v (KeyMsg "esc")
     = (with_searchInput {| focus := false; value := query |} v, [])
  /\ Update v (KeyMsg "tab")
     = (with_focusedPanel PanelDependencies
          (with_searchInput {| focus := false; value := query |} v), []).
Proof.
  intros Hvis Hfoc query. unfold Update. rewrite Hvis, Hfoc.
  unfold onKeyInSearchInput, TextInput_Update, performSearch, Value, Blur.
  unfold Focused in Hfoc. fold query.
  repeat split.
  - intros H1 H2 H3.
    destruct (String.eqb_spec key "esc"); [contradiction|].
    destruct (String.eqb_spec key "enter"); [contradiction|].
    destruct (String.eqb_spec key "tab"); [contradiction|].
    fields. now rewrite Hfoc.
  - intros Hq. subst query. unfold Value in Hq.
    cbn [String.eqb Ascii.eqb Bool.eqb].
    destruct (String.eqb_spec (value (searchInput v)) "");
      [reflexivity | contradiction].
  - intros Hq. subst query. unfold Value in Hq.
    cbn [String.eqb Ascii.eqb Bool.eqb].
    destruct (String.eqb_spec (value (searchInput v)) "");
      [contradiction | reflexivity].
Qed.

(** X11.  From the search panel to an installation.  The results arrive:
    the first one is selected and its detail requested at once, with no
    trigger scheduled and the token unchanged, and the input loses the
    focus.  [enter] then asks for the installation of that package when it
    is not installed, and the confirmation issues it. *)
Theorem search_then_install (v : DashboardView)
    (first : Package) (others : list Package) :
  IsVisible (dialog v) = false ->
  dialogType (dialog v) = DialogConfirm ->
  focusedPanel v = PanelSearch ->
  Installed first = false ->
  let v' := after v [SearchResultsMsg (first :: others)] in
  commands v [SearchResultsMsg (first :: others); KeyMsg "enter";
              KeyMsg "enter"; DialogMsg true ""]
  = [[client_Info (Name first) (isCask first)]; [];
     [Emit (DialogMsg true "")];
     [client_Install (Name first) (isCask first)]]
  /\ selectedPkg v' = Some first
  /\ searchIndex v' = 0 /\ searchScroll v' = 0
  /\ Focused (searchInput v') = false
  /\ debounceID v' = debounceID v.
Proof.
  intros Hvis Htype Hpanel Hinst v'.
  assert (Hres : Update v (SearchResultsMsg (first :: others))
                 = loadPackageInfo first
                     (with_selectedPkg (Some first)
                        (with_searchInput (Blur (searchInput v))
                           (with_searchScroll 0
                              (with_searchIndex 0
                                 (with_searching false
                                    (with_searchResults (first :: others)
                                       v))))))).
  { unfold Update. rewrite Hvis. reflexivity. }
  subst v'. rewrite commands_cons, after_cons, Hres.
  unfold loadPackageInfo. cbn [fst snd].
  set (got := with_loadingInfo true _).
  assert (Hask : Update got (KeyMsg "enter")
                 = (request "install" ("Install " ++ Name first ++ "?") got,
                    [])).
  { unfold Update. replace (IsVisible (dialog got)) with false by
      (symmetry; exact Hvis).
    change (Focused (searchInput got)) with false. cbv iota.
    unfold onKey. cbn [Matches existsb String.eqb Ascii.eqb Bool.eqb orb].
    replace (focusedPanel got) with PanelSearch by (symmetry; exact Hpanel).
    change (selectedPkg got) with (Some first).
    change (searchResults got) with (first :: others).
    change (Focused (searchInput got)) with false.
    assert (Hlen : (GoInt.len (first :: others) >? 0) = true).
    { destruct (Z.gtb_spec (GoInt.len (first :: others)) 0);
        [reflexivity|]. unfold GoInt.len in *. simpl List.length in *. lia. }
    rewrite Hlen. cbn [is_PanelSearch andb negb]. rewrite Hinst.
    reflexivity. }
  rewrite commands_cons, Hask. cbn [fst snd].
  destruct (confirm_package got "install" ("Install " ++ Name first ++ "?")
              first Htype eq_refl) as (Hc & Hp & Hs).
  rewrite Hc. unfold onDialogMsg. rewrite Hp, Hs.
  unfold after. cbn [fold_left]. repeat split.
Qed.

(** X12.  The focus cycles.  With no dialog open, and the input focused
    only in the search panel, three [tab] keys bring the focus back to the
    panel it started from and issue nothing; the first one leaves the
    input focused exactly when it arrives in the search panel. *)
Theorem tab_cycles_focus (v : DashboardView) :
  IsVisible (dialog v) = false ->
  (Focused (searchInput v) = true -> focusedPanel v = PanelSearch) ->
  focusedPanel (after v [KeyMsg "tab"; KeyMsg "tab"; KeyMsg "tab"])
  = focusedPanel v
  /\ commands v [KeyMsg "tab"; KeyMsg "tab"; KeyMsg "tab"] = [[]; []; []]
  /\ (Focused (searchInput (after v [KeyMsg "tab"])) = true
      <-> focusedPanel v = PanelInstalled)
  /\ focusedPanel (after v [KeyMsg "tab"])
     = match focusedPanel v with
       | PanelInstalled => PanelSearch
       | PanelSearch => PanelDependencies
       | PanelDependencies => PanelInstalled
       end.
Proof.
  intros Hvis Hinv.
  unfold commands, after, history, fold_left, List.map.
  unfold Update, onKeyInSearchInput, onKey, onTab, IsVisible, Focused,
    Blur, Focus in *.
  cbn [Matches existsb String.eqb Ascii.eqb Bool.eqb orb].
  fields. cbn [focus value]. rewrite ?Hvis.
  destruct (focus (searchInput v)) eqn:Hf.
  - rewrite (Hinv eq_refl). fields. cbn [focus value]. rewrite ?Hvis.
    fields. cbn [focus value]. rewrite ?Hvis. fields. cbn [focus value].
    repeat split; discriminate.
  - destruct (focusedPanel v) eqn:Hp; fields; cbn [focus value];
      rewrite ?Hvis; fields; cbn [focus value]; rewrite ?Hvis; fields;
      cbn [focus value]; rewrite ?Hp; repeat split; congruence.
Qed.

End Searching.

(** ** The shell *)

Section ShellRouting.

Context {L : Library} {Ov : App.Others}.

Lemma shell_passes (m : App.Model) (msg : Msg) :
  settled m ->
  msg <> spinner_TickMsg -> msg <> RefreshPackagesMsg ->
  App.dispatch [] msg m = None ->
  App.Update m msg
  = (App.with_home (fst (Update (App.home m) msg)) m,
     snd (Update (App.home m) msg)).
Proof.
  intros (Hview & Hdlg & _) Htick Hrefresh Hnone. unfold App.Update.
  replace (App.is_TickMsg msg) with false
    by (destruct msg; try reflexivity; now elim Htick).
  rewrite andb_false_r, Hdlg. cbn iota. rewrite Hdlg, Hnone.
  unfold App.updateView. rewrite Hview.
  destruct msg; now destruct (Update (App.home m) _).
Qed.

(** X13.  The keys that the shell keeps for itself are exactly its global
    bindings.  On the dashboard, with no shell dialog open, any other key
    ([esc] too when there is no view to go back to) is processed by the
    dashboard; a global key leaves the whole model, the dashboard
    included, as it was. *)
Theorem shell_keeps_only_global_keys (m : App.Model) (key : string) :
  settled m ->
  (~ In key global_keys -> (key = "esc" -> App.viewStack m = []) ->
   App.Update m (KeyMsg key)
   = (App.with_home (fst (Update (App.home m) (KeyMsg key))) m,
      snd (Update (App.home m) (KeyMsg key))))
  /\ (In key global_keys -> fst (App.Update m (KeyMsg key)) = m).
Proof.
  intros Hs. split.
  - intros Hnot Hesc. apply shell_passes; try assumption; try discriminate.
    unfold global_keys in Hnot. simpl in Hnot. unfold App.dispatch.
    repeat match goal with
      | |- context [String.eqb key ?k] =>
          destruct (String.eqb_spec key k); [subst; try tauto|]
      end; cbn [orb]; try reflexivity.
    rewrite Hesc by reflexivity. reflexivity.
  - intros Hin. destruct Hs as (Hview & Hdlg & _).
    unfold global_keys in Hin. simpl in Hin.
    unfold App.Update. rewrite andb_false_r, Hdlg. cbn iota. rewrite Hdlg.
    repeat destruct Hin as [<-|Hin]; try reflexivity. contradiction.
Qed.

Lemma append_log_last (logs : list string) (msg : string) :
  exists older, append_log logs msg = (older ++ [msg])%list.
Proof.
  rewrite append_log_skipn.
  exists (skipn (List.length (logs ++ [msg]) - 1000) logs).
  rewrite skipn_app, length_app. simpl List.length.
  replace (List.length logs + 1 - 1000 - List.length logs)%nat with 0%nat
    by lia.
  reflexivity.
Qed.

(** X14.  A success ends the operation and refreshes the lists: the status
    returns to idle, the store records the message, the log ends with the
    message behind a check mark, and the shell answers the refresh that the
    dashboard asks for with the two list requests. *)
Theorem success_refreshes_lists (m : App.Model) (done : string) :
  settled m ->
  let r := shell_run m [SuccessMsgView done; RefreshPackagesMsg] in
  let v' := App.home (fst r) in
  snd r = [[Emit RefreshPackagesMsg]; [client_ListInstalled; client_Outdated]]
  /\ operationInProgress v' = false
  /\ SuccessMsg (state v') = done
  /\ InstalledPackages (state v') = InstalledPackages (App.store m)
  /\ exists older, logs v' = (older ++ [("✓ " ++ done)%string])%list.
Proof.
  intros Hs r v'. subst v' r. unfold shell_run.
  rewrite (shell_passes m (SuccessMsgView done) Hs)
    by (try discriminate; reflexivity).
  destruct Hs as (Hview & Hdlg & Hvis).
  assert (Hup : Update (App.home m) (SuccessMsgView done)
                = (with_state (SetSuccess done (state (App.home m)))
                     (addLog ("✓ " ++ done) (end_operation (App.home m))),
                   [Emit RefreshPackagesMsg])).
  { unfold Update. rewrite Hvis. reflexivity. }
  rewrite Hup. cbn [fst snd].
  set (m1 := App.with_home _ m).
  assert (Href : App.Update m1 RefreshPackagesMsg
                 = (m1, [client_ListInstalled; client_Outdated])).
  { unfold App.Update. rewrite andb_false_r.
    change (App.dialog m1) with (App.dialog m). rewrite Hdlg. cbn iota.
    change (App.dialog m1) with (App.dialog m). rewrite Hdlg.
    reflexivity. }
  rewrite Href. cbn [fst snd].
  repeat split. unfold m1. cbn [App.home App.with_home].
  fields. unfold addLog, end_operation. fields. apply append_log_last.
Qed.

(** X15.  Going to a view and back.  A navigation pushes the current view
    and shows the other one; the way back pops it: the current view and
    the stack are as before.  With nothing on the stack the way back
    changes nothing. *)
Theorem navigate_then_back (m : App.Model) (view : ViewType) :
  IsVisible (App.dialog m) = false ->
  let there := fst (App.Update m (app_NavigateMsg view)) in
  let back := fst (App.Update there app_BackMsg) in
  App.currentView there = view
  /\ App.viewStack there = (App.viewStack m ++ [App.currentView m])%list
  /\ App.currentView back = App.currentView m
  /\ App.viewStack back = App.viewStack m
  /\ (App.viewStack m = [] -> App.Update m app_BackMsg = (m, [])).
Proof.
  intros Hdlg there back.
  assert (Hthere : App.currentView there = view
                   /\ App.viewStack there
                      = (App.viewStack m ++ [App.currentView m])%list
                   /\ App.dialog there = App.dialog m).
  { subst there. unfold App.Update. rewrite andb_false_r, Hdlg. cbn iota.
    rewrite Hdlg. cbn [App.dispatch]. unfold App.initView.
    cbn [App.currentView App.with_currentView App.with_store App.with_home
         App.with_viewStack].
    destruct view;
      repeat match goal with
        | |- context [let '(_, _) := ?x in _] => destruct x
        end; repeat split. }
  destruct Hthere as (Hc & Hst & Hd).
  split; [exact Hc|]. split; [exact Hst|].
  assert (Hback : App.currentView back = App.currentView m
                  /\ App.viewStack back = App.viewStack m).
  { subst back. unfold App.Update. rewrite andb_false_r, Hd, Hdlg.
    cbn iota. rewrite Hd, Hdlg. cbn [App.dispatch].
    rewrite Hst, rev_app_distr. cbn [rev app]. cbn [fst].
    cbn [App.currentView App.viewStack App.with_currentView
         App.with_viewStack App.with_store App.with_home].
    now rewrite rev_involutive. }
  destruct Hback as (Hb1 & Hb2).
  split; [exact Hb1|]. split; [exact Hb2|].
  intros Hempty. unfold App.Update. rewrite andb_false_r, Hdlg. cbn iota.
  rewrite Hdlg. cbn [App.dispatch]. now rewrite Hempty.
Qed.

(** X16.  A loaded package list reaches the store and the dashboard
    together: the store holds the list and counts it, the dashboard
    returns to idle and to the first row, and it selects the first package
    that passes the filters and requests its detail at once; the log ends
    with the number of packages that pass the filters. *)
Theorem packages_loaded_resets_selection (m : App.Model)
    (packages : list Package) :
  settled m ->
  let r := App.Update m (app_PackagesLoadedMsg packages) in
  let v' := App.home (fst r) in
  InstalledPackages (state v') = packages
  /\ GetInstalledCount (state v') = GoInt.len packages
  /\ installedIndex v' = 0 /\ installedScroll v' = 0
  /\ operationInProgress v' = false
  /\ match GetFilteredPackages (state v') with
     | first :: _ =>
         selectedPkg v' = Some first
         /\ snd r = [client_Info (Name first) (isCask first)]
     | [] => selectedPkg v' = selectedPkg (App.home m) /\ snd r = []
     end
  /\ exists older,
       logs v'
       = (older
          ++ [("✓ Loaded "
               ++ GoInt.itoa (GoInt.len (GetFilteredPackages (state v')))
               ++ " packages")%string])%list.
Proof.
  intros (Hview & Hdlg & Hvis) r v'. subst v' r.
  set (v1 := with_state (SetInstalled packages (state (App.home m)))
               (App.home m)).
  assert (Hup : App.Update m (app_PackagesLoadedMsg packages)
                = (App.with_home (fst (Update v1 (PackagesLoadedMsg packages)))
                     (App.with_home v1 m),
                   snd (Update v1 (PackagesLoadedMsg packages)))).
  { unfold App.Update. rewrite andb_false_r, Hdlg. cbn iota. rewrite Hdlg.
    cbn [App.dispatch]. unfold App.updateView, App.with_store, App.store.
    cbn [App.currentView App.home App.with_home]. rewrite Hview. fold v1.
    now destruct (Update v1 (PackagesLoadedMsg packages)). }
  rewrite Hup. cbn [fst snd App.home App.with_home].
  assert (Hv1 : IsVisible (dialog v1) = false) by exact Hvis.
  unfold Update. rewrite Hv1.
  unfold updateInstalledList, end_operation, addLog, loadPackageInfo.
  fields.
  change (state v1) with (SetInstalled packages (state (App.home m))).
  destruct (GetFilteredPackages
              (SetInstalled packages (state (App.home m)))) eqn:E;
    fields;
    change (state v1) with (SetInstalled packages (state (App.home m)));
    rewrite ?E; repeat split; try apply append_log_last.
Qed.

End ShellRouting.

(** ** The dependencies panel and the store *)

Section Dependencies.

Context {L : Library}.

(** No event changes the size of the window. *)
Lemma Update_keeps_height (v : DashboardView) (msg : Msg) :
  height (fst (Update v msg)) = height v.
Proof.
  unfold_handlers. walk;
    try (rewrite addLogLines_only_logs; fields); reflexivity.
Qed.

Lemma dependencies_lines_range (v : DashboardView) :
  1 <= getDependenciesVisibleLines v < 2 ^ 63.
Proof.
  unfold getDependenciesVisibleLines. cbv zeta.
  pose proof (wrap_in_range
                (scale35 (GoInt.sub (height v) 1) - 6)) as H.
  fold (GoInt.sub (scale35 (GoInt.sub (height v) 1)) 6) in H.
  destruct (Z.ltb_spec (GoInt.sub (scale35 (GoInt.sub (height v) 1)) 6) 1);
    lia.
Qed.

(** X17.  The dependencies panel scrolls within its list: whatever the
    event, the scroll offset stays between 0 and the last offset that
    still fills the panel, and a new detail brings it back to 0. *)
Theorem Update_keeps_deps_scroll (v : DashboardView) (msg : Msg) :
  deps_scroll_ok v -> small_info msg ->
  deps_scroll_ok (fst (Update v msg))
  /\ (IsVisible (dialog v) = false ->
      forall info, msg = PackageInfoLoadedMsg info ->
      depScroll (fst (Update v msg)) = 0).
Proof.
  intros Hok Hsmall. split.
  2:{ intros Hvis info ->. unfold Update. now rewrite Hvis. }
  unfold deps_scroll_ok in *.
  assert (Hlines : getDependenciesVisibleLines (fst (Update v msg))
                   = getDependenciesVisibleLines v).
  { unfold getDependenciesVisibleLines. now rewrite Update_keeps_height. }
  rewrite Hlines. clear Hlines.
  pose proof (dependencies_lines_range v) as Hrange.
  revert Hok Hrange Hsmall. unfold small_info.
  unfold_handlers. walk;
    try (rewrite addLogLines_only_logs; fields);
    intros; try assumption; try tauto;
    repeat match goal with
      | H : context [addLogLines _ _] |- _ =>
          rewrite addLogLines_only_logs in H; fields_in H
      end;
    repeat match goal with
      | H : Some _ = Some _ |- _ => injection H as H; subst
      | H : Some _ = None |- _ => discriminate H
      | H : None = Some _ |- _ => discriminate H
      | H1 : ?x = Some ?a, H2 : ?x = Some ?b |- _ =>
          assert (a = b) by congruence; subst b; clear H2
      | H1 : ?x = Some _, H2 : ?x = None |- _ => congruence
      end;
    try assumption;
    try (pose proof (len_nonneg (Dependencies p)));
    rewrite ?sub_small in * by lia;
    rewrite ?add_small in * by lia;
    try lia.
Qed.

End Dependencies.

(** ** The store *)

Lemma toggle_all_cons (name : string) (rest : list string) (s : State) :
  toggle_all (name :: rest) s = toggle_all rest (ToggleFavorite name s).
Proof. reflexivity. Qed.

(** X18.  Favorites as toggles made them.  Starting from a list without
    duplicates (the empty list of [NewState] is one), any sequence of
    toggles leaves a list without duplicates, and a name is a favorite
    afterwards exactly when it was one and was toggled an even number of
    times, or was not one and was toggled an odd number of times. *)
Theorem toggles_count_parity (names : list string) (s : State) (n : string) :
  NoDup (Favorites s) ->
  NoDup (Favorites (toggle_all names s))
  /\ IsFavorite (toggle_all names s) n
     = xorb (IsFavorite s n) (Nat.odd (count_occ string_dec names n)).
Proof.
  revert s. induction names as [|name rest IH]; intros s Hnd.
  - split; [exact Hnd|]. simpl. now rewrite xorb_false_r.
  - rewrite toggle_all_cons.
    assert (Hnd' : NoDup (Favorites (ToggleFavorite name s)))
      by (apply toggle_NoDup; exact Hnd).
    destruct (IH (ToggleFavorite name s) Hnd') as (H1 & H2).
    split; [exact H1|]. rewrite H2. unfold IsFavorite, ToggleFavorite.
    cbn [Favorites set_Favorites count_occ].
    destruct (string_dec name n) as [->|Hne].
    + rewrite toggle_flips by exact Hnd.
      rewrite Nat.odd_succ, <- Nat.negb_odd.
      now destruct (contains (Favorites s) n),
                   (Nat.odd (count_occ string_dec rest n)).
    + rewrite toggle_other by congruence. reflexivity.
Qed.

Lemma remove_first_length (favs favs' : list string) (name : string) :
  remove_first favs name = Some favs' ->
  List.length favs = S (List.length favs').
Proof.
  revert favs'. induction favs as [|fav rest IH]; simpl; intros favs' H.
  - discriminate.
  - destruct (String.eqb fav name).
    + now injection H as <-.
    + destruct (remove_first rest name) as [rest'|]; [|discriminate].
      injection H as <-. simpl. now rewrite (IH rest' eq_refl).
Qed.

(** X19.  A toggle changes the list by one entry, with or without
    duplicates: it removes one entry when the name is a favorite and adds
    one when it is not. *)
Theorem ToggleFavorite_length (s : State) (name : string) :
  List.length (Favorites (ToggleFavorite name s))
  = if IsFavorite s name
    then (List.length (Favorites s) - 1)%nat
    else (List.length (Favorites s) + 1)%nat.
Proof.
  unfold IsFavorite, ToggleFavorite. cbn [Favorites set_Favorites].
  unfold toggle.
  destruct (remove_first (Favorites s) name) as [favs'|] eqn:E.
  - rewrite (remove_first_length _ _ _ E).
    destruct (contains (Favorites s) name) eqn:C; [lia|].
    apply remove_first_None in C. congruence.
  - apply remove_first_None in E. rewrite E, length_app. reflexivity.
Qed.

Lemma filter_all {A : Type} (f : A -> bool) (xs : list A) :
  (forall x, In x xs -> f x = true) -> List.filter f xs = xs.
Proof.
  induction xs as [|x rest IH]; intros H; simpl.
  - reflexivity.
  - rewrite (H x (or_introl eq_refl)). f_equal. apply IH.
    intros y Hy. apply H. now right.
Qed.

(** X20.  What the filters show.  With the filters of a new store every
    installed package is shown; the packages shown never outnumber the
    installed count that [SetInstalled] records; with [OnlyOutdated] or
    [OnlyPinned] every package shown has the flag; and with both types
    hidden a package is still shown when its type is neither of the
    two. *)
Theorem filters_show (s : State) :
  (shows_everything s -> GetFilteredPackages s = InstalledPackages s)
  /\ (forall packages,
        GoInt.len (GetFilteredPackages (SetInstalled packages s))
        <= GetInstalledCount (SetInstalled packages s))
  /\ (forall pkg, In pkg (GetFilteredPackages s) ->
        In pkg (InstalledPackages s)
        /\ (OnlyOutdated s = true -> Outdated pkg = true)
        /\ (OnlyPinned s = true -> Pinned pkg = true))
  /\ (ShowFormulae s = false -> ShowCasks s = false ->
      OnlyOutdated s = false -> OnlyPinned s = false ->
      forall pkg, In pkg (GetFilteredPackages s)
                  <-> In pkg (InstalledPackages s)
                      /\ Type_ pkg <> TypeFormula /\ Type_ pkg <> TypeCask).
Proof.
  unfold GetFilteredPackages. repeat split.
  - intros (H1 & H2 & H3 & H4). apply filter_all. intros pkg _.
    unfold keeps. now rewrite H1, H2, H3, H4.
  - intros packages. unfold GetInstalledCount, GoInt.len.
    cbn [InstalledPackages TotalInstalled SetInstalled].
    pose proof (filter_length_le (keeps (SetInstalled packages s)) packages).
    unfold GoInt.len. lia.
  - apply filter_In in H. tauto.
  - intros Ho. apply filter_In in H. destruct H as [_ H].
    unfold keeps in H. rewrite Ho in H.
    destruct (Outdated pkg); [reflexivity|].
    repeat match type of H with
      | (if ?c then _ else _) = true => destruct c; try discriminate
      end.
  - intros Hp. apply filter_In in H. destruct H as [_ H].
    unfold keeps in H. rewrite Hp in H.
    destruct (Pinned pkg); [reflexivity|].
    repeat match type of H with
      | (if ?c then _ else _) = true => destruct c; try discriminate
      end.
  - apply filter_In in H3. tauto.
  - apply filter_In in H3. destruct H3 as [_ H3]. unfold keeps in H3.
    rewrite H, H0 in H3. cbn [negb andb] in H3. intros Heq.
    rewrite Heq in H3. discriminate.
  - apply filter_In in H3. destruct H3 as [_ H3]. unfold keeps in H3.
    rewrite H, H0 in H3. cbn [negb andb] in H3. intros Heq.
    rewrite Heq in H3.
    destruct (String.eqb TypeCask TypeFormula); discriminate.
  - intros (Hin & Hf & Hc). apply filter_In. split; [exact Hin|].
    unfold keeps. rewrite H, H0, H1, H2. cbn [negb andb].
    destruct (String.eqb_spec (Type_ pkg) TypeFormula); [contradiction|].
    destruct (String.eqb_spec (Type_ pkg) TypeCask); [contradiction|].
    reflexivity.
Qed.

(** ** What the panels show *)

Lemma last_skipn {A : Type} (xs : list A) (k : nat) (d : A) :
  (k < List.length xs)%nat -> last (skipn k xs) d = last xs d.
Proof.
  revert k. induction xs as [|x rest IH]; intros k Hk; simpl in Hk.
  - lia.
  - destruct k as [|k]; [reflexivity|].
    rewrite skipn_cons, IH by lia.
    destruct rest; [simpl in Hk; lia | reflexivity].
Qed.

Section Panels.

Context {L : Library}.

(** X21.  The log panel follows the tail.  For a log within the cap and a
    panel height of ordinary size, the lines written are the last
    [max 1 (height - 4)] entries of the log, all of them when there are
    fewer, in their order and each with the style of its text; so the
    entry appended last is always the last line shown. *)
Theorem logs_panel_follows_tail (v : DashboardView) (h : Z) :
  (List.length (logs v) <= 1000)%nat ->
  - 2 ^ 62 < h < 2 ^ 62 ->
  let room := Z.to_nat (Z.max 1 (h - 4)) in
  let shown := renderLogsPanel_lines v h in
  List.map snd shown = skipn (List.length (logs v) - room) (logs v)
  /\ List.length shown = Nat.min (List.length (logs v)) room
  /\ (forall style logLine,
        In (style, logLine) shown -> style = logStyle logLine)
  /\ (forall msg,
        last (List.map snd (renderLogsPanel_lines (addLog msg v) h)) "" = msg).
Proof.
  intros Hcap Hh room shown.
  assert (Hgen : forall w : DashboardView,
             (List.length (logs w) <= 1000)%nat ->
             List.map snd (renderLogsPanel_lines w h)
             = skipn (List.length (logs w) - room) (logs w)).
  { intros w Hw. unfold renderLogsPanel_lines, GoInt.len.
    destruct (Z.eqb_spec (Z.of_nat (List.length (logs w))) 0) as [E|E].
    - destruct (logs w); [now rewrite skipn_nil | simpl in E; lia].
    - cbv zeta. rewrite (sub_small h 4) by lia.
      rewrite map_map. cbn [snd]. rewrite map_id. f_equal. subst room.
      destruct (Z.ltb_spec (h - 4) 1);
        match goal with
        | |- context [if ?a >? ?b then _ else _] =>
            destruct (Z.gtb_spec a b)
        end;
        rewrite ?sub_small by lia; lia. }
  split; [exact (Hgen v Hcap)|].
  split.
  { rewrite <- (length_map snd shown). subst shown.
    rewrite (Hgen v Hcap), length_skipn. lia. }
  split.
  { intros style logLine. subst shown. unfold renderLogsPanel_lines.
    destruct (GoInt.len (logs v) =? 0); [intros []|].
    intros H. apply in_map_iff in H. destruct H as (l & E & _).
    now injection E as <- <-. }
  intros msg.
  rewrite (Hgen (addLog msg v)) by apply append_log_capped.
  unfold addLog. fields.
  destruct (append_log_last (logs v) msg) as [older ->].
  rewrite last_skipn.
  - apply last_last.
  - rewrite length_app. simpl. subst room. lia.
Qed.

Lemma Contains_prefix (s substr : string) :
  String.prefix substr s = true -> Contains s substr = true.
Proof. intros H. destruct s; cbn [Contains]; now rewrite H. Qed.

(** X22.  The colour of a log line goes by its text, errors first.  The
    line that the controller writes for a failure is in the error style
    whatever the error says.  The line that it writes for a success is in
    the success style unless the message holds [Error] or [error], as the
    name of a package may; then it is in the error style. *)
Theorem log_styles (text : string) :
  logStyle ("Error: " ++ text) = ErrorStyle
  /\ logStyle ("✓ " ++ text)
     = if Contains text "Error" || Contains text "error"
       then ErrorStyle else SuccessMessageStyle.
Proof.
  split.
  - unfold logStyle. rewrite (Contains_prefix ("Error: " ++ text) "Error");
      reflexivity.
  - unfold logStyle.
    assert (H1 : Contains ("✓ " ++ text) "Error" = Contains text "Error")
      by reflexivity.
    assert (H2 : Contains ("✓ " ++ text) "error" = Contains text "error")
      by reflexivity.
    assert (H3 : Contains ("✓ " ++ text) "✓" = true)
      by (apply Contains_prefix; reflexivity).
    rewrite H1, H2, H3, orb_true_r. reflexivity.
Qed.




End Panels.

(** ** The outdated list *)

Section Outdated.

Context {L : Library} {Ov : App.Others}.

(** X24.  What a loaded outdated list does.  The store records the list
    and its length, which is what the upgrade of all packages looks at; a
    failed request arrives as the empty list and so as a count of zero.
    The dashboard returns to idle and keeps its selection; the packages
    shown are the same, and the line added to the log counts the installed
    packages that carry the outdated flag, whatever the list that
    arrived. *)
Theorem outdated_loaded_counts_flags (m : App.Model)
    (packages : list OutdatedPackage) (err : string) :
  settled m ->
  let r := App.Update m (app_OutdatedLoadedMsg packages) in
  let v' := App.home (fst r) in
  let flagged := countOutdated (GetFilteredPackages (App.store m)) in
  GetOutdatedCount (state v') = GoInt.len packages
  /\ App.on_failure client_Outdated err = Some (app_OutdatedLoadedMsg [])
  /\ GetFilteredPackages (state v') = GetFilteredPackages (App.store m)
  /\ operationInProgress v' = false
  /\ installedIndex v' = installedIndex (App.home m)
  /\ selectedPkg v' = selectedPkg (App.home m)
  /\ snd r = []
  /\ exists older,
       logs v'
       = (older
          ++ [if flagged >? 0
              then ("⚠ Found " ++ GoInt.itoa flagged
                    ++ " outdated packages")%string
              else "✓ All packages are up to date"])%list.
Proof.
  intros (Hview & Hdlg & Hvis) r v' flagged. subst v' r.
  set (v1 := with_state (SetOutdated packages (state (App.home m)))
               (App.home m)).
  assert (Hup : App.Update m (app_OutdatedLoadedMsg packages)
                = (App.with_home (fst (Update v1 (OutdatedLoadedMsg packages)))
                     (App.with_home v1 m),
                   snd (Update v1 (OutdatedLoadedMsg packages)))).
  { unfold App.Update. rewrite andb_false_r, Hdlg. cbn iota. rewrite Hdlg.
    cbn [App.dispatch]. unfold App.updateView, App.with_store, App.store.
    cbn [App.currentView App.home App.with_home]. rewrite Hview. fold v1.
    now destruct (Update v1 (OutdatedLoadedMsg packages)). }
  rewrite Hup. cbn [fst snd App.home App.with_home].
  assert (Hv1 : IsVisible (dialog v1) = false) by exact Hvis.
  unfold Update. rewrite Hv1.
  unfold updateInstalledList, end_operation, addLog. fields.
  change (GetFilteredPackages (state v1))
    with (GetFilteredPackages (App.store m)).
  fold flagged.
  destruct (flagged >? 0); fields; repeat split; apply append_log_last.
Qed.

End Outdated.

(** ** The package list component *)

Section PackageListProperties.

Context {W : PackageLists.ItemList}.

Import PackageLists.

Lemma flip_at_packages (idx : nat) (its : list PackageItem) :
  List.map pkg (flip_at idx its) = List.map pkg its.
Proof.
  revert idx. induction its as [|it rest IH]; intros idx.
  - now destruct idx.
  - destruct idx as [|idx]; simpl; [reflexivity|]. now rewrite IH.
Qed.

Lemma filter_cleared (its : list PackageItem) :
  List.filter selected
    (List.map (fun item => {| pkg := pkg item; selected := false |}) its)
  = [].
Proof. induction its as [|it rest IH]; simpl; [reflexivity | exact IH]. Qed.

(** X25.  Selecting never touches the packages.  Whatever the message,
    and after a toggle or a clearing of the selection, the component lists
    the same packages in the same order, and the selected packages are
    among them; a list just set, or just cleared, has nothing selected. *)
Theorem PackageList_keeps_packages (l : PackageList) (msg : Msg) :
  List.map pkg (items (fst (PackageLists.Update l msg)))
  = List.map pkg (items l)
  /\ List.map pkg (items (ToggleSelection l)) = List.map pkg (items l)
  /\ List.map pkg (items (ClearSelection l)) = List.map pkg (items l)
  /\ (forall p, In p (GetSelected l) -> In p (List.map pkg (items l)))
  /\ GetSelected (ClearSelection l) = []
  /\ (forall packages,
        GetSelected (SetPackages packages l) = []
        /\ List.map pkg (items (SetPackages packages l)) = packages).
Proof.
  assert (Ht : List.map pkg (items (ToggleSelection l))
               = List.map pkg (items l)).
  { unfold ToggleSelection. cbv zeta.
    destruct ((Index (list_ l) >=? 0)
              && (Index (list_ l) <? GoInt.len (items l)));
      [|reflexivity].
    cbn [items]. apply flip_at_packages. }
  repeat split.
  - unfold PackageLists.Update. cbv zeta.
    destruct msg; try reflexivity.
    destruct (multiMode l && Matches key [" "; "space"]);
      [exact Ht | reflexivity].
  - exact Ht.
  - unfold ClearSelection. cbn [items]. rewrite map_map. cbn [pkg].
    reflexivity.
  - intros p Hp. unfold GetSelected in Hp. apply in_map_iff in Hp.
    destruct Hp as (it & <- & Hit). apply filter_In in Hit.
    apply in_map. tauto.
  - unfold GetSelected, ClearSelection. cbn [items].
    now rewrite filter_cleared.
  - unfold GetSelected, SetPackages. cbn [items].
    induction packages as [|p rest IH]; [reflexivity | exact IH].
  - unfold SetPackages. cbn [items]. rewrite map_map. cbn [pkg].
    apply map_id.
Qed.

Lemma flip_at_selected (its : list PackageItem) :
  forall (idx : nat) (it : PackageItem),
    nth_error its idx = Some it ->
    List.length (List.filter selected (flip_at idx its))
    = if selected it
      then (List.length (List.filter selected its) - 1)%nat
      else (List.length (List.filter selected its) + 1)%nat.
Proof.
  induction its as [|x rest IH]; intros idx it Hnth.
  - destruct idx; discriminate.
  - destruct idx as [|idx]; cbn [nth_error flip_at] in *.
    + injection Hnth as ->. cbn [List.filter selected].
      destruct (selected it); cbn [negb List.length]; lia.
    + cbn [List.filter]. specialize (IH idx it Hnth).
      destruct (selected x); cbn [List.length]; rewrite IH.
      * destruct (selected it) eqn:E; [|lia].
        assert (0 < List.length (List.filter selected rest))%nat; [|lia].
        apply nth_error_In in Hnth.
        assert (Hin : In it (List.filter selected rest))
          by (apply filter_In; tauto).
        destruct (List.filter selected rest); [destruct Hin | simpl; lia].
      * reflexivity.
Qed.

(** X26.  A toggle selects or deselects the highlighted package and no
    other: when the index of the widget is within the items, the number of
    selected packages goes up by one if the highlighted item was not
    selected and down by one if it was; when the index is outside, nothing
    changes. *)
Theorem ToggleSelection_counts (l : PackageList) :
  match GetCurrentPackage l with
  | Some _ =>
      exists it,
        nth_error (items l) (Z.to_nat (Index (list_ l))) = Some it
        /\ List.length (GetSelected (ToggleSelection l))
           = if selected it
             then (List.length (GetSelected l) - 1)%nat
             else (List.length (GetSelected l) + 1)%nat
  | None => ToggleSelection l = l
  end.
Proof.
  unfold GetCurrentPackage, ToggleSelection, GetSelected. cbv zeta.
  destruct ((Index (list_ l) >=? 0)
            && (Index (list_ l) <? GoInt.len (items l))) eqn:Hin;
    [|reflexivity].
  destruct (nth_error (items l) (Z.to_nat (Index (list_ l))))
    as [it|] eqn:Hnth.
  - cbn [option_map]. exists it. split; [reflexivity|].
    cbn [items]. rewrite !length_map. now apply flip_at_selected.
  - exfalso. apply nth_error_None in Hnth.
    apply andb_prop in Hin. destruct Hin as [H0 H1].
    unfold GoInt.len in H1. lia.
Qed.

Lemma substring_length (n : nat) (s : string) :
  (n <= String.length s)%nat -> String.length (String.substring 0 n s) = n.
Proof.
  revert n. induction s as [|c rest IH]; intros n Hn; simpl in Hn.
  - assert (n = 0)%nat by lia. subst. reflexivity.
  - destruct n as [|n]; [reflexivity|]. simpl. f_equal. apply IH. lia.
Qed.

Lemma append_length (a b : string) :
  String.length (a ++ b) = (String.length a + String.length b)%nat.
Proof. induction a as [|c rest IH]; simpl; [reflexivity | now rewrite IH]. Qed.

(** X27.  The description of an item without a version is the description
    of the package when that has 60 bytes or fewer, and otherwise its
    first 57 bytes followed by three dots: it never has more than 60
    bytes. *)
Theorem Description_at_most_60 (i : PackageItem) :
  Version (pkg i) = "" ->
  (String.length (PackageLists.Description i) <= 60)%nat
  /\ ((String.length (Brew.Description (pkg i)) <= 60)%nat ->
      PackageLists.Description i = Brew.Description (pkg i))
  /\ ((60 < String.length (Brew.Description (pkg i)))%nat ->
      PackageLists.Description i
      = String.substring 0 57 (Brew.Description (pkg i)) ++ "...").
Proof.
  intros Hv. unfold PackageLists.Description. rewrite Hv. cbv zeta.
  cbn [String.eqb negb andb].
  destruct (Z.gtb_spec
              (Z.of_nat (String.length (Brew.Description (pkg i)))) 60)
    as [Hlong|Hshort].
  - repeat split; try lia.
    rewrite append_length, substring_length by lia. simpl. lia.
  - repeat split; try lia.
Qed.

End PackageListProperties.

(** ** Instances of the further properties *)

Lemma Update_keeps_log_cap_witness :
  (List.length (logs sample_dashboard) <= 1000)%nat
  /\ (List.length (logs (fst (Update sample_dashboard (KeyMsg "j"))))
      <= 1000)%nat.
Proof.
  assert (H : (List.length (logs sample_dashboard) <= 1000)%nat)
    by (vm_compute; lia).
  exact (conj H (Update_keeps_log_cap sample_dashboard (KeyMsg "j") H)).
Defined.

Lemma Update_focus_implies_search_witness :
  let v := after sample_dashboard [KeyMsg "tab"] in
  Focused (searchInput (fst (Update v (KeyMsg "g")))) = true
  /\ focusedPanel (fst (Update v (KeyMsg "g"))) = PanelSearch.
Proof.
  intros v.
  assert (H1 : Focused (searchInput v) = true -> focusedPanel v = PanelSearch)
    by (intros _; vm_compute; reflexivity).
  assert (H2 : Focused (searchInput (fst (Update v (KeyMsg "g")))) = true)
    by (vm_compute; reflexivity).
  exact (conj H2 (Update_focus_implies_search v (KeyMsg "g") H1 H2)).
Defined.

Lemma visible_dialog_swallows_witness :
  let v := after sample_dashboard [KeyMsg "d"] in
  IsVisible (dialog v) = true
  /\ Update v (SuccessMsgView "done") = (v, []).
Proof.
  intros v.
  assert (H : IsVisible (dialog v) = true) by (vm_compute; reflexivity).
  split; [exact H|].
  apply (proj1 (visible_dialog_swallows v H)). intros key. discriminate.
Defined.

Lemma Dialog_resolves_on_enter_or_esc_witness :
  let d := Show (NewConfirmDialog "Confirm" "Run brew doctor?") in
  visible d = true /\ dialogType d = DialogConfirm
  /\ visible (fst (Components.Update d (KeyMsg "enter"))) = false.
Proof.
  intros d.
  assert (Hv : visible d = true) by reflexivity.
  assert (Ht : dialogType d = DialogConfirm) by reflexivity.
  pose proof (Dialog_resolves_on_enter_or_esc d (KeyMsg "enter") Hv Ht) as H.
  vm_compute in H.
  exact (conj Hv (conj Ht (proj1 H))).
Defined.

Lemma Dialog_selection_in_range_witness :
  let d := Show (NewConfirmDialog "Confirm" "Run brew doctor?") in
  let d' := fst (Components.Update d (KeyMsg "right")) in
  0 <= selectedBtn d < GoInt.len (buttons d)
  /\ 0 <= selectedBtn d' < GoInt.len (buttons d').
Proof.
  intros d d'.
  assert (H1 : 0 <= selectedBtn d < GoInt.len (buttons d))
    by (vm_compute; split; [discriminate | reflexivity]).
  assert (H2 : GoInt.len (buttons d) <= GoInt.max_int)
    by (vm_compute; discriminate).
  exact (conj H1 (proj2 (Dialog_selection_in_range d (KeyMsg "right") H1 H2))).
Defined.

Lemma global_action_two_phases_witness :
  let v := NewDashboardView (L := plain_widgets) NewState in
  ready_to_ask v
  /\ commands v [KeyMsg "c"; KeyMsg "enter"; DialogMsg true ""]
     = [[]; [Emit (DialogMsg true "")]; [client_Cleanup]].
Proof.
  intros v.
  assert (H : ready_to_ask v) by (vm_compute; repeat split).
  assert (Hin : In ("c", "cleanup", client_Cleanup) global_requests)
    by (right; left; reflexivity).
  exact (conj H (proj1 (global_action_two_phases v "c" "cleanup"
                          client_Cleanup H Hin))).
Defined.

Lemma package_action_two_phases_witness :
  let v := after sample_dashboard
             [PackagesLoadedMsg [formula "git" false; formula "wget" true]] in
  ready_to_ask v
  /\ selectedPkg v = Some (formula "git" false)
  /\ commands v [KeyMsg "x"; KeyMsg "enter"; DialogMsg true ""]
     = [[]; [Emit (DialogMsg true "")]; [client_Uninstall "git" false]].
Proof.
  intros v.
  assert (H : ready_to_ask v) by (vm_compute; repeat split).
  assert (Hp : focusedPanel v = PanelInstalled) by (vm_compute; reflexivity).
  assert (Hs : selectedPkg v = Some (formula "git" false))
    by (vm_compute; reflexivity).
  exact (conj H (conj Hs (proj1 (proj1 (package_action_two_phases v
                                          (formula "git" false) H Hp Hs))))).
Defined.

Lemma upgrade_all_needs_outdated_witness :
  let v := NewDashboardView (L := plain_widgets) NewState in
  ready_to_ask v
  /\ GetOutdatedCount (state v) <= 0
  /\ Update v (KeyMsg "U") = (v, []).
Proof.
  intros v.
  assert (H : ready_to_ask v) by (vm_compute; repeat split).
  assert (Hp : focusedPanel v = PanelInstalled) by (vm_compute; reflexivity).
  assert (Hc : GetOutdatedCount (state v) <= 0) by (vm_compute; discriminate).
  exact (conj H (conj Hc (proj1 (upgrade_all_needs_outdated v H Hp) Hc))).
Defined.

Lemma search_input_keys_witness :
  let v := after sample_dashboard [KeyMsg "tab"; KeyMsg "g"] in
  Focused (searchInput v) = true
  /\ Update v (KeyMsg "enter") = (with_searching true v, [client_Search "g"]).
Proof.
  intros v.
  assert (Hd : IsVisible (dialog v) = false) by (vm_compute; reflexivity).
  assert (Hf : Focused (searchInput v) = true) by (vm_compute; reflexivity).
  assert (Hq : Value (searchInput v) <> "") by (vm_compute; discriminate).
  exact (conj Hf (proj1 (proj2 (proj2 (search_input_keys v "enter" Hd Hf)))
                    Hq)).
Defined.

Lemma search_then_install_witness :
  let v := after sample_dashboard [KeyMsg "tab"; KeyMsg "g"] in
  let htop :=
    {| Name := "htop"; FullName := "htop"; Version := "3.3";
       Description := ""; Homepage := ""; Type_ := TypeFormula;
       Installed := false; Outdated := false; Pinned := false |} in
  focusedPanel v = PanelSearch
  /\ commands v [SearchResultsMsg [htop]; KeyMsg "enter"; KeyMsg "enter";
                 DialogMsg true ""]
     = [[client_Info "htop" false]; []; [Emit (DialogMsg true "")];
        [client_Install "htop" false]].
Proof.
  intros v htop.
  assert (Hd : IsVisible (dialog v) = false) by (vm_compute; reflexivity).
  assert (Ht : dialogType (dialog v) = DialogConfirm)
    by (vm_compute; reflexivity).
  assert (Hp : focusedPanel v = PanelSearch) by (vm_compute; reflexivity).
  assert (Hi : Installed htop = false) by reflexivity.
  exact (conj Hp (proj1 (search_then_install v htop [] Hd Ht Hp Hi))).
Defined.

Lemma tab_cycles_focus_witness :
  let v := after sample_dashboard [KeyMsg "tab"] in
  focusedPanel v = PanelSearch
  /\ focusedPanel (after v [KeyMsg "tab"; KeyMsg "tab"; KeyMsg "tab"])
     = focusedPanel v.
Proof.
  intros v.
  assert (Hd : IsVisible (dialog v) = false) by (vm_compute; reflexivity).
  assert (Hp : focusedPanel v = PanelSearch) by (vm_compute; reflexivity).
  exact (conj Hp (proj1 (tab_cycles_focus v Hd (fun _ => Hp)))).
Defined.

Lemma shell_keeps_only_global_keys_witness :
  let m := fst (shell_run sample_model [WindowSizeMsg 80 30]) in
  settled m /\ fst (App.Update m (KeyMsg "q")) = m.
Proof.
  intros m.
  assert (Hs : settled m) by (vm_compute; auto).
  assert (Hin : In "q" global_keys) by (right; left; reflexivity).
  exact (conj Hs (proj2 (shell_keeps_only_global_keys m "q" Hs) Hin)).
Defined.

Lemma success_refreshes_lists_witness :
  let m := fst (shell_run sample_model [WindowSizeMsg 80 30]) in
  settled m
  /\ snd (shell_run m [SuccessMsgView "Installed htop"; RefreshPackagesMsg])
     = [[Emit RefreshPackagesMsg]; [client_ListInstalled; client_Outdated]].
Proof.
  intros m.
  assert (Hs : settled m) by (vm_compute; auto).
  exact (conj Hs (proj1 (success_refreshes_lists m "Installed htop" Hs))).
Defined.

Lemma navigate_then_back_witness :
  let there := fst (App.Update sample_model (app_NavigateMsg ViewSearch)) in
  IsVisible (App.dialog sample_model) = false
  /\ App.currentView there = ViewSearch
  /\ App.currentView (fst (App.Update there app_BackMsg)) = ViewHome.
Proof.
  intros there.
  assert (Hd : IsVisible (App.dialog sample_model) = false) by reflexivity.
  destruct (navigate_then_back sample_model ViewSearch Hd)
    as (H1 & _ & H3 & _).
  exact (conj Hd (conj H1 H3)).
Defined.

Lemma packages_loaded_resets_selection_witness :
  let m := fst (shell_run sample_model [WindowSizeMsg 80 30; KeyMsg "j"]) in
  let r := App.Update m (app_PackagesLoadedMsg [formula "htop" false]) in
  settled m
  /\ installedIndex (App.home m) = 1
  /\ installedIndex (App.home (fst r)) = 0
  /\ GetInstalledCount (state (App.home (fst r))) = 1.
Proof.
  intros m r.
  assert (Hs : settled m) by (vm_compute; auto).
  assert (Hi : installedIndex (App.home m) = 1) by (vm_compute; reflexivity).
  destruct (packages_loaded_resets_selection m [formula "htop" false] Hs)
    as (_ & H2 & H3 & _).
  exact (conj Hs (conj Hi (conj H3 H2))).
Defined.

Lemma Update_keeps_deps_scroll_witness :
  let v := after sample_dashboard
             [PackageInfoLoadedMsg
                (Some (info_of (formula "git" false) ["gettext"; "pcre2"]))] in
  deps_scroll_ok v /\ deps_scroll_ok (fst (Update v (KeyMsg "tab"))).
Proof.
  intros v.
  assert (H : deps_scroll_ok v)
    by (vm_compute; repeat split; try discriminate; reflexivity).
  assert (Hm : small_info (KeyMsg "tab")) by exact I.
  exact (conj H (proj1 (Update_keeps_deps_scroll v (KeyMsg "tab") H Hm))).
Defined.

Lemma toggles_count_parity_witness :
  let names := ["git"; "wget"; "git"; "git"] in
  NoDup (Favorites NewState)
  /\ IsFavorite (toggle_all names NewState) "git" = true
  /\ IsFavorite (toggle_all ["git"; "git"] NewState) "git" = false.
Proof.
  intros names.
  assert (H : NoDup (Favorites NewState)) by constructor.
  split; [exact H|]. split.
  - exact (proj2 (toggles_count_parity names NewState "git" H)).
  - exact (proj2 (toggles_count_parity ["git"; "git"] NewState "git" H)).
Defined.

Lemma outdated_loaded_counts_flags_witness :
  let m := fst (shell_run sample_model [WindowSizeMsg 80 30]) in
  let r := App.Update m (app_OutdatedLoadedMsg []) in
  settled m
  /\ GetOutdatedCount (state (App.home (fst r))) = 0
  /\ operationInProgress (App.home (fst r)) = false.
Proof.
  intros m r.
  assert (Hs : settled m) by (vm_compute; auto).
  destruct (outdated_loaded_counts_flags m [] "exit status 1" Hs)
    as (H1 & _ & _ & H4 & _).
  exact (conj Hs (conj H1 H4)).
Defined.

Lemma logs_panel_follows_tail_witness :
  let v := after sample_dashboard
             [SuccessMsgView "Installed htop"; ErrorMsgView "no network"] in
  (List.length (logs v) <= 1000)%nat
  /\ List.map snd (renderLogsPanel_lines v 5) = ["Error: no network"].
Proof.
  intros v.
  assert (H : (List.length (logs v) <= 1000)%nat) by (vm_compute; lia).
  assert (Hh : - 2 ^ 62 < 5 < 2 ^ 62) by lia.
  pose proof (proj1 (logs_panel_follows_tail v 5 H Hh)) as Hshown.
  vm_compute in Hshown.
  split; [exact H|].
  vm_compute. exact Hshown.
Defined.


Lemma Description_at_most_60_witness :
  let W := {| PackageLists.list_Model := unit;
              PackageLists.Index := fun _ => 0;
              PackageLists.SetItems := fun _ l => l;
              PackageLists.list_Update := fun l _ => l |} in
  let p :=
    {| Name := "jq"; FullName := "jq"; Version := "";
       Description :=
         "Lightweight and flexible command-line JSON processor for everyone";
       Homepage := ""; Type_ := TypeFormula; Installed := true;
       Outdated := false; Pinned := false |} in
  let i := {| PackageLists.pkg := p; PackageLists.selected := false |} in
  Version (PackageLists.pkg i) = ""
  /\ (String.length (PackageLists.Description i) <= 60)%nat.
Proof.
  intros W p i.
  assert (H : Version (PackageLists.pkg i) = "") by reflexivity.
  exact (conj H (proj1 (Description_at_most_60 i H))).
Defined.
